(** * Verification of [serve.py]: the OCR front end

    A shallow embedding of the pure and stateful parts of [serve.py]
    (structure analysis, history, share links, language catalog,
    preprocessing, the extract-text handler) and the theorems that relate
    them to the repository's specification.

    Conventions.
    - A Python [str] is a sequence of Unicode code points: [list N].
    - A Python [int] is a [Z]; a Python [float] is a primitive binary64 float.
    - [st.session_state] is a record of optional entries; a key is present
      when its field is [Some _]. The dict of shared results is a [gmap].
    - A function that can raise returns a [result]; a block that changes
      the session threads it explicitly, and keeps the changes made before
      an exception.
    - Library code the file calls but does not define (Pillow, requests,
      the Unicode character database above ASCII, the rendering of floats
      and exceptions as text) is a parameter of the section that uses it;
      MD5, UTF-8 and decimal rendering are written out.
    - The handler keeps a log of what it does that is visible from outside
      (calls into Pillow, the HTTP request, the messages put on the page),
      in order. *)

From Stdlib Require Import ZArith NArith Ascii String List Bool Lia.
From Stdlib Require Import Strings.Byte DecimalString DecimalZ Sorting.Sorted.
From Stdlib Require Import PrimFloat.
From stdpp Require Import base list gmap.

Local Open Scope Z_scope.

(** ** Python strings *)

Module PyStr.

Definition codepoint := N.
Definition str := list codepoint.

(** An ASCII literal of the source as a [str]. *)
Definition lit (s : string) : str :=
  map N_of_ascii (list_ascii_of_string s).
#[global] Arguments lit : simpl never.

(** [len(s)] *)
Definition len {A} (s : list A) : Z := Z.of_nat (length s).

(** [Py_UNICODE_ISSPACE]: the code points [str.strip()] removes. *)
Definition isspace (c : codepoint) : bool :=
  ((9 <=? c) && (c <=? 13) || (28 <=? c) && (c <=? 32)
   || (c =? 133) || (c =? 160) || (c =? 5760)
   || (8192 <=? c) && (c <=? 8202)
   || (c =? 8232) || (c =? 8233) || (c =? 8239) || (c =? 8287)
   || (c =? 12288))%N.

(** [s.lstrip()], [s.rstrip()], [s.strip()] *)
Fixpoint lstrip (s : str) : str :=
  match s with
  | c :: s' => if isspace c then lstrip s' else s
  | [] => []
  end.

Definition rstrip (s : str) : str := rev (lstrip (rev s)).

Definition strip (s : str) : str := rstrip (lstrip s).
#[global] Arguments strip : simpl never.

(** [s.startswith(prefix)] *)
Fixpoint startswith (s prefix : str) : bool :=
  match prefix, s with
  | [], _ => true
  | p :: prefix', c :: s' => (c =? p)%N && startswith s' prefix'
  | _ :: _, [] => false
  end.

(** [s.startswith((p1, p2, ...))] *)
Definition startswith_any (s : str) (prefixes : list str) : bool :=
  existsb (startswith s) prefixes.

(** [c in s] for a one-character string [c] *)
Definition contains_char (c : codepoint) (s : str) : bool :=
  existsb (N.eqb c) s.

(** [s.count(sub)] for a non-empty [sub]: occurrences are counted from the
    left and do not overlap; [skip] is the number of characters of the last
    match still to be passed. *)
Fixpoint count_from (skip : nat) (s sub : str) : Z :=
  match s with
  | [] => 0
  | _ :: s' =>
      match skip with
      | S k => count_from k s' sub
      | O => if startswith s sub
             then 1 + count_from (length sub - 1) s' sub
             else count_from 0 s' sub
      end
  end.

Definition count (s sub : str) : Z :=
  match sub with
  | [] => len s + 1
  | _ => count_from 0 s sub
  end.

(** [s.split(sep)] for a one-character separator: always at least one
    piece, one more than the number of separators. *)
Fixpoint split (s : str) (sep : codepoint) : list str :=
  match s with
  | [] => [[]]
  | c :: s' =>
      if (c =? sep)%N then [] :: split s' sep
      else match split s' sep with
           | w :: ws => (c :: w) :: ws
           | [] => [[c]]
           end
  end.

(** The character database: exact on ASCII, the tables of the running
    interpreter above it. *)
Record UnicodeData := {
  ucd_isupper : codepoint -> bool;
  ucd_islower : codepoint -> bool;
  ucd_istitle : codepoint -> bool
}.

Section Case.
Variable ucd : UnicodeData.

Definition ISUPPER (c : codepoint) : bool :=
  if (c <? 128)%N then (65 <=? c)%N && (c <=? 90)%N else ucd_isupper ucd c.
Definition ISLOWER (c : codepoint) : bool :=
  if (c <? 128)%N then (97 <=? c)%N && (c <=? 122)%N else ucd_islower ucd c.
Definition ISTITLE (c : codepoint) : bool :=
  if (c <? 128)%N then false else ucd_istitle ucd c.

(** The loop of [unicode_isupper]: a lower-case or title-case character
    answers [False] at once; otherwise the answer is whether an upper-case
    character was seen. *)
Fixpoint isupper_loop (cased : bool) (s : str) : bool :=
  match s with
  | [] => cased
  | ch :: s' =>
      if ISLOWER ch || ISTITLE ch then false
      else isupper_loop (cased || ISUPPER ch) s'
  end.

Definition isupper (s : str) : bool := isupper_loop false s.

(** A cased character, as [str.isupper] sees it. *)
Definition cased (c : codepoint) : bool :=
  ISUPPER c || ISLOWER c || ISTITLE c.
End Case.

End PyStr.
Import PyStr.

(** ** Text structure analyzer: [analyze_text_structure] *)

Module Analyzer.

(** One classified line: [{'line': i+1, 'text': line}]. *)
Record Entry := { line : Z; text : str }.

(** The [structure] dict: five lists under five fixed keys. *)
Record Structure := {
  headings : list Entry;
  lists : list Entry;
  paragraphs : list Entry;
  tables : list Entry;
  code_blocks : list Entry
}.

Definition empty_structure : Structure :=
  {| headings := []; lists := []; paragraphs := []; tables := [];
     code_blocks := [] |}.

(** [enumerate(lines)], counting from [start]. *)
Fixpoint enumerate_from {A} (start : Z) (l : list A) : list (Z * A) :=
  match l with
  | [] => []
  | x :: l' => (start, x) :: enumerate_from (start + 1) l'
  end.

Definition enumerate {A} (l : list A) : list (Z * A) := enumerate_from 0 l.

(** [not line] *)
Definition falsy (s : str) : bool :=
  match s with [] => true | _ :: _ => false end.

(** The prefixes of the list test: a bullet (U+2022), dash, star, and the
    numerals one to three followed by a dot. *)
Definition list_prefixes : list str :=
  [[8226%N]; lit "-"; lit "*"; lit "1."; lit "2."; lit "3."].

(** The characters of the code test: braces, parentheses, semicolon, equals. *)
Definition code_chars : list codepoint := [123; 125; 40; 41; 59; 61]%N.

(** The five buckets, in the order of the rules that fill them. *)
Inductive Bucket := Heading | ListItem | CodeLike | TableLike | Paragraph.

Section Analyze.
Variable ucd : UnicodeData.

(** The body of the [for] loop, for the pair [(i, line)]. *)
Definition loop_body (structure : Structure) (il : Z * str) : Structure :=
  let i := fst il in
  let line := strip (snd il) in
  if falsy line then structure
  else if startswith line (lit "#")
          || (isupper ucd line && (len line <? 100)) then
    {| headings := headings structure ++ [{| line := i + 1; text := line |}];
       lists := lists structure;
       paragraphs := paragraphs structure;
       tables := tables structure;
       code_blocks := code_blocks structure |}
  else if startswith_any line list_prefixes then
    {| headings := headings structure;
       lists := lists structure ++ [{| line := i + 1; text := line |}];
       paragraphs := paragraphs structure;
       tables := tables structure;
       code_blocks := code_blocks structure |}
  else if existsb (fun char => contains_char char line) code_chars then
    {| headings := headings structure;
       lists := lists structure;
       paragraphs := paragraphs structure;
       tables := tables structure;
       code_blocks :=
         code_blocks structure ++ [{| line := i + 1; text := line |}] |}
  else if contains_char 9%N line || (count line (lit "  ") >? 3) then
    {| headings := headings structure;
       lists := lists structure;
       paragraphs := paragraphs structure;
       tables := tables structure ++ [{| line := i + 1; text := line |}];
       code_blocks := code_blocks structure |}
  else
    {| headings := headings structure;
       lists := lists structure;
       paragraphs :=
         paragraphs structure ++ [{| line := i + 1; text := line |}];
       tables := tables structure;
       code_blocks := code_blocks structure |}.

Definition analyze_text_structure (text : str) : Structure :=
  let lines := split text 10%N in
  fold_left loop_body (enumerate lines) empty_structure.

(** *** The specification's reading: an ordered rule list *)

Definition heading_rule (l : str) : bool :=
  startswith l (lit "#") || (isupper ucd l && (len l <? 100)).
Definition list_rule (l : str) : bool := startswith_any l list_prefixes.
Definition code_rule (l : str) : bool :=
  existsb (fun c => contains_char c l) code_chars.
Definition table_rule (l : str) : bool :=
  contains_char 9%N l || (count l (lit "  ") >? 3).
Definition paragraph_rule (l : str) : bool := true.

(** The five rules in the order the specification lists them. *)
Definition rules : list ((str -> bool) * Bucket) :=
  [ (heading_rule, Heading); (list_rule, ListItem); (code_rule, CodeLike);
    (table_rule, TableLike); (paragraph_rule, Paragraph) ].

(** First matching rule wins. *)
Fixpoint first_match (rs : list ((str -> bool) * Bucket)) (l : str)
  : option Bucket :=
  match rs with
  | [] => None
  | (p, b) :: rs' => if p l then Some b else first_match rs' l
  end.

Definition classify (l : str) : Bucket :=
  match first_match rules l with Some b => b | None => Paragraph end.

(** The classified lines of a text, in order: every line of
    [text.split('\n')] that is not blank after trimming, with its 1-based
    position among all the lines and its trimmed text. *)
Definition entry_of (il : Z * str) : option Entry :=
  if falsy (strip (snd il)) then None
  else Some {| line := fst il + 1; text := strip (snd il) |}.

Definition entries (text : str) : list Entry :=
  omap entry_of (enumerate (split text 10%N)).
End Analyze.

Definition bucket (b : Bucket) (s : Structure) : list Entry :=
  match b with
  | Heading => headings s
  | ListItem => lists s
  | CodeLike => code_blocks s
  | TableLike => tables s
  | Paragraph => paragraphs s
  end.

Definition all_buckets : list Bucket :=
  [Heading; ListItem; CodeLike; TableLike; Paragraph].

#[global] Instance Bucket_eq_dec : EqDecision Bucket.
Proof. solve_decision. Defined.

(** Add an entry at the end of one bucket. *)
Definition add_to (b : Bucket) (e : Entry) (s : Structure) : Structure :=
  {| headings := headings s ++ (if decide (b = Heading) then [e] else []);
     lists := lists s ++ (if decide (b = ListItem) then [e] else []);
     paragraphs := paragraphs s ++ (if decide (b = Paragraph) then [e] else []);
     tables := tables s ++ (if decide (b = TableLike) then [e] else []);
     code_blocks :=
       code_blocks s ++ (if decide (b = CodeLike) then [e] else []) |}.

End Analyzer.
Import Analyzer.

(** ** Library code the share link relies on: decimal rendering, UTF-8, MD5 *)

Module PyLib.

(** Python [bytes]. *)
Definition bytes := list byte.

Definition byte_of_N (n : N) : byte :=
  match Byte.of_N n with Some b => b | None => Byte.x00 end.

(** [str(n)] for an [int]. *)
Definition str_of_int (z : Z) : str :=
  lit (NilZero.string_of_int (Z.to_int z)).

(** The UTF-8 encoding of one code point; a surrogate (U+D800 to U+DFFF)
    has none, and [str.encode()] raises [UnicodeEncodeError] on it. *)
Definition utf8_char (c : codepoint) : option bytes :=
  (if c <? 0x80 then Some [byte_of_N c]
   else if c <? 0x800 then
     Some [byte_of_N (N.lor 0xC0 (N.shiftr c 6));
           byte_of_N (N.lor 0x80 (N.land c 0x3F))]
   else if c <? 0x10000 then
     if (0xD800 <=? c) && (c <=? 0xDFFF) then None
     else Some [byte_of_N (N.lor 0xE0 (N.shiftr c 12));
                byte_of_N (N.lor 0x80 (N.land (N.shiftr c 6) 0x3F));
                byte_of_N (N.lor 0x80 (N.land c 0x3F))]
   else if c <=? 0x10FFFF then
     Some [byte_of_N (N.lor 0xF0 (N.shiftr c 18));
           byte_of_N (N.lor 0x80 (N.land (N.shiftr c 12) 0x3F));
           byte_of_N (N.lor 0x80 (N.land (N.shiftr c 6) 0x3F));
           byte_of_N (N.lor 0x80 (N.land c 0x3F))]
   else None)%N.

(** [s.encode()]: [None] stands for [UnicodeEncodeError]. *)
Fixpoint encode (s : str) : option bytes :=
  match s with
  | [] => Some []
  | c :: s' =>
      match utf8_char c, encode s' with
      | Some bs, Some rest => Some (bs ++ rest)
      | _, _ => None
      end
  end.

(** *** MD5 (RFC 1321) on 32-bit words held in [Z] *)

Definition mask32 : Z := 0xFFFFFFFF.
Definition add32 (a b : Z) : Z := Z.land (a + b) mask32.
Definition not32 (a : Z) : Z := Z.lxor a mask32.
Definition rotl32 (x c : Z) : Z :=
  Z.land (Z.lor (Z.shiftl x c) (Z.shiftr x (32 - c))) mask32.

Definition md5_K : list Z :=
  [ 0xd76aa478; 0xe8c7b756; 0x242070db; 0xc1bdceee;
    0xf57c0faf; 0x4787c62a; 0xa8304613; 0xfd469501;
    0x698098d8; 0x8b44f7af; 0xffff5bb1; 0x895cd7be;
    0x6b901122; 0xfd987193; 0xa679438e; 0x49b40821;
    0xf61e2562; 0xc040b340; 0x265e5a51; 0xe9b6c7aa;
    0xd62f105d; 0x02441453; 0xd8a1e681; 0xe7d3fbc8;
    0x21e1cde6; 0xc33707d6; 0xf4d50d87; 0x455a14ed;
    0xa9e3e905; 0xfcefa3f8; 0x676f02d9; 0x8d2a4c8a;
    0xfffa3942; 0x8771f681; 0x6d9d6122; 0xfde5380c;
    0xa4beea44; 0x4bdecfa9; 0xf6bb4b60; 0xbebfbc70;
    0x289b7ec6; 0xeaa127fa; 0xd4ef3085; 0x04881d05;
    0xd9d4d039; 0xe6db99e5; 0x1fa27cf8; 0xc4ac5665;
    0xf4292244; 0x432aff97; 0xab9423a7; 0xfc93a039;
    0x655b59c3; 0x8f0ccc92; 0xffeff47d; 0x85845dd1;
    0x6fa87e4f; 0xfe2ce6e0; 0xa3014314; 0x4e0811a1;
    0xf7537e82; 0xbd3af235; 0x2ad7d2bb; 0xeb86d391 ].

Definition md5_S : list Z :=
  [ 7; 12; 17; 22; 7; 12; 17; 22; 7; 12; 17; 22; 7; 12; 17; 22;
    5; 9; 14; 20; 5; 9; 14; 20; 5; 9; 14; 20; 5; 9; 14; 20;
    4; 11; 16; 23; 4; 11; 16; 23; 4; 11; 16; 23; 4; 11; 16; 23;
    6; 10; 15; 21; 6; 10; 15; 21; 6; 10; 15; 21; 6; 10; 15; 21 ].

Definition zbyte (b : byte) : Z := Z.of_N (Byte.to_N b).

(** Little-endian word [g] of a 64-byte block. *)
Definition word_at (block : list Z) (g : Z) : Z :=
  let b k := nth (Z.to_nat (4 * g + k)) block 0 in
  b 0 + Z.shiftl (b 1) 8 + Z.shiftl (b 2) 16 + Z.shiftl (b 3) 24.

Definition md5_state := (Z * Z * Z * Z)%type.

Definition md5_step (block : list Z) (st : md5_state) (i : Z) : md5_state :=
  let '(a, b, c, d) := st in
  let '(f, g) :=
    if i <? 16 then (Z.lor (Z.land b c) (Z.land (not32 b) d), i)
    else if i <? 32 then
      (Z.lor (Z.land d b) (Z.land (not32 d) c), (5 * i + 1) mod 16)
    else if i <? 48 then (Z.lxor b (Z.lxor c d), (3 * i + 5) mod 16)
    else (Z.lxor c (Z.lor b (not32 d)), (7 * i) mod 16) in
  let f := add32 (add32 (add32 f a) (nth (Z.to_nat i) md5_K 0)) (word_at block g) in
  (d, add32 b (rotl32 f (nth (Z.to_nat i) md5_S 0)), b, c).

Definition md5_block (st : md5_state) (block : list Z) : md5_state :=
  let '(a0, b0, c0, d0) := st in
  let '(a, b, c, d) :=
    fold_left (md5_step block) (map Z.of_nat (seq 0 64)) st in
  (add32 a0 a, add32 b0 b, add32 c0 c, add32 d0 d).

(** The message, a 1 bit, zeros up to 56 modulo 64, and the bit length as
    64 bits little-endian. *)
Definition le_bytes (n : nat) (x : Z) : list Z :=
  map (fun k => Z.land (Z.shiftr x (8 * Z.of_nat k)) 0xFF) (seq 0 n).

Definition md5_pad (msg : list Z) : list Z :=
  let n := Z.of_nat (length msg) in
  let zeros := Z.to_nat ((55 - n) mod 64) in
  msg ++ [0x80] ++ repeat 0 zeros ++ le_bytes 8 (Z.land (8 * n) 0xFFFFFFFFFFFFFFFF).

Fixpoint md5_blocks (fuel : nat) (st : md5_state) (bs : list Z) : md5_state :=
  match fuel, bs with
  | S fuel', _ :: _ => md5_blocks fuel' (md5_block st (take 64 bs)) (drop 64 bs)
  | _, _ => st
  end.

Definition md5_digest (msg : bytes) : list Z :=
  let padded := md5_pad (map zbyte msg) in
  let '(a, b, c, d) :=
    md5_blocks (length padded)
      (0x67452301, 0xefcdab89, 0x98badcfe, 0x10325476) padded in
  le_bytes 4 a ++ le_bytes 4 b ++ le_bytes 4 c ++ le_bytes 4 d.

Definition hex_digit (n : Z) : codepoint :=
  Z.to_N (if n <? 10 then 48 + n else 87 + n).

(** [hashlib.md5(msg).hexdigest()]: 32 lower-case hexadecimal digits. *)
Definition md5_hexdigest (msg : bytes) : str :=
  flat_map (fun b => [hex_digit (Z.shiftr b 4); hex_digit (Z.land b 15)])
           (md5_digest msg).

End PyLib.
Import PyLib.

(** ** Exceptions *)

Inductive exn :=
| UnicodeEncodeError
| KeyError
| AttributeError
| TypeError
| IndexError
| LibraryError (msg : str).   (* raised inside Pillow or requests *)

Inductive result (A : Type) :=
| Ok (a : A)
| Raise (e : exn).
Arguments Ok {A} a.
Arguments Raise {A} e.

(** ** Session state *)

(** An item of [st.session_state['ocr_history']]. *)
Module HistoryItem.
Record t := {
  timestamp : str;
  text : str;
  language : str;
  filename : str;
  processing_time : float;
  full_text : str
}.
End HistoryItem.

(** A value of [st.session_state['shared_results']]. *)
Module SharedResult.
Record t := {
  text : str;
  language : str;
  timestamp : str
}.
End SharedResult.

(** [st.session_state]: the keys the file reads and writes. *)
Record SessionState := {
  ocr_result : option str;
  ocr_language : option str;
  ocr_language_code : option str;
  processing_time : option float;
  ocr_history : option (list HistoryItem.t);
  shared_results : option (gmap str SharedResult.t);
  share_url : option str;
  share_id : option str;
  previous_language : option str;
  ocr_text_download : option str
}.

(** A session before its first interaction: no key is present. *)
Definition new_session : SessionState :=
  {| ocr_result := None; ocr_language := None; ocr_language_code := None;
     processing_time := None; ocr_history := None; shared_results := None;
     share_url := None; share_id := None; previous_language := None;
     ocr_text_download := None |}.

Definition set_ocr_history (v : list HistoryItem.t) (st : SessionState) :=
  {| ocr_result := ocr_result st; ocr_language := ocr_language st;
     ocr_language_code := ocr_language_code st;
     processing_time := processing_time st; ocr_history := Some v;
     shared_results := shared_results st; share_url := share_url st;
     share_id := share_id st; previous_language := previous_language st;
     ocr_text_download := ocr_text_download st |}.

Definition set_shared_results (v : gmap str SharedResult.t) (st : SessionState) :=
  {| ocr_result := ocr_result st; ocr_language := ocr_language st;
     ocr_language_code := ocr_language_code st;
     processing_time := processing_time st; ocr_history := ocr_history st;
     shared_results := Some v; share_url := share_url st;
     share_id := share_id st; previous_language := previous_language st;
     ocr_text_download := ocr_text_download st |}.

(** The four assignments after a successful extraction, one by one. *)
Definition set_ocr_result (v : str) (st : SessionState) :=
  {| ocr_result := Some v; ocr_language := ocr_language st;
     ocr_language_code := ocr_language_code st;
     processing_time := processing_time st; ocr_history := ocr_history st;
     shared_results := shared_results st; share_url := share_url st;
     share_id := share_id st; previous_language := previous_language st;
     ocr_text_download := ocr_text_download st |}.

Definition set_ocr_language (v : str) (st : SessionState) :=
  {| ocr_result := ocr_result st; ocr_language := Some v;
     ocr_language_code := ocr_language_code st;
     processing_time := processing_time st; ocr_history := ocr_history st;
     shared_results := shared_results st; share_url := share_url st;
     share_id := share_id st; previous_language := previous_language st;
     ocr_text_download := ocr_text_download st |}.

Definition set_ocr_language_code (v : str) (st : SessionState) :=
  {| ocr_result := ocr_result st; ocr_language := ocr_language st;
     ocr_language_code := Some v;
     processing_time := processing_time st; ocr_history := ocr_history st;
     shared_results := shared_results st; share_url := share_url st;
     share_id := share_id st; previous_language := previous_language st;
     ocr_text_download := ocr_text_download st |}.

Definition set_processing_time (v : float) (st : SessionState) :=
  {| ocr_result := ocr_result st; ocr_language := ocr_language st;
     ocr_language_code := ocr_language_code st;
     processing_time := Some v; ocr_history := ocr_history st;
     shared_results := shared_results st; share_url := share_url st;
     share_id := share_id st; previous_language := previous_language st;
     ocr_text_download := ocr_text_download st |}.

Definition set_share_url (v : str) (st : SessionState) :=
  {| ocr_result := ocr_result st; ocr_language := ocr_language st;
     ocr_language_code := ocr_language_code st;
     processing_time := processing_time st; ocr_history := ocr_history st;
     shared_results := shared_results st; share_url := Some v;
     share_id := share_id st; previous_language := previous_language st;
     ocr_text_download := ocr_text_download st |}.

Definition set_share_id (v : str) (st : SessionState) :=
  {| ocr_result := ocr_result st; ocr_language := ocr_language st;
     ocr_language_code := ocr_language_code st;
     processing_time := processing_time st; ocr_history := ocr_history st;
     shared_results := shared_results st; share_url := share_url st;
     share_id := Some v; previous_language := previous_language st;
     ocr_text_download := ocr_text_download st |}.

(** The [View Full Text] button: two assignments. *)
Definition set_viewed (text lang : str) (st : SessionState) :=
  {| ocr_result := Some text; ocr_language := Some lang;
     ocr_language_code := ocr_language_code st;
     processing_time := processing_time st; ocr_history := ocr_history st;
     shared_results := shared_results st; share_url := share_url st;
     share_id := share_id st; previous_language := previous_language st;
     ocr_text_download := ocr_text_download st |}.

(** ** History: [add_to_history] and the buttons of the history tab *)

(** [datetime.now().strftime(...)] is the argument [now]. *)
Definition add_to_history (now : str) (text language filename : str)
    (processing_time : float) (st : SessionState) : SessionState :=
  let st :=
    match ocr_history st with
    | None => set_ocr_history [] st
    | Some _ => st
    end in
  let history_item :=
    {| HistoryItem.timestamp := now;
       HistoryItem.text :=
         if len text >? 200 then take 200 text ++ lit "..." else text;
       HistoryItem.language := language;
       HistoryItem.filename := filename;
       HistoryItem.processing_time := processing_time;
       HistoryItem.full_text := text |} in
  let st := set_ocr_history (history_item :: default [] (ocr_history st)) st in
  if len (default [] (ocr_history st)) >? 20
  then set_ocr_history (take 20 (default [] (ocr_history st))) st
  else st.

(** [st.session_state['ocr_history'].pop(i)]; the button exists only for
    the indices of the list, and outside them [pop] raises and nothing is
    changed. *)
Definition delete_history (i : nat) (st : SessionState) : SessionState :=
  match ocr_history st with
  | Some h => if (i <? length h)%nat then set_ocr_history (delete i h) st else st
  | None => st
  end.

Definition view_history (i : nat) (st : SessionState) : SessionState :=
  match ocr_history st with
  | Some h =>
      match h !! i with
      | Some item =>
          set_viewed (HistoryItem.full_text item) (HistoryItem.language item) st
      | None => st
      end
  | None => st
  end.

(** One call of [add_to_history], as data. *)
Record Append := {
  at_time : str;
  a_text : str;
  a_language : str;
  a_filename : str;
  a_processing_time : float
}.

Definition append (a : Append) (st : SessionState) : SessionState :=
  add_to_history (at_time a) (a_text a) (a_language a) (a_filename a)
                 (a_processing_time a) st.

(** The entry the specification describes for an append. *)
Definition entry_for (a : Append) : HistoryItem.t :=
  {| HistoryItem.timestamp := at_time a;
     HistoryItem.text :=
       if len (a_text a) >? 200 then take 200 (a_text a) ++ lit "..."
       else a_text a;
     HistoryItem.language := a_language a;
     HistoryItem.filename := a_filename a;
     HistoryItem.processing_time := a_processing_time a;
     HistoryItem.full_text := a_text a |}.

(** What the user can do to the history. *)
Inductive HistoryOp :=
| OpAppend (a : Append)
| OpDelete (i : nat)
| OpView (i : nat).

Definition history_step (st : SessionState) (op : HistoryOp) : SessionState :=
  match op with
  | OpAppend a => append a st
  | OpDelete i => delete_history i st
  | OpView i => view_history i st
  end.

Definition appended (ops : list HistoryOp) : list Append :=
  omap (fun op => match op with OpAppend a => Some a | _ => None end) ops.

(** The list the history tab iterates over. *)
Definition history (st : SessionState) : list HistoryItem.t :=
  default [] (ocr_history st).

(** ** Share links: [generate_shareable_link], [get_shared_result] *)

(** [int(time.time())] is the argument [now]; [base_url_option] is
    [st.get_option("server.baseUrlPath")]. *)
Definition generate_shareable_link (now : Z) (base_url_option : option str)
    (text language : str) (st : SessionState)
  : SessionState * result (str * str) :=
  let timestamp := str_of_int now in
  match encode (text ++ language ++ timestamp) with
  | None => (st, Raise UnicodeEncodeError)
  | Some data =>
      let content_hash := take 8 (md5_hexdigest data) in
      let share_id := timestamp ++ lit "_" ++ content_hash in
      let st :=
        match shared_results st with
        | None => set_shared_results ∅ st
        | Some _ => st
        end in
      let st :=
        set_shared_results
          (<[share_id := {| SharedResult.text := text;
                            SharedResult.language := language;
                            SharedResult.timestamp := timestamp |}]>
             (default ∅ (shared_results st))) st in
      let base_url :=
        match base_url_option with
        | Some (c :: u) => c :: u
        | _ => lit "http://localhost:8501"
        end in
      let share_url := base_url ++ lit "?share=" ++ share_id in
      (st, Ok (share_url, share_id))
  end.

Definition get_shared_result (share_id : str) (st : SessionState)
  : option SharedResult.t :=
  match shared_results st with
  | Some m => match m !! share_id with
              | Some r => Some r
              | None => None
              end
  | None => None
  end.

(** The specification's reading of a share: identifier, record and URL. *)
Definition share_id_of (now : Z) (data : bytes) : str :=
  str_of_int now ++ lit "_" ++ take 8 (md5_hexdigest data).

Definition share_record (now : Z) (text language : str) : SharedResult.t :=
  {| SharedResult.text := text;
     SharedResult.language := language;
     SharedResult.timestamp := str_of_int now |}.

Definition configured_base_url (base_url_option : option str) : str :=
  match base_url_option with
  | Some (c :: u) => c :: u
  | _ => lit "http://localhost:8501"
  end.

(** A code point UTF-8 can encode: in range and not a surrogate. *)
Definition scalar_value (c : codepoint) : bool :=
  ((c <? 0xD800) || (0xDFFF <? c) && (c <=? 0x10FFFF))%N.

(** A call of [generate_shareable_link], as data. *)
Record Create := {
  c_now : Z;
  c_base_url : option str;
  c_text : str;
  c_language : str
}.

Definition create (c : Create) (st : SessionState) :=
  generate_shareable_link (c_now c) (c_base_url c) (c_text c) (c_language c) st.

(** A run of calls from a session: the final session and the identifiers
    the calls returned. *)
Fixpoint creates (cs : list Create) (st : SessionState)
  : SessionState * list str :=
  match cs with
  | [] => (st, [])
  | c :: cs' =>
      match create c st with
      | (st', Ok (_, id)) =>
          let '(st'', ids) := creates cs' st' in (st'', id :: ids)
      | (st', Raise _) => creates cs' st'
      end
  end.

(** ** The language catalog: the [languages] dict, in source order *)

Definition languages_literal : list (string * string) :=
  [
    ("English", "eng");
    ("French", "fra");
    ("Spanish", "spa");
    ("German", "deu");
    ("Italian", "ita");
    ("Portuguese", "por");
    ("Dutch", "nld");
    ("Russian", "rus");
    ("Chinese (Simplified)", "chs");
    ("Japanese", "jpn");
    ("Korean", "kor");
    ("Arabic", "ara");
    ("Turkish", "tur");
    ("Polish", "pol");
    ("Romanian", "ron");
    ("Ukrainian", "ukr");
    ("Vietnamese", "vie");
    ("Czech", "ces");
    ("Greek", "ell");
    ("Bulgarian", "bul");
    ("Croatian", "hrv");
    ("Hungarian", "hun");
    ("Slovak", "slk");
    ("Slovenian", "slv");
    ("Swedish", "swe");
    ("Finnish", "fin");
    ("Danish", "dan");
    ("Norwegian", "nor");
    ("Hebrew", "heb");
    ("Hindi", "hin");
    ("Malay", "msa");
    ("Thai", "tha");
    ("Indonesian", "ind");
    ("Filipino", "fil");
    ("Serbian (Latin)", "srp");
    ("Serbian (Cyrillic)", "srp-cyr");
    ("Albanian", "sqi");
    ("Estonian", "est");
    ("Latvian", "lav");
    ("Lithuanian", "lit");
    ("Macedonian", "mkd");
    ("Georgian", "kat");
    ("Armenian", "hye");
    ("Azerbaijani", "aze");
    ("Kazakh", "kaz");
    ("Uzbek", "uzb");
    ("Mongolian", "mon");
    ("Persian", "fas");
    ("Pashto", "pus");
    ("Urdu", "urd");
    ("Bengali", "ben");
    ("Tamil", "tam");
    ("Telugu", "tel");
    ("Kannada", "kan");
    ("Malayalam", "mal");
    ("Marathi", "mar");
    ("Gujarati", "guj");
    ("Punjabi", "pan");
    ("Sinhala", "sin");
    ("Nepali", "nep");
    ("Burmese", "mya");
    ("Khmer", "khm");
    ("Lao", "lao");
    ("Tibetan", "bod");
    ("Other", "eng") ]%string.

(** A dict with [str] keys, as the ordered list of its items. *)
Definition dict (V : Type) := list (str * V).

Fixpoint dict_lookup {V} (d : dict V) (k : str) : option V :=
  match d with
  | [] => None
  | (k', v) :: d' => if decide (k' = k) then Some v else dict_lookup d' k
  end.

(** [list(d.keys())] *)
Definition dict_keys {V} (d : dict V) : list str := map fst d.

Definition languages : dict str :=
  map (fun kv => (lit (fst kv), lit (snd kv))) languages_literal.

(** [st.selectbox(label, options, index=0)] before the user touches it. *)
Definition selectbox_default (options : list str) (index : nat) : option str :=
  options !! index.

Definition default_selected_lang : option str :=
  selectbox_default (dict_keys languages) 0.

(** ** Preprocessing *)

(** The part of Pillow the page uses. [rotate im angle expand] is
    [im.rotate(angle, expand=expand)]; [enhance_brightness im f] is
    [ImageEnhance.Brightness(im).enhance(f)], and so on; [resize] and
    [save_png] are called inside the [try] block and may raise. [save_png im]
    is the content of the buffer after
    [im.save(buffer, format="PNG", optimize=True, quality=70)]. *)
Record Pillow := {
  Image : Type;
  width : Image -> Z;
  height : Image -> Z;
  rotate : Image -> Z -> bool -> Image;
  enhance_brightness : Image -> float -> Image;
  enhance_contrast : Image -> float -> Image;
  enhance_sharpness : Image -> float -> Image;
  resize : Image -> Z -> Z -> result Image;
  save_png : Image -> result bytes
}.

(** [x != 1.0] on floats: the negation of IEEE equality. *)
Definition float_ne (x y : float) : bool := negb (PrimFloat.eqb x y).

Section Preprocess.
Variable pil : Pillow.

Definition preprocess (image : Image pil) (rotate_angle : Z)
    (brightness contrast sharpness : float) : Image pil :=
  let image :=
    if negb (rotate_angle =? 0)
    then rotate pil image (- rotate_angle) true else image in
  let image :=
    if float_ne brightness 1
    then enhance_brightness pil image brightness else image in
  let image :=
    if float_ne contrast 1
    then enhance_contrast pil image contrast else image in
  let image :=
    if float_ne sharpness 1
    then enhance_sharpness pil image sharpness else image in
  image.

(** The specification's reading: a list of transforms applied from left
    to right. *)
Inductive Transform :=
| Rotate (angle : Z) (expand : bool)
| Brightness (factor : float)
| Contrast (factor : float)
| Sharpness (factor : float).

Definition apply_transform (image : Image pil) (t : Transform) : Image pil :=
  match t with
  | Rotate angle expand => rotate pil image angle expand
  | Brightness f => enhance_brightness pil image f
  | Contrast f => enhance_contrast pil image f
  | Sharpness f => enhance_sharpness pil image f
  end.

Definition wanted (t : Transform) : bool :=
  match t with
  | Rotate angle _ => negb (angle =? 0)
  | Brightness f | Contrast f | Sharpness f => float_ne f 1
  end.

Definition pipeline (rotate_angle : Z) (brightness contrast sharpness : float)
  : list Transform :=
  filter (fun t => wanted t = true)
    [ Rotate (- rotate_angle) true; Brightness brightness;
      Contrast contrast; Sharpness sharpness ].
End Preprocess.

(** ** The OCR request and its JSON answer *)

(** What [response.json()] can return. A JSON object is the list of the
    items of the resulting dict. *)
#[warnings="-register-all"]
Inductive json :=
| JNull
| JBool (b : bool)
| JInt (n : Z)
| JFloat (f : float)
| JStr (s : str)
| JList (l : list json)
| JDict (d : list (str * json)).

(** Python truth value. *)
Definition truthy (v : json) : bool :=
  match v with
  | JNull => false
  | JBool b => b
  | JInt n => negb (n =? 0)
  | JFloat f => float_ne f 0
  | JStr s => negb (falsy s)
  | JList l => match l with [] => false | _ :: _ => true end
  | JDict d => match d with [] => false | _ :: _ => true end
  end.

(** [obj.get(key, default)]: only a dict has the method. *)
Definition py_get (obj : json) (key : str) (default : json) : result json :=
  match obj with
  | JDict d => Ok (match dict_lookup d key with Some v => v | None => default end)
  | _ => Raise AttributeError
  end.

(** [obj[0]] *)
Definition py_item0 (obj : json) : result json :=
  match obj with
  | JList (x :: _) => Ok x
  | JList [] => Raise IndexError
  | JStr (c :: _) => Ok (JStr [c])
  | JStr [] => Raise IndexError
  | JDict _ => Raise KeyError
  | _ => Raise TypeError
  end.

(** [obj.strip()]: only a str has the method. *)
Definition py_strip (obj : json) : result str :=
  match obj with
  | JStr s => Ok (strip s)
  | _ => Raise AttributeError
  end.

(** The multipart POST of [ocr_space_file]. *)
Record HttpPost := {
  url : str;
  file_field : str;
  file_name : str;
  file_bytes : bytes;
  file_mime : str;
  isOverlayRequired : bool;
  apikey : str;
  language : str;
  OCREngine : Z
}.

(** What lies outside the file: the network, and the interpreter's
    rendering of values and exceptions as text. *)
Record World := {
  requests_post_json : HttpPost -> result json;
  py_str_json : json -> str;
  py_str_float : float -> str;
  exn_message : exn -> str
}.

(** [f"{v}"]: a str is copied as it is, anything else through [str(v)]. *)
Definition format_json (w : World) (v : json) : str :=
  match v with
  | JStr s => s
  | _ => py_str_json w v
  end.

(** The readings of the clock and of the configuration during one click
    of the extract button, with the selection and the upload's name. *)
Record Click := {
  selected_lang : str;
  uploaded_name : str;
  elapsed : float;          (* round(time.time() - start_time, 2) *)
  now_local : str;          (* datetime.now().strftime("%Y-%m-%d %H:%M:%S") *)
  now_unix : Z;             (* int(time.time()) *)
  base_url_option : option str
}.

(** *** The specification's reading of an answer *)

(** The flag of the answer, as Python tests it. *)
Definition is_errored (d : list (str * json)) : bool :=
  truthy match dict_lookup d (lit "IsErroredOnProcessing") with
         | Some v => v
         | None => JNull
         end.

(** What the answer is worth: the text to keep, if any. *)
Definition extracted_text (result : json) : option str :=
  match result with
  | JDict d =>
      if is_errored d then None
      else match dict_lookup d (lit "ParsedResults") with
           | Some (JList (JDict e :: _)) =>
               match dict_lookup e (lit "ParsedText") with
               | Some (JStr raw) =>
                   if falsy (strip raw) then None else Some (strip raw)
               | Some _ => None
               | None => None    (* the default, an empty str *)
               end
           | _ => None
           end
  | _ => None
  end.

(** ** The extract-text handler *)

Section Handler.
Variable pil : Pillow.
Variable world : World.

(** What a run does that can be seen from outside: calls into Pillow, the
    request, and the messages on the page. *)
Inductive Event :=
| PngSave (image : Image pil)
| Resize (image : Image pil) (w h : Z)
| Post (req : HttpPost)
| StError (msg : str)
| StWarning (msg : str)
| StInfo (msg : str)
| StSuccess (msg : str).

(** Session and log threaded through; an exception leaves both as they
    were when it was raised. *)
Definition Run (A : Type) : Type :=
  SessionState * list Event -> (SessionState * list Event) * result A.

Definition ret {A} (a : A) : Run A := fun s => (s, Ok a).

Definition bind {A B} (m : Run A) (k : A -> Run B) : Run B :=
  fun s =>
    match m s with
    | (s', Ok a) => k a s'
    | (s', Raise e) => (s', Raise e)
    end.

Definition lift {A} (r : result A) : Run A := fun s => (s, r).

Definition emit (e : Event) : Run unit :=
  fun s => ((fst s, snd s ++ [e]), Ok tt).

Definition update (f : SessionState -> SessionState) : Run unit :=
  fun s => ((f (fst s), snd s), Ok tt).

(** [try: body except Exception as e: handler(e)] *)
Definition try_except (body : Run unit) (handler : exn -> Run unit) : Run unit :=
  fun s =>
    match body s with
    | (s', Ok a) => (s', Ok a)
    | (s', Raise e) => handler e s'
    end.

Notation "'do' x <- m ;; k" := (bind m (fun x => k))
  (at level 10, x name, m at level 99, k at level 200).
Notation "'run' m ;; k" := (bind m (fun _ => k))
  (at level 10, m at level 99, k at level 200).

(** [image.save(buffer, format="PNG", optimize=True, quality=70)] and
    [buffer.getvalue()] *)
Definition save (image : Image pil) : Run bytes :=
  run emit (PngSave image) ;; lift (save_png pil image).

Definition do_resize (image : Image pil) (w h : Z) : Run (Image pil) :=
  run emit (Resize image w h) ;; lift (resize pil image w h).

(** [ocr_space_file(file_bytes, language_code)], with the default key. *)
Definition ocr_request (file_bytes : bytes) (language_code : str) : HttpPost :=
  {| url := lit "https://api.ocr.space/parse/image";
     file_field := lit "file";
     file_name := lit "image.png";
     file_bytes := file_bytes;
     file_mime := lit "image/png";
     isOverlayRequired := false;
     apikey := lit "helloworld";
     language := language_code;
     OCREngine := 2 |}.

Definition ocr_space_file (file_bytes : bytes) (language_code : str) : Run json :=
  run emit (Post (ocr_request file_bytes language_code)) ;;
  lift (requests_post_json world (ocr_request file_bytes language_code)).

(** [languages[selected_lang]] *)
Definition languages_item (name : str) : Run str :=
  lift (match dict_lookup languages name with
        | Some code => Ok code
        | None => Raise KeyError
        end).

Definition too_large_message : str :=
  lit "Image is too large even after compression. Please upload a smaller image (under 1MB).".

Definition no_text_message : str := lit "No text found in the image.".

(** Lines 500 to 508: serialise, and halve and serialise again when the
    first result is over 1 MiB. *)
Definition size_budget (image : Image pil) : Run bytes :=
  do file_bytes <- save image ;;
  if len file_bytes >? 1024 * 1024 then
    do image_resized <- do_resize image (width pil image / 2) (height pil image / 2) ;;
    save image_resized
  else ret file_bytes.

(** The call of [generate_shareable_link] on the session. *)
Definition share_link (click : Click) (text : str) : Run (str * str) :=
  fun s =>
    let called :=
      generate_shareable_link (now_unix click) (base_url_option click)
                              text (selected_lang click) (fst s) in
    ((fst called, snd s), snd called).

(** Lines 526 to 541: a non-empty text becomes the result of the session,
    goes into the history and gets a share link. *)
Definition keep_result (click : Click) (text : str) : Run unit :=
  let processing_time := elapsed click in
  run update (set_ocr_result text) ;;
  run update (set_ocr_language (selected_lang click)) ;;
  do code <- languages_item (selected_lang click) ;;
  run update (set_ocr_language_code code) ;;
  run update (set_processing_time processing_time) ;;
  run update (add_to_history (now_local click) text (selected_lang click)
                             (uploaded_name click) processing_time) ;;
  do share <- share_link click text ;;
  run update (set_share_url (fst share)) ;;
  run update (set_share_id (snd share)) ;;
  emit (StSuccess ([9989%N]
          ++ lit " Text extracted successfully using "
          ++ selected_lang click ++ lit " language! (Time: "
          ++ py_str_float world processing_time ++ lit "s)")).

(** Lines 518 to 545: what is done with the answer of the service. *)
Definition handle_result (click : Click) (result : json) : Run unit :=
  do errored <- lift (py_get result (lit "IsErroredOnProcessing") JNull) ;;
  if truthy errored then
    do error_msg <- lift (py_get result (lit "ErrorMessage")
                                 (JStr (lit "Unknown error"))) ;;
    emit (StError (lit "OCR Error: " ++ format_json world error_msg))
  else
    do parsed_results <- lift (py_get result (lit "ParsedResults") (JList [])) ;;
    if truthy parsed_results then
      do first <- lift (py_item0 parsed_results) ;;
      do parsed_text <- lift (py_get first (lit "ParsedText") (JStr [])) ;;
      do text <- lift (py_strip parsed_text) ;;
      if negb (falsy text) then keep_result click text
      else emit (StWarning no_text_message)
    else emit (StWarning no_text_message).

(** The message of the [except] branch. *)
Definition failure_message (e : exn) : str :=
  lit "Error processing image: " ++ exn_message world e.

(** The notice before the request. *)
Definition info_message (click : Click) (code : str) : str :=
  [128269%N] ++ lit " Processing with language: "
    ++ selected_lang click ++ lit " (" ++ code ++ lit ")".

(** Lines 499 to 545: the body of the [try]. *)
Definition extract_text_body (image : Image pil) (click : Click) : Run unit :=
  do file_bytes <- size_budget image ;;
  if len file_bytes >? 1024 * 1024 then
    emit (StError too_large_message)
  else
    do code <- languages_item (selected_lang click) ;;
    run emit (StInfo (info_message click code)) ;;
    do result <- ocr_space_file file_bytes code ;;
    handle_result click result.

(** The handler of the extract button. *)
Definition extract_text (image : Image pil) (click : Click) : Run unit :=
  try_except (extract_text_body image click)
    (fun e => emit (StError (failure_message e))).

(** One click from a session: the session it leaves and what was seen. *)
Definition click_extract (image : Image pil) (click : Click)
    (st : SessionState) : SessionState * list Event :=
  fst (extract_text image click (st, [])).

(** The log of a click up to the answer of the service. *)
Definition seen_before_answer (pre : list Event) (click : Click) (bs : bytes)
    (code : str) : list Event :=
  pre ++ [StInfo (info_message click code); Post (ocr_request bs code)].

(** The requests of a log. *)
Definition posts (log : list Event) : list HttpPost :=
  omap (fun e => match e with Post r => Some r | _ => None end) log.

(** The resizes of a log. *)
Definition resizes (log : list Event) : list (Image pil * Z * Z) :=
  omap (fun e => match e with Resize im w h => Some (im, w, h) | _ => None end)
       log.
End Handler.

(** ** The rest of the page: clear button, language panel, shared view *)

(** The [Clear] button: three guarded [del]s. *)
Definition clear_button (st : SessionState) : SessionState :=
  {| ocr_result := None; ocr_language := ocr_language st;
     ocr_language_code := ocr_language_code st;
     processing_time := processing_time st; ocr_history := ocr_history st;
     shared_results := shared_results st; share_url := None;
     share_id := share_id st; previous_language := previous_language st;
     ocr_text_download := None |}.

Definition set_previous_language (v : str) (st : SessionState) :=
  {| ocr_result := ocr_result st; ocr_language := ocr_language st;
     ocr_language_code := ocr_language_code st;
     processing_time := processing_time st; ocr_history := ocr_history st;
     shared_results := shared_results st; share_url := share_url st;
     share_id := share_id st; previous_language := Some v;
     ocr_text_download := ocr_text_download st |}.

(** [a != b] on strings *)
Definition str_ne (a b : str) : bool := negb (bool_decide (a = b)).

(** Lines 400 to 413, for the selection the selectbox returns: the session
    afterwards and the [st.success] notice, if one is shown. *)
Definition language_panel (selected_lang : str) (st : SessionState)
  : SessionState * option str :=
  let st :=
    match previous_language st with
    | None => set_previous_language (lit "English") st
    | Some _ => st
    end in
  if str_ne selected_lang (default [] (previous_language st))
  then (set_previous_language selected_lang st,
        Some ([9989%N] ++ lit " Language changed to: " ++ selected_lang))
  else (st, None).

(** What the shared-result block puts on the page. *)
Record SharedPanel := {
  sp_language_line : str;
  sp_text_block : str;
  sp_download_data : str;
  sp_download_name : str
}.

(** Lines 228 to 244: [shared_id] is [query_params.get("share", None)]. *)
Definition shared_view (shared_id : option str) (st : SessionState)
  : option SharedPanel :=
  match shared_id with
  | Some (c :: sid) =>
      match get_shared_result (c :: sid) st with
      | Some shared_result =>
          Some {| sp_language_line :=
                    lit "**Language:** " ++ SharedResult.language shared_result;
                  sp_text_block :=
                    lit "<div class='ocr-result'>"
                      ++ SharedResult.text shared_result ++ lit "</div>";
                  sp_download_data := SharedResult.text shared_result;
                  sp_download_name :=
                    lit "shared_ocr_" ++ (c :: sid) ++ lit ".txt" |}
      | None => None
      end
  | _ => None
  end.

(** ** What the user can do in a session *)

Section App.
Variable pil : Pillow.
Variable world : World.

Inductive Action :=
| DoExtract (image : Image pil) (click : Click)
| DoClear
| DoView (i : nat)
| DoDelete (i : nat)
| DoSelectLanguage (name : str).

Definition act (st : SessionState) (a : Action) : SessionState :=
  match a with
  | DoExtract image click => fst (click_extract pil world image click st)
  | DoClear => clear_button st
  | DoView i => view_history i st
  | DoDelete i => delete_history i st
  | DoSelectLanguage name => fst (language_panel name st)
  end.

Definition session_after (actions : list Action) : SessionState :=
  fold_left act actions new_session.
End App.

(** ** The outcomes of the handler, as sessions and messages *)

Section Outcomes.
Variable pil : Pillow.
Variable world : World.

(** The session after the assignments and the history entry of
    [keep_result], before the share link. *)
Definition stored (click : Click) (text code : str) (st : SessionState)
  : SessionState :=
  add_to_history (now_local click) text (selected_lang click)
    (uploaded_name click) (elapsed click)
    (set_processing_time (elapsed click)
       (set_ocr_language_code code
          (set_ocr_language (selected_lang click) (set_ocr_result text st)))).

(** The session after the whole of [keep_result]. *)
Definition shared (click : Click) (text code : str) (data : bytes)
    (st : SessionState) : SessionState :=
  set_share_id (share_id_of (now_unix click) data)
    (set_share_url
       (configured_base_url (base_url_option click) ++ lit "?share="
          ++ share_id_of (now_unix click) data)
       (set_shared_results
          (<[share_id_of (now_unix click) data
             := share_record (now_unix click) text (selected_lang click)]>
             (default ∅ (shared_results (stored click text code st))))
          (stored click text code st))).

Definition success_message (click : Click) : str :=
  [9989%N] ++ lit " Text extracted successfully using "
    ++ selected_lang click ++ lit " language! (Time: "
    ++ py_str_float world (elapsed click) ++ lit "s)".

(** The message that closes a click, as opposed to the notice before the
    request and the calls the log records. *)
Definition closing (e : Event pil) : bool :=
  match e with
  | StError _ _ | StWarning _ _ | StSuccess _ _ => true
  | _ => false
  end.
End Outcomes.

(** The preview [add_to_history] stores for a text. *)
Definition preview_of (text : str) : str :=
  if len text >? 200 then take 200 text ++ lit "..." else text.

(** An entry whose preview belongs to its full text. *)
Definition preview_ok (h : HistoryItem.t) : Prop :=
  HistoryItem.text h = preview_of (HistoryItem.full_text h).

(** ** Readings used by the statements about sessions *)

Section SessionReadings.
Variable pil : Pillow.

Definition is_extract (a : Action pil) : bool :=
  match a with DoExtract _ _ _ => true | _ => false end.

(** What a reachable session always satisfies. *)
Definition coherent (st : SessionState) : Prop :=
  (ocr_result st <> None -> ocr_language st <> None) /\
  (forall sid, share_id st = Some sid -> is_Some (get_shared_result sid st)) /\
  (forall u, share_url st = Some u ->
             exists base sid,
               share_id st = Some sid /\ u = base ++ lit "?share=" ++ sid).
End SessionReadings.

(** ** Escaping the result for the page: [html.escape] and the clipboard script *)

(** [s.replace(old, new)] for a one-character [old]. *)
Definition replace_char (old : codepoint) (new : str) (s : str) : str :=
  flat_map (fun c => if (c =? old)%N then new else [c]) s.

(** [html.escape(s)] with its default [quote=True], as the standard library
    defines it: five replacements, the ampersand first. *)
Definition html_escape (s : str) : str :=
  let s := replace_char 38%N (lit "&amp;") s in
  let s := replace_char 60%N (lit "&lt;") s in
  let s := replace_char 62%N (lit "&gt;") s in
  let s := replace_char 34%N (lit "&quot;") s in
  let s := replace_char 39%N (lit "&#x27;") s in
  s.

(** Line 558: the block of the first tab, shown when a result is present. *)
Definition extracted_text_block (st : SessionState) : option str :=
  match ocr_result st with
  | Some ocr_result =>
      Some (lit "<div class='ocr-result' role='textbox' aria-label='Extracted text result'>"
              ++ html_escape ocr_result ++ lit "</div>")
  | None => None
  end.

(** Line 576: the text put between backticks in the clipboard script; a
    backslash (92) goes before each quote, double quote and brace. *)
Definition ocr_text_js (ocr_result : str) : str :=
  replace_char 125%N [92; 125]%N
    (replace_char 123%N [92; 123]%N
       (replace_char 34%N [92; 34]%N
          (replace_char 39%N [92; 39]%N ocr_result))).

(** The same escaping read as one pass, character by character. *)
Definition html_entity (c : codepoint) : str :=
  if (c =? 38)%N then lit "&amp;"
  else if (c =? 60)%N then lit "&lt;"
  else if (c =? 62)%N then lit "&gt;"
  else if (c =? 34)%N then lit "&quot;"
  else if (c =? 39)%N then lit "&#x27;"
  else [c].

Definition js_special (c : codepoint) : bool :=
  ((c =? 39) || (c =? 34) || (c =? 123) || (c =? 125))%N.

Definition js_char (c : codepoint) : str :=
  if js_special c then [92%N; c] else [c].

(** Drop the backslash that stands before a quote, double quote or brace. *)
Fixpoint js_unescape (s : str) : str :=
  match s with
  | [] => []
  | b :: t =>
      match t with
      | c :: rest =>
          if (b =? 92)%N && js_special c then c :: js_unescape rest
          else b :: js_unescape t
      | [] => [b]
      end
  end.

(** ** The characters of a share identifier *)

(** [0-9a-f] *)
Definition is_hex_digit (c : codepoint) : bool :=
  ((48 <=? c) && (c <=? 57) || (97 <=? c) && (c <=? 102))%N.

(** [0-9] and the minus sign *)
Definition is_decimal_char (c : codepoint) : bool :=
  ((48 <=? c) && (c <=? 57) || (c =? 45))%N.

(** The characters a share identifier is made of; all of them stand for
    themselves in the query part of a URL. *)
Definition is_share_id_char (c : codepoint) : bool :=
  is_decimal_char c || (c =? 95)%N || is_hex_digit c.

(** ** Readings of the analysis: trimmed texts, line numbers moved *)

(** A text with no white space at either end. *)
Definition trimmed (s : str) : Prop :=
  (forall c, head s = Some c -> isspace c = false) /\
  (forall c, last s = Some c -> isspace c = false).

(** An entry of a text that stands [n] lines further down. *)
Definition shift_lines (n : Z) (e : Entry) : Entry :=
  {| line := line e + n; text := text e |}.

(** ** Sample data and auxiliary readings used by the statements *)

Definition ascii_only : UnicodeData :=
  {| ucd_isupper := fun _ => false;
     ucd_islower := fun _ => false;
     ucd_istitle := fun _ => false |}.

Definition ascii_bytes (s : string) : bytes :=
  map (fun c => byte_of_N c) (lit s).

Definition run_history (ops : list HistoryOp) (st : SessionState) : SessionState :=
  fold_left history_step ops st.

Definition appends (xs : list Append) (st : SessionState) : SessionState :=
  fold_left (fun st a => append a st) xs st.

Definition sample_append (n : nat) : Append :=
  {| at_time := lit "2024-01-01 00:00:00";
     a_text := lit "page " ++ str_of_int (Z.of_nat n);
     a_language := lit "English";
     a_filename := lit "scan.png";
     a_processing_time := 0.5%float |}.

Definition returned_id (r : result (str * str)) : option str :=
  match r with
  | Ok (_, sid) => Some sid
  | Raise _ => None
  end.

(** A stand-in for Pillow on which the handler can be run: an image is its
    width and height, and its PNG has one zero byte per pixel. *)
Definition raster_bytes (im : Z * Z) : bytes :=
  repeat Byte.x00 (Z.to_nat (fst im * snd im)).

Definition raster_pillow : Pillow :=
  {| Image := (Z * Z)%type;
     width := fst;
     height := snd;
     rotate := fun im _ _ => im;
     enhance_brightness := fun im _ => im;
     enhance_contrast := fun im _ => im;
     enhance_sharpness := fun im _ => im;
     resize := fun _ w h => Ok (w, h);
     save_png := fun im => Ok (raster_bytes im) |}.

(** A service that gives the same answer to every request. *)
Definition canned_world (answer : result json) : World :=
  {| requests_post_json := fun _ => answer;
     py_str_json := fun _ => lit "?";
     py_str_float := fun _ => lit "0.5";
     exn_message := fun _ => lit "failure" |}.

Definition bad_image_answer : json :=
  JDict [ (lit "ParsedResults", JNull);
          (lit "IsErroredOnProcessing", JBool true);
          (lit "ErrorMessage", JStr (lit "Bad image")) ].

Definition hello_answer : json :=
  JDict [ (lit "ParsedResults",
           JList [JDict [(lit "ParsedText", JStr (lit " Hello "))]]);
          (lit "IsErroredOnProcessing", JBool false) ].

Definition empty_answer : json :=
  JDict [ (lit "ParsedResults", JList []);
          (lit "IsErroredOnProcessing", JBool false) ].

(** An answer whose text is one lone surrogate, which UTF-8 cannot encode. *)
Definition surrogate_answer : json :=
  JDict [ (lit "ParsedResults",
           JList [JDict [(lit "ParsedText", JStr [0xD83D%N])]]);
          (lit "IsErroredOnProcessing", JBool false) ].

Definition sample_click : Click :=
  {| selected_lang := lit "English";
     uploaded_name := lit "scan.png";
     elapsed := 0.5%float;
     now_local := lit "2024-01-01 00:00:00";
     now_unix := 1700000000;
     base_url_option := None |}.

(** * Theorems *)

Example split_ex :
  split (lit "a" ++ [10; 10] ++ lit "b")%N 10%N = [lit "a"; []; lit "b"].
Proof. reflexivity. Qed.

Example count_ex : count (lit "a     b  c") (lit "  ") = 3.
Proof. reflexivity. Qed.

Example strip_ex : strip ([32; 9] ++ lit "a b" ++ [13; 10])%N = lit "a b".
Proof. reflexivity. Qed.

Example isupper_ex : isupper ascii_only (lit "TOTAL DUE") = true.
Proof. reflexivity. Qed.

(** ** Structure analysis *)

Section AnalyzerFacts.
Variable ucd : UnicodeData.

Lemma add_to_nothing_else b e s b' :
  b' <> b -> bucket b' (add_to b e s) = bucket b' s.
Proof.
  intros Hne. destruct b, b'; try congruence; cbn; apply app_nil_r.
Qed.

Lemma add_to_same b e s : bucket b (add_to b e s) = bucket b s ++ [e].
Proof. destruct b; reflexivity. Qed.

Lemma structure_eq s1 s2 :
  (forall b, bucket b s1 = bucket b s2) -> s1 = s2.
Proof.
  intros H. destruct s1, s2.
  pose proof (H Heading); pose proof (H ListItem); pose proof (H CodeLike);
    pose proof (H TableLike); pose proof (H Paragraph).
  cbn in *. congruence.
Qed.

(** The [if]/[elif] chain of the source is the ordered rule list. *)
Lemma loop_body_first_match s il :
  loop_body ucd s il =
  match entry_of il with
  | None => s
  | Some e => add_to (classify ucd (text e)) e s
  end.
Proof.
  unfold loop_body, entry_of.
  destruct (falsy (strip il.2)) eqn:Hblank; [reflexivity|].
  unfold classify, rules, first_match, heading_rule, list_rule, code_rule,
    table_rule, paragraph_rule. cbn [text].
  destruct (startswith _ _ || _); [|destruct (startswith_any _ _);
    [|destruct (existsb _ code_chars); [|destruct (contains_char _ _ || _)]]];
    apply structure_eq; intros []; cbn; rewrite ?app_nil_r; reflexivity.
Qed.

Lemma bucket_fold b xs : forall s,
  bucket b (fold_left (loop_body ucd) xs s) =
  bucket b s ++ filter (fun e => classify ucd (text e) = b) (omap entry_of xs).
Proof.
  induction xs as [|il xs IH]; intros s; cbn [fold_left omap list_omap].
  - symmetry; apply app_nil_r.
  - rewrite IH, loop_body_first_match.
    destruct (entry_of il) as [e|]; [|reflexivity].
    rewrite filter_cons.
    destruct (decide (classify ucd (text e) = b)) as [<-|Hne].
    + rewrite add_to_same, <- app_assoc. reflexivity.
    + rewrite add_to_nothing_else by congruence. reflexivity.
Qed.

Lemma bucket_analyze b t :
  bucket b (analyze_text_structure ucd t) =
  filter (fun e => classify ucd (text e) = b) (entries t).
Proof.
  unfold analyze_text_structure, entries. rewrite bucket_fold.
  destruct b; reflexivity.
Qed.

Lemma enumerate_from_lookup {A} (l : list A) : forall k i,
  enumerate_from k l !! i = (fun x => (k + Z.of_nat i, x)) <$> l !! i.
Proof.
  induction l as [|x l IH]; intros k [|i]; cbn; try reflexivity.
  - f_equal. f_equal. lia.
  - rewrite IH. destruct (l !! i); cbn; [|reflexivity].
    f_equal. f_equal. lia.
Qed.

Lemma elem_of_enumerate {A} (l : list A) (il : Z * A) :
  il ∈ enumerate l <->
  exists i : nat, l !! i = Some il.2 /\ il.1 = Z.of_nat i.
Proof.
  unfold enumerate. rewrite list_elem_of_lookup. split.
  - intros [i Hi]. rewrite enumerate_from_lookup in Hi.
    destruct (l !! i) as [x|] eqn:Hx; [|discriminate].
    cbn in Hi. injection Hi as <-. exists i. cbn. split; [assumption|lia].
  - intros (i & Hi & Hk). exists i. rewrite enumerate_from_lookup, Hi. cbn.
    destruct il as [k x]. cbn in *. subst k. reflexivity.
Qed.

Lemma falsy_nil (l : str) : falsy l = true <-> l = [].
Proof. destruct l; cbn; split; congruence. Qed.

(** Membership in [entries]: exactly the non-blank lines, numbered from 1
    over all the lines. *)
Lemma elem_of_entries t e :
  e ∈ entries t <->
  exists (i : nat) raw,
    split t 10%N !! i = Some raw /\ strip raw <> [] /\
    e = {| line := Z.of_nat i + 1; text := strip raw |}.
Proof.
  unfold entries. rewrite list_elem_of_omap. split.
  - intros (il & Hin & He). apply elem_of_enumerate in Hin as (i & Hi & Hk).
    unfold entry_of in He. destruct (falsy (strip il.2)) eqn:Hb; [discriminate|].
    injection He as <-. exists i, il.2. split; [assumption|]. split.
    + intros Hnil. apply falsy_nil in Hnil. congruence.
    + rewrite Hk. reflexivity.
  - intros (i & raw & Hi & Hne & ->). exists (Z.of_nat i, raw). split.
    + apply elem_of_enumerate. exists i. cbn. split; [assumption|reflexivity].
    + unfold entry_of. cbn.
      destruct (falsy (strip raw)) eqn:Hb; [|reflexivity].
      apply falsy_nil in Hb. contradiction.
Qed.

Lemma length_omap_enumerate_from (l : list str) : forall k,
  length (omap entry_of (enumerate_from k l)) =
  length (filter (fun raw => strip raw <> []) l).
Proof.
  induction l as [|raw l IH]; intros k; [reflexivity|].
  cbn [enumerate_from omap list_omap]. rewrite filter_cons. unfold entry_of at 1. cbn [snd].
  destruct (falsy (strip raw)) eqn:Hb.
  - apply falsy_nil in Hb. rewrite decide_False by congruence. apply IH.
  - rewrite decide_True.
    + cbn. f_equal. apply IH.
    + intros Hnil. apply falsy_nil in Hnil. congruence.
Qed.

Lemma length_partition (f : Entry -> Bucket) (l : list Entry) :
  (length (filter (fun e => f e = Heading) l)
   + length (filter (fun e => f e = ListItem) l)
   + length (filter (fun e => f e = CodeLike) l)
   + length (filter (fun e => f e = TableLike) l)
   + length (filter (fun e => f e = Paragraph) l))%nat = length l.
Proof.
  induction l as [|e l IH]; [reflexivity|].
  rewrite !filter_cons.
  destruct (f e); repeat case_decide; try congruence; cbn [length]; lia.
Qed.
End AnalyzerFacts.

Section AnalyzerClaims.
Variable ucd : UnicodeData.

(** C3. The analyzer applies its five rules in the order heading, list,
    code-like, table-like, paragraph, and the first rule that matches a
    non-blank line decides its single bucket: the loop body adds the line
    to the bucket [classify] names, [classify] answers a bucket exactly
    when its rule matches and no earlier rule does, and the three sample
    lines land in headings, headings and lists. *)
Theorem rules_in_fixed_order_first_match_wins :
  (forall s i raw,
      strip raw <> [] ->
      loop_body ucd s (i, raw) =
      add_to (classify ucd (strip raw))
             {| line := i + 1; text := strip raw |} s) /\
  (forall l,
      first_match (rules ucd) l = Some (classify ucd l) /\
      (classify ucd l = Heading <-> heading_rule ucd l = true) /\
      (classify ucd l = ListItem <->
         heading_rule ucd l = false /\ list_rule l = true) /\
      (classify ucd l = CodeLike <->
         heading_rule ucd l = false /\ list_rule l = false /\
         code_rule l = true) /\
      (classify ucd l = TableLike <->
         heading_rule ucd l = false /\ list_rule l = false /\
         code_rule l = false /\ table_rule l = true) /\
      (classify ucd l = Paragraph <->
         heading_rule ucd l = false /\ list_rule l = false /\
         code_rule l = false /\ table_rule l = false)) /\
  analyze_text_structure ucd (lit "# Title") =
    add_to Heading {| line := 1; text := lit "# Title" |} empty_structure /\
  code_rule (lit "# Title") = false /\
  analyze_text_structure ucd (lit "TOTAL DUE") =
    add_to Heading {| line := 1; text := lit "TOTAL DUE" |} empty_structure /\
  analyze_text_structure ucd (lit "1. x = 5;") =
    add_to ListItem {| line := 1; text := lit "1. x = 5;" |} empty_structure /\
  code_rule (lit "1. x = 5;") = true.
Proof.
  split; [|split].
  - intros s i raw Hne. rewrite loop_body_first_match. unfold entry_of.
    cbn [fst snd]. destruct (falsy (strip raw)) eqn:Hb; [|reflexivity].
    apply falsy_nil in Hb. contradiction.
  - intros l. unfold classify, rules, first_match, paragraph_rule.
    destruct (heading_rule ucd l), (list_rule l), (code_rule l),
      (table_rule l); intuition congruence.
  - repeat split; reflexivity.
Qed.

(** C4. For every text: each bucket holds, in order, exactly the
    non-blank lines of its class; a line that is blank after trimming is
    in no bucket; a non-blank line at 0-based position [i] of
    [text.split('\n')] is recorded as number [i + 1], with its trimmed
    text, in the one bucket of its class and in no other; every recorded
    entry arises that way; and the five buckets together hold as many
    entries as there are non-blank lines. *)
Theorem buckets_partition_nonblank_lines (t : str) :
  (forall b,
      bucket b (analyze_text_structure ucd t) =
      filter (fun e => classify ucd (text e) = b) (entries t)) /\
  (forall (i : nat) raw,
      split t 10%N !! i = Some raw -> strip raw = [] ->
      forall b e, e ∈ bucket b (analyze_text_structure ucd t) ->
                  line e <> Z.of_nat i + 1) /\
  (forall (i : nat) raw,
      split t 10%N !! i = Some raw -> strip raw <> [] ->
      forall b,
        {| line := Z.of_nat i + 1; text := strip raw |}
          ∈ bucket b (analyze_text_structure ucd t)
        <-> b = classify ucd (strip raw)) /\
  (forall b e,
      e ∈ bucket b (analyze_text_structure ucd t) ->
      exists (i : nat) raw,
        split t 10%N !! i = Some raw /\ strip raw <> [] /\
        e = {| line := Z.of_nat i + 1; text := strip raw |}) /\
  (length (headings (analyze_text_structure ucd t))
   + length (lists (analyze_text_structure ucd t))
   + length (code_blocks (analyze_text_structure ucd t))
   + length (tables (analyze_text_structure ucd t))
   + length (paragraphs (analyze_text_structure ucd t)))%nat
  = length (filter (fun raw => strip raw <> []) (split t 10%N)).
Proof.
  assert (Hin : forall b e,
             e ∈ bucket b (analyze_text_structure ucd t) <->
             classify ucd (text e) = b /\ e ∈ entries t).
  { intros b e. rewrite bucket_analyze, list_elem_of_filter. reflexivity. }
  split; [exact (fun b => bucket_analyze ucd b t)|].
  split; [|split; [|split]].
  - intros i raw Hi Hblank b e He Hline.
    apply Hin in He as [_ He].
    apply elem_of_entries in He as (j & raw' & Hj & Hne & ->).
    cbn in Hline. assert (j = i) as -> by lia. congruence.
  - intros i raw Hi Hne b. rewrite Hin. cbn [text]. split.
    + intros [<- _]. reflexivity.
    + intros ->. split; [reflexivity|].
      apply elem_of_entries. exists i, raw. auto.
  - intros b e He. apply Hin in He as [_ He].
    apply elem_of_entries in He. exact He.
  - change (headings (analyze_text_structure ucd t))
      with (bucket Heading (analyze_text_structure ucd t)).
    change (lists (analyze_text_structure ucd t))
      with (bucket ListItem (analyze_text_structure ucd t)).
    change (code_blocks (analyze_text_structure ucd t))
      with (bucket CodeLike (analyze_text_structure ucd t)).
    change (tables (analyze_text_structure ucd t))
      with (bucket TableLike (analyze_text_structure ucd t)).
    change (paragraphs (analyze_text_structure ucd t))
      with (bucket Paragraph (analyze_text_structure ucd t)).
    rewrite !bucket_analyze.
    rewrite (length_partition (fun e => classify ucd (text e))).
    apply length_omap_enumerate_from.
Qed.

Lemma isupper_loop_uncased (l : str) :
  Forall (fun c => cased ucd c = false) l -> isupper_loop ucd false l = false.
Proof.
  induction 1 as [|c l Hc _ IH]; [reflexivity|].
  unfold cased in Hc. apply orb_false_elim in Hc as [Hc Ht].
  apply orb_false_elim in Hc as [Hu Hl].
  cbn [isupper_loop]. rewrite Hl, Ht, Hu. exact IH.
Qed.

(** C10. A line whose trimmed form is non-empty, does not start with the
    hash sign and has no cased character fails [isupper], so it is never a
    heading: the loop body leaves the headings alone and files the line
    under the first matching rule among list, code-like, table-like and
    paragraph. *)
Theorem uncased_line_is_never_heading s i raw :
  strip raw <> [] ->
  startswith (strip raw) (lit "#") = false ->
  Forall (fun c => cased ucd c = false) (strip raw) ->
  isupper ucd (strip raw) = false /\
  classify ucd (strip raw) <> Heading /\
  headings (loop_body ucd s (i, raw)) = headings s /\
  first_match (tl (rules ucd)) (strip raw) = Some (classify ucd (strip raw)) /\
  loop_body ucd s (i, raw) =
    add_to (classify ucd (strip raw))
           {| line := i + 1; text := strip raw |} s.
Proof.
  intros Hne Hhash Hcased.
  assert (Hup : isupper ucd (strip raw) = false)
    by (apply isupper_loop_uncased; assumption).
  assert (Hrule : heading_rule ucd (strip raw) = false)
    by (unfold heading_rule; rewrite Hhash, Hup; reflexivity).
  assert (Hbody : loop_body ucd s (i, raw) =
                  add_to (classify ucd (strip raw))
                         {| line := i + 1; text := strip raw |} s).
  { rewrite loop_body_first_match. unfold entry_of. cbn [fst snd].
    destruct (falsy (strip raw)) eqn:Hb; [|reflexivity].
    apply falsy_nil in Hb. contradiction. }
  assert (Hcls : classify ucd (strip raw) <> Heading).
  { unfold classify, rules, first_match. rewrite Hrule.
    destruct (list_rule _); [discriminate|].
    destruct (code_rule _); [discriminate|].
    destruct (table_rule _); discriminate. }
  repeat split; try assumption.
  - rewrite Hbody.
    change (headings (add_to ?b ?e s)) with (bucket Heading (add_to b e s)).
    apply add_to_nothing_else. congruence.
  - unfold classify, rules, first_match, tl. rewrite Hrule.
    destruct (list_rule _); [reflexivity|].
    destruct (code_rule _); [reflexivity|].
    destruct (table_rule _); reflexivity.
Qed.
End AnalyzerClaims.

Lemma uncased_line_is_never_heading_witness :
  isupper ascii_only (strip (lit " 2024 ")) = false /\
  classify ascii_only (strip (lit " 2024 ")) <> Heading /\
  headings (loop_body ascii_only empty_structure (0, lit " 2024 ")) = [] /\
  first_match (tl (rules ascii_only)) (strip (lit " 2024 "))
    = Some (classify ascii_only (strip (lit " 2024 "))) /\
  loop_body ascii_only empty_structure (0, lit " 2024 ") =
    add_to (classify ascii_only (strip (lit " 2024 ")))
           {| line := 0 + 1; text := strip (lit " 2024 ") |} empty_structure.
Proof.
  apply (uncased_line_is_never_heading ascii_only empty_structure 0 (lit " 2024 ")).
  - vm_compute. discriminate.
  - reflexivity.
  - let l := eval vm_compute in (strip (lit " 2024 ")) in
    change (strip (lit " 2024 ")) with l.
    repeat constructor.
Defined.

Lemma rules_in_fixed_order_first_match_wins_witness :
  loop_body ascii_only empty_structure (0, lit "1. x = 5;")
  = add_to (classify ascii_only (strip (lit "1. x = 5;")))
           {| line := 0 + 1; text := strip (lit "1. x = 5;") |}
           empty_structure.
Proof.
  exact (proj1 (rules_in_fixed_order_first_match_wins ascii_only)
           empty_structure 0 (lit "1. x = 5;")
           ltac:(vm_compute; discriminate)).
Defined.

(** The text ["A"], an empty line, [" b "]: line 3 is the paragraph ["b"]. *)
Lemma buckets_partition_nonblank_lines_witness :
  {| line := Z.of_nat 2 + 1; text := strip (lit " b ") |}
    ∈ bucket Paragraph
        (analyze_text_structure ascii_only
           (lit "A" ++ [10; 10]%N ++ lit " b "))
  <-> Paragraph = classify ascii_only (strip (lit " b ")).
Proof.
  exact (proj1 (proj2 (proj2 (buckets_partition_nonblank_lines ascii_only
                                (lit "A" ++ [10; 10]%N ++ lit " b "))))
           2%nat (lit " b ") eq_refl ltac:(vm_compute; discriminate)
           Paragraph).
Defined.

Example analyze_sample :
  analyze_text_structure ascii_only
    (lit "# Title" ++ [10; 10]%N ++ lit "TOTAL DUE" ++ [10]%N
       ++ lit "1. x = 5;" ++ [10]%N ++ lit "f(x)" ++ [10]%N
       ++ lit "a" ++ [9]%N ++ lit "b" ++ [10]%N ++ lit "  plain 2024  ")
  = {| headings := [ {| line := 1; text := lit "# Title" |};
                     {| line := 3; text := lit "TOTAL DUE" |} ];
       lists := [ {| line := 4; text := lit "1. x = 5;" |} ];
       paragraphs := [ {| line := 7; text := lit "plain 2024" |} ];
       tables := [ {| line := 6; text := lit "a" ++ [9%N] ++ lit "b" |} ];
       code_blocks := [ {| line := 5; text := lit "f(x)" |} ] |}.
Proof. vm_compute. reflexivity. Qed.


(** ** Library code *)

Example md5_empty : md5_hexdigest [] = lit "d41d8cd98f00b204e9800998ecf8427e".
Proof. vm_compute. reflexivity. Qed.

Example md5_abc :
  md5_hexdigest (ascii_bytes "abc") = lit "900150983cd24fb0d6963f7d28e17f72".
Proof. vm_compute. reflexivity. Qed.

Example md5_fox :
  md5_hexdigest (ascii_bytes "The quick brown fox jumps over the lazy dog")
  = lit "9e107d9d372bb6826bd81d3542a419d6".
Proof. vm_compute. reflexivity. Qed.

Example md5_two_blocks :
  md5_hexdigest (ascii_bytes
    "12345678901234567890123456789012345678901234567890123456789012345678901234567890")
  = lit "57edf4a22be3c955ac49da2e2107b67a".
Proof. vm_compute. reflexivity. Qed.

Example str_of_int_ex :
  str_of_int 0 = lit "0" /\ str_of_int 1700000000 = lit "1700000000"
  /\ str_of_int (-5) = lit "-5".
Proof. vm_compute. repeat split. Qed.

Example encode_ex :
  encode [233; 8226; 128512]%N
  = Some (map byte_of_N [0xC3; 0xA9; 0xE2; 0x80; 0xA2; 0xF0; 0x9F; 0x98; 0x80]%N)
  /\ encode [0xD800]%N = None.
Proof. vm_compute. split; reflexivity. Qed.

(** ** History *)

Section HistoryFacts.

Lemma history_set_ocr_history v st : history (set_ocr_history v st) = v.
Proof. reflexivity. Qed.

(** Insert at position 0, then keep the first 20. *)
Lemma history_append a st :
  history (append a st) = take 20 (entry_for a :: history st).
Proof.
  unfold append, add_to_history, history. fold (entry_for a).
  destruct st as [r l c p [h|] sr su si pl td];
    cbn [ocr_history set_ocr_history default from_option].
  all: unfold len;
    match goal with
    | |- context [Z.of_nat (length ?l) >? 20] =>
        destruct (Z.of_nat (length l) >? 20) eqn:Hlen
    end; cbn [ocr_history set_ocr_history default from_option];
    try reflexivity; symmetry; apply take_ge; lia.
Qed.

Lemma length_history_append a st :
  (length (history (append a st)) <= 20)%nat.
Proof. rewrite history_append, length_take. lia. Qed.

Lemma history_delete i st :
  history (delete_history i st) = delete i (history st).
Proof.
  unfold delete_history, history.
  destruct st as [r l c p [h|] sr su si pl td];
    cbn [ocr_history default from_option]; [|reflexivity].
  destruct (i <? length h)%nat eqn:Hi; [reflexivity|].
  cbn [ocr_history default from_option]. apply Nat.ltb_ge in Hi.
  revert i Hi. induction h as [|x h IH]; intros [|i] Hi; cbn in *;
    try reflexivity; try lia.
  f_equal. apply IH. lia.
Qed.

Lemma history_view i st : history (view_history i st) = history st.
Proof.
  unfold view_history, history.
  destruct st as [r l c p [h|] sr su si pl td];
    cbn [ocr_history default from_option]; [|reflexivity].
  destruct (h !! i); reflexivity.
Qed.

Lemma take_app_take {A} n (xs ys : list A) :
  take n (xs ++ take n ys) = take n (xs ++ ys).
Proof.
  rewrite !take_app, take_take. do 2 f_equal. lia.
Qed.

Lemma history_appends xs : forall st,
  (length (history st) <= 20)%nat ->
  history (appends xs st) = take 20 (rev (map entry_for xs) ++ history st).
Proof.
  induction xs as [|a xs IH]; intros st Hst; cbn [appends fold_left map rev].
  - cbn [app]. symmetry. apply take_ge. exact Hst.
  - fold (appends xs (append a st)).
    rewrite IH by apply length_history_append.
    rewrite history_append, take_app_take, <- app_assoc. reflexivity.
Qed.

Lemma history_run_bounded ops : forall st,
  (length (history st) <= 20)%nat ->
  (length (history (run_history ops st)) <= 20)%nat.
Proof.
  induction ops as [|op ops IH]; intros st Hst; [exact Hst|].
  cbn [run_history fold_left]. apply IH.
  destruct op as [a|i|i]; cbn [history_step].
  - apply length_history_append.
  - rewrite history_delete.
    pose proof (sublist_length _ _ (sublist_delete (history st) i)). lia.
  - rewrite history_view. exact Hst.
Qed.

Lemma history_run_sublist ops : forall st,
  sublist (history (run_history ops st))
          (rev (map entry_for (appended ops)) ++ history st).
Proof.
  induction ops as [|op ops IH]; intros st; [reflexivity|].
  cbn [run_history fold_left]. etransitivity; [apply IH|].
  destruct op as [a|i|i]; cbn [history_step appended omap list_omap].
  - cbn [map rev]. rewrite <- app_assoc. apply sublist_app; [reflexivity|].
    rewrite history_append. apply sublist_take.
  - rewrite history_delete.
    apply sublist_app; [reflexivity|apply sublist_delete].
  - rewrite history_view. reflexivity.
Qed.

Lemma appends_nonempty_head xs x st :
  (length (history st) <= 20)%nat ->
  history (appends (xs ++ [x]) st) !! 0%nat = Some (entry_for x).
Proof.
  intros Hst. rewrite history_appends by exact Hst.
  rewrite map_app, rev_app_distr. reflexivity.
Qed.
End HistoryFacts.

(** C5. Each append builds the entry (preview: the first 200 characters and
    the marker "..." when the text is longer than 200 characters; the full
    text kept beside it), puts it at position 0 and keeps the first 20
    entries. Whatever the user appends, deletes or views, the history has at
    most 20 entries and is a subsequence of the appended entries read from
    the latest to the earliest. After 25 appends to a new session there are
    exactly 20 entries, the last appended first, the five earliest gone. *)
Theorem history_most_recent_first_at_most_20 :
  (forall now text language filename time st,
      let a := {| at_time := now; a_text := text; a_language := language;
                  a_filename := filename; a_processing_time := time |} in
      history (add_to_history now text language filename time st)
        = take 20 (entry_for a :: history st) /\
      HistoryItem.full_text (entry_for a) = text /\
      (len text > 200 ->
         HistoryItem.text (entry_for a) = take 200 text ++ lit "...") /\
      (len text <= 200 -> HistoryItem.text (entry_for a) = text)) /\
  (forall ops,
      (length (history (run_history ops new_session)) <= 20)%nat /\
      sublist (history (run_history ops new_session))
              (rev (map entry_for (appended ops)))) /\
  (forall xs,
      history (appends xs new_session) = take 20 (rev (map entry_for xs))) /\
  (forall xs,
      length xs = 25%nat ->
      length (history (appends xs new_session)) = 20%nat /\
      history (appends xs new_session) !! 0%nat = entry_for <$> last xs /\
      history (appends xs new_session) = rev (map entry_for (drop 5 xs))).
Proof.
  assert (Hnew : (length (history new_session) <= 20)%nat) by (cbn; lia).
  split; [|split; [|split]].
  - intros now text language filename time st a. split; [|split; [|split]].
    + exact (history_append a st).
    + reflexivity.
    + intros Hlen. cbn [entry_for HistoryItem.text a_text a].
      destruct (len text >? 200) eqn:E; [reflexivity|lia].
    + intros Hlen. cbn [entry_for HistoryItem.text a_text a].
      destruct (len text >? 200) eqn:E; [lia|reflexivity].
  - intros ops. split.
    + apply history_run_bounded, Hnew.
    + pose proof (history_run_sublist ops new_session) as H.
      cbn [history new_session ocr_history default from_option] in H.
      rewrite app_nil_r in H. exact H.
  - intros xs. rewrite history_appends by exact Hnew.
    cbn [history new_session ocr_history default from_option].
    rewrite app_nil_r. reflexivity.
  - intros xs Hlen.
    assert (Hh : history (appends xs new_session)
                 = rev (map entry_for (drop 5 xs))).
    { rewrite history_appends by exact Hnew.
      cbn [history new_session ocr_history default from_option].
      rewrite app_nil_r, firstn_rev, length_map, Hlen.
      change (25 - 20)%nat with 5%nat. rewrite skipn_map. reflexivity. }
    split; [|split].
    + rewrite Hh, length_rev, length_map, length_drop, Hlen. reflexivity.
    + destruct xs as [|x0 xs0] using rev_ind; [discriminate|].
      rewrite appends_nonempty_head by exact Hnew.
      rewrite last_snoc. reflexivity.
    + exact Hh.
Qed.

Lemma history_most_recent_first_at_most_20_witness :
  length (history (appends (map sample_append (seq 1 25)) new_session)) = 20%nat /\
  history (appends (map sample_append (seq 1 25)) new_session) !! 0%nat
    = entry_for <$> last (map sample_append (seq 1 25)) /\
  history (appends (map sample_append (seq 1 25)) new_session)
    = rev (map entry_for (drop 5 (map sample_append (seq 1 25)))).
Proof.
  exact (proj2 (proj2 (proj2 history_most_recent_first_at_most_20))
           (map sample_append (seq 1 25)) eq_refl).
Defined.

(** ** Share links *)

Section ShareFacts.

Lemma scalar_value_spec c :
  scalar_value c = true <->
  (c < 0xD800 \/ 0xDFFF < c /\ c <= 0x10FFFF)%N.
Proof.
  unfold scalar_value.
  rewrite orb_true_iff, andb_true_iff, !N.ltb_lt, N.leb_le. reflexivity.
Qed.

Lemma utf8_char_scalar c : scalar_value c = true <-> is_Some (utf8_char c).
Proof.
  rewrite scalar_value_spec. unfold utf8_char.
  destruct (c <? 0x80)%N eqn:H1; [|destruct (c <? 0x800)%N eqn:H2;
    [|destruct (c <? 0x10000)%N eqn:H3;
      [destruct ((0xD800 <=? c) && (c <=? 0xDFFF))%N eqn:H4
      |destruct (c <=? 0x10FFFF)%N eqn:H5]]].
  all: repeat match goal with
         | H : (_ && _)%bool = true |- _ => apply andb_true_iff in H as [? ?]
         | H : (_ && _)%bool = false |- _ =>
             apply andb_false_iff in H as [H|H]
         | H : (_ <? _)%N = true |- _ => apply N.ltb_lt in H
         | H : (_ <? _)%N = false |- _ => apply N.ltb_ge in H
         | H : (_ <=? _)%N = true |- _ => apply N.leb_le in H
         | H : (_ <=? _)%N = false |- _ => apply N.leb_gt in H
         end.
  all: split; [intros Hs|intros [x Hx]]; try discriminate; eauto; try lia.
Qed.

(** [encode] succeeds exactly on sequences of scalar values. *)
Lemma encode_total s :
  Forall (fun c => scalar_value c = true) s <-> is_Some (encode s).
Proof.
  induction s as [|c s IH]; cbn [encode].
  - split; [eauto|constructor].
  - rewrite Forall_cons, IH, utf8_char_scalar.
    destruct (utf8_char c), (encode s); split;
      try (intros [[? ?] [? ?]]); try (intros [? ?]); try discriminate; eauto.
Qed.

Lemma lit_scalar s : Forall (fun c => scalar_value c = true) (lit s).
Proof.
  unfold lit. induction s as [|a s IH]; cbn; constructor; [|exact IH].
  pose proof (N_ascii_bounded a). unfold scalar_value.
  apply orb_true_iff. left. apply N.ltb_lt. lia.
Qed.

Lemma encode_concat text language now :
  Forall (fun c => scalar_value c = true) text ->
  Forall (fun c => scalar_value c = true) language ->
  is_Some (encode (text ++ language ++ str_of_int now)).
Proof.
  intros Ht Hl. apply encode_total. rewrite !Forall_app.
  repeat split; try assumption. apply lit_scalar.
Qed.

Lemma get_shared_result_lookup sid st :
  get_shared_result sid st = default ∅ (shared_results st) !! sid.
Proof.
  unfold get_shared_result.
  destruct st as [r l c p h [m|] su si pl td];
    cbn [shared_results default from_option id].
  - destruct (m !! sid); reflexivity.
  - rewrite lookup_empty. reflexivity.
Qed.

(** The two outcomes of a call. *)
Lemma generate_ok now base text language st data :
  encode (text ++ language ++ str_of_int now) = Some data ->
  generate_shareable_link now base text language st =
  (set_shared_results
     (<[share_id_of now data := share_record now text language]>
        (default ∅ (shared_results st))) st,
   Ok (configured_base_url base ++ lit "?share=" ++ share_id_of now data,
       share_id_of now data)).
Proof.
  intros He. unfold generate_shareable_link. rewrite He.
  destruct st as [r l c p h [m|] su si pl td]; reflexivity.
Qed.

Lemma generate_raise now base text language st :
  encode (text ++ language ++ str_of_int now) = None ->
  generate_shareable_link now base text language st
  = (st, Raise UnicodeEncodeError).
Proof. intros He. unfold generate_shareable_link. rewrite He. reflexivity. Qed.

Lemma get_after_set sid m st :
  get_shared_result sid (set_shared_results m st) = m !! sid.
Proof. rewrite get_shared_result_lookup. reflexivity. Qed.

Lemma creates_keeps_absent cs : forall st sid,
  get_shared_result sid st = None ->
  sid ∉ (creates cs st).2 ->
  get_shared_result sid (creates cs st).1 = None.
Proof.
  induction cs as [|c cs IH]; intros st sid Hst Hid; [exact Hst|].
  cbn [creates] in *. unfold create in *.
  destruct (encode (c_text c ++ c_language c ++ str_of_int (c_now c)))
    as [data|] eqn:He.
  - rewrite (generate_ok _ _ _ _ _ _ He) in *.
    destruct (creates cs _) as [st'' ids] eqn:Hrun. cbn [fst snd] in *.
    apply not_elem_of_cons in Hid as [Hne Hid].
    specialize (IH (set_shared_results
      (<[share_id_of (c_now c) data
         := share_record (c_now c) (c_text c) (c_language c)]>
         (default ∅ (shared_results st))) st) sid).
    rewrite Hrun in IH. apply IH; [|exact Hid].
    rewrite get_after_set, lookup_insert_ne by congruence.
    rewrite <- get_shared_result_lookup. exact Hst.
  - rewrite (generate_raise _ _ _ _ _ He) in *. apply IH; assumption.
Qed.
End ShareFacts.

(** C6. An identifier that no call of [generate_shareable_link] has
    returned in the session resolves to [None]; and when a call returns an
    identifier, resolving it in the session the call leaves gives the record
    with the text and the language that were passed (and the call does
    return one whenever the text and the language are sequences of scalar
    values). *)
Theorem share_resolution_round_trip :
  (forall cs sid,
      sid ∉ (creates cs new_session).2 ->
      get_shared_result sid (creates cs new_session).1 = None) /\
  (forall now base text language st st' url sid,
      generate_shareable_link now base text language st = (st', Ok (url, sid)) ->
      get_shared_result sid st' = Some (share_record now text language) /\
      SharedResult.text (share_record now text language) = text /\
      SharedResult.language (share_record now text language) = language) /\
  (forall now base text language st,
      Forall (fun c => scalar_value c = true) text ->
      Forall (fun c => scalar_value c = true) language ->
      exists st' url sid,
        generate_shareable_link now base text language st
        = (st', Ok (url, sid))).
Proof.
  split; [|split].
  - intros cs sid Hid. apply creates_keeps_absent; [reflexivity|exact Hid].
  - intros now base text language st st' url sid Hgen.
    destruct (encode (text ++ language ++ str_of_int now)) as [data|] eqn:He.
    + rewrite (generate_ok _ _ _ _ _ _ He) in Hgen.
      injection Hgen as <- _ <-.
      rewrite get_after_set, lookup_insert_eq. auto.
    + rewrite (generate_raise _ _ _ _ _ He) in Hgen. discriminate.
  - intros now base text language st Ht Hl.
    destruct (encode_concat text language now Ht Hl) as [data He].
    rewrite (generate_ok _ _ _ _ _ _ He). eauto.
Qed.

Lemma share_resolution_round_trip_witness :
  get_shared_result (lit "1700000000_" ++ lit "e577d56d")
    (set_shared_results
       (<[lit "1700000000_" ++ lit "e577d56d"
          := share_record 1700000000 (lit "hello") (lit "English")]> ∅)
       new_session)
  = Some (share_record 1700000000 (lit "hello") (lit "English")) /\
  SharedResult.text (share_record 1700000000 (lit "hello") (lit "English"))
  = lit "hello" /\
  SharedResult.language (share_record 1700000000 (lit "hello") (lit "English"))
  = lit "English".
Proof.
  apply (proj1 (proj2 share_resolution_round_trip)
           1700000000 None (lit "hello") (lit "English") new_session _
           (lit "http://localhost:8501?share=1700000000_e577d56d")).
  rewrite (generate_ok 1700000000 None (lit "hello") (lit "English") new_session
             (ascii_bytes "helloEnglish1700000000") eq_refl).
  vm_compute. reflexivity.
Defined.

(** The identifier of a sample call, digit for digit. *)
Example share_id_sample :
  returned_id
    (generate_shareable_link 1700000000 None (lit "hello") (lit "English")
                             new_session).2
  = Some (lit "1700000000_e577d56d").
Proof. vm_compute. reflexivity. Qed.

Example share_id_sample_unicode :
  returned_id
    (generate_shareable_link 1700000001 (Some (lit "https://ocr.example"))
       (lit "caf" ++ [233; 32; 8226; 32; 128512]%N) (lit "French")
       new_session).2
  = Some (lit "1700000001_" ++ lit "c9b5b2e8").
Proof. vm_compute. reflexivity. Qed.

(** A lone surrogate has no UTF-8 encoding: the call raises before it
    stores anything, and returns no identifier and no URL. *)
Lemma create_share_lone_surrogate_raises :
  generate_shareable_link 1700000000 None [0xD83D%N] (lit "English") new_session
  = (new_session, Raise UnicodeEncodeError).
Proof. vm_compute. reflexivity. Qed.

(** C7 (amended). For every timestamp and every text and language made of
    scalar values (no lone surrogate), the call encodes
    text + language + timestamp, names the share by the timestamp in
    decimal, an underscore and the first 8 hexadecimal digits of the MD5
    digest of those bytes, stores the record under that name and leaves
    every other name as it was, and returns the base URL followed by
    [?share=] and the name, the base URL being the configured one, or
    [http://localhost:8501] when none (or an empty one) is configured. The
    identifier returned depends on text, language and timestamp only. *)
Theorem create_share_identifier_and_url now base text language st :
  Forall (fun c => scalar_value c = true) text ->
  Forall (fun c => scalar_value c = true) language ->
  exists data,
    encode (text ++ language ++ str_of_int now) = Some data /\
    (generate_shareable_link now base text language st).2
    = Ok (configured_base_url base ++ lit "?share="
            ++ (str_of_int now ++ lit "_" ++ take 8 (md5_hexdigest data)),
          str_of_int now ++ lit "_" ++ take 8 (md5_hexdigest data)) /\
    get_shared_result
      (str_of_int now ++ lit "_" ++ take 8 (md5_hexdigest data))
      (generate_shareable_link now base text language st).1
    = Some {| SharedResult.text := text;
              SharedResult.language := language;
              SharedResult.timestamp := str_of_int now |} /\
    (forall other,
        other <> str_of_int now ++ lit "_" ++ take 8 (md5_hexdigest data) ->
        get_shared_result other
          (generate_shareable_link now base text language st).1
        = get_shared_result other st) /\
    configured_base_url None = lit "http://localhost:8501" /\
    configured_base_url (Some []) = lit "http://localhost:8501" /\
    (forall u, u <> [] -> configured_base_url (Some u) = u) /\
    (forall base2 st2,
        returned_id (generate_shareable_link now base2 text language st2).2
        = returned_id (generate_shareable_link now base text language st).2).
Proof.
  intros Ht Hl.
  destruct (encode_concat text language now Ht Hl) as [data He].
  exists data. split; [exact He|].
  rewrite (generate_ok _ _ _ _ _ _ He). cbn [fst snd].
  fold (share_id_of now data).
  split; [reflexivity|]. split; [|split; [|split; [|split; [|split]]]].
  - rewrite get_after_set, lookup_insert_eq. reflexivity.
  - intros other Hne.
    rewrite get_after_set, lookup_insert_ne by congruence.
    symmetry. apply get_shared_result_lookup.
  - reflexivity.
  - reflexivity.
  - intros [|c u] Hu; [contradiction|reflexivity].
  - intros base2 st2. rewrite (generate_ok _ _ _ _ _ _ He). reflexivity.
Qed.

Lemma create_share_identifier_and_url_witness :
  exists data,
    encode (lit "hello" ++ lit "English" ++ str_of_int 1700000000) = Some data /\
    (generate_shareable_link 1700000000 None (lit "hello") (lit "English")
                             new_session).2
    = Ok (configured_base_url None ++ lit "?share="
            ++ (str_of_int 1700000000 ++ lit "_" ++ take 8 (md5_hexdigest data)),
          str_of_int 1700000000 ++ lit "_" ++ take 8 (md5_hexdigest data)) /\
    get_shared_result
      (str_of_int 1700000000 ++ lit "_" ++ take 8 (md5_hexdigest data))
      (generate_shareable_link 1700000000 None (lit "hello") (lit "English")
                               new_session).1
    = Some {| SharedResult.text := lit "hello";
              SharedResult.language := lit "English";
              SharedResult.timestamp := str_of_int 1700000000 |} /\
    (forall other,
        other <> str_of_int 1700000000 ++ lit "_" ++ take 8 (md5_hexdigest data) ->
        get_shared_result other
          (generate_shareable_link 1700000000 None (lit "hello") (lit "English")
                                   new_session).1
        = get_shared_result other new_session) /\
    configured_base_url None = lit "http://localhost:8501" /\
    configured_base_url (Some []) = lit "http://localhost:8501" /\
    (forall u, u <> [] -> configured_base_url (Some u) = u) /\
    (forall base2 st2,
        returned_id
          (generate_shareable_link 1700000000 base2 (lit "hello") (lit "English")
                                   st2).2
        = returned_id
            (generate_shareable_link 1700000000 None (lit "hello")
                                     (lit "English") new_session).2).
Proof.
  apply (create_share_identifier_and_url 1700000000 None (lit "hello")
           (lit "English") new_session).
  - repeat constructor.
  - repeat constructor.
Defined.

(** ** Preprocessing *)

Section PreprocessClaims.
Variable pil : Pillow.

Lemma elem_of_pipeline t a b c s :
  t ∈ pipeline a b c s <->
  wanted t = true /\
  t ∈ [Rotate (- a) true; Brightness b; Contrast c; Sharpness s].
Proof. unfold pipeline. rewrite list_elem_of_filter. reflexivity. Qed.

(** C8. Preprocessing is the left-to-right application of those of
    rotation, brightness, contrast, sharpness (in that order) that are
    wanted: the rotation, by the negative of the selected angle with
    [expand=True], when the angle is not 0; each enhancement when its
    factor is not equal to 1.0 as a float. With angle 0 and the three
    factors 1.0 nothing is applied and the image comes back as it went
    in. *)
Theorem preprocess_fixed_order_and_identity
    (image : Image pil) (a : Z) (b c s : float) :
  preprocess pil image a b c s
    = fold_left (apply_transform pil) (pipeline a b c s) image /\
  sublist (pipeline a b c s)
          [Rotate (- a) true; Brightness b; Contrast c; Sharpness s] /\
  (Rotate (- a) true ∈ pipeline a b c s <-> a <> 0) /\
  (Brightness b ∈ pipeline a b c s <-> PrimFloat.eqb b 1 = false) /\
  (Contrast c ∈ pipeline a b c s <-> PrimFloat.eqb c 1 = false) /\
  (Sharpness s ∈ pipeline a b c s <-> PrimFloat.eqb s 1 = false) /\
  pipeline 0 1 1 1 = [] /\
  preprocess pil image 0 1 1 1 = image.
Proof.
  split; [|split; [|split; [|split; [|split; [|split; [|split]]]]]].
  - unfold preprocess, pipeline. rewrite !filter_cons, filter_nil.
    cbn [wanted].
    assert (Ha : negb (- a =? 0) = negb (a =? 0)).
    { f_equal. destruct (Z.eqb_spec a 0), (Z.eqb_spec (- a) 0); lia. }
    rewrite Ha.
    destruct (negb (a =? 0)), (float_ne b 1), (float_ne c 1), (float_ne s 1);
      repeat case_decide; try congruence; reflexivity.
  - unfold pipeline. apply sublist_filter.
  - rewrite elem_of_pipeline. cbn [wanted]. rewrite negb_true_iff, Z.eqb_neq.
    split; [intros [H _]; lia|intros H; split; [lia|left]].
  - rewrite elem_of_pipeline. cbn [wanted]. unfold float_ne.
    rewrite negb_true_iff. split; [tauto|].
    intros H; split; [exact H|]. right; left.
  - rewrite elem_of_pipeline. cbn [wanted]. unfold float_ne.
    rewrite negb_true_iff. split; [tauto|].
    intros H; split; [exact H|]. right; right; left.
  - rewrite elem_of_pipeline. cbn [wanted]. unfold float_ne.
    rewrite negb_true_iff. split; [tauto|].
    intros H; split; [exact H|]. right; right; right; left.
  - reflexivity.
  - reflexivity.
Qed.
End PreprocessClaims.

(** The equality test is exact: the float next above 1.0 is a change. *)
Example brightness_next_float_is_applied :
  pipeline 0 0x1.0000000000001p+0 1 1 = [Brightness 0x1.0000000000001p+0]
  /\ pipeline 90 1 1 1 = [Rotate (-90) true].
Proof. split; reflexivity. Qed.

(** ** Language catalog *)

(** The catalog has 65 entries, not 66. *)
Lemma languages_has_65_entries :
  length languages = 65%nat /\ (length languages =? 66)%nat = false.
Proof. split; reflexivity. Qed.

(** C9 (amended). The catalog is a fixed mapping of 65 distinct language
    names to OCR-service codes; its last entry, [Other], maps to [eng], the
    code of [English]; [English] is the first entry and so the selection
    the page starts with. *)
Theorem language_catalog :
  length languages = 65%nat /\
  NoDup (dict_keys languages) /\
  last languages = Some (lit "Other", lit "eng") /\
  dict_lookup languages (lit "Other") = Some (lit "eng") /\
  dict_lookup languages (lit "English") = Some (lit "eng") /\
  default_selected_lang = Some (lit "English").
Proof.
  split; [reflexivity|]. split; [|repeat split; vm_compute; reflexivity].
  apply (bool_decide_unpack _). vm_compute. reflexivity.
Qed.

(** ** The extract-text handler *)

Section HandlerFacts.
Variable pil : Pillow.
Variable world : World.

Abbreviation Ev := (Event pil).

(** Unfold the plumbing of [Run]. *)
Ltac unfold_run :=
  unfold click_extract, extract_text, try_except, extract_text_body,
    size_budget, save, do_resize, ocr_space_file, languages_item,
    handle_result, keep_result, share_link, bind, lift, emit, update, ret in *.

Lemma posts_app (l1 l2 : list Ev) : posts pil (l1 ++ l2) = posts pil l1 ++ posts pil l2.
Proof. unfold posts. apply omap_app. Qed.

Lemma resizes_app (l1 l2 : list Ev) :
  resizes pil (l1 ++ l2) = resizes pil l1 ++ resizes pil l2.
Proof. unfold resizes. apply omap_app. Qed.

(** The budget step touches only the log: a save, then perhaps a resize
    and a second save. *)
Lemma size_budget_small image bs (s : SessionState * list Ev) :
  save_png pil image = Ok bs ->
  (len bs >? 1024 * 1024) = false ->
  size_budget pil image s = ((fst s, snd s ++ [PngSave pil image]), Ok bs).
Proof.
  intros Hsave Hlen. unfold_run. cbn [fst snd]. rewrite Hsave, Hlen. reflexivity.
Qed.

Lemma size_budget_large image bs (s : SessionState * list Ev) :
  save_png pil image = Ok bs ->
  (len bs >? 1024 * 1024) = true ->
  size_budget pil image s =
  match resize pil image (width pil image / 2) (height pil image / 2) with
  | Ok image_resized =>
      ((fst s, snd s ++ [PngSave pil image;
                         Resize pil image (width pil image / 2)
                                (height pil image / 2);
                         PngSave pil image_resized]),
       save_png pil image_resized)
  | Raise e =>
      ((fst s, snd s ++ [PngSave pil image;
                         Resize pil image (width pil image / 2)
                                (height pil image / 2)]),
       Raise e)
  end.
Proof.
  intros Hsave Hlen. unfold_run. cbn [fst snd]. rewrite Hsave, Hlen.
  cbn [fst snd].
  destruct (resize pil image _ _) as [im2|e]; cbn [fst snd];
    rewrite <- ?app_assoc; reflexivity.
Qed.

Lemma size_budget_save_raises image e (s : SessionState * list Ev) :
  save_png pil image = Raise e ->
  size_budget pil image s = ((fst s, snd s ++ [PngSave pil image]), Raise e).
Proof. intros Hsave. unfold_run. cbn [fst snd]. rewrite Hsave. reflexivity. Qed.

Lemma add_to_history_keeps now t l f p st :
  ocr_result (add_to_history now t l f p st) = ocr_result st /\
  ocr_language (add_to_history now t l f p st) = ocr_language st /\
  ocr_language_code (add_to_history now t l f p st) = ocr_language_code st /\
  shared_results (add_to_history now t l f p st) = shared_results st.
Proof.
  unfold add_to_history.
  destruct st as [r la c pt [h|] sr su si pl td];
    cbn [ocr_history set_ocr_history default from_option id];
    match goal with
    | |- context [if ?b then _ else _] => destruct b
    end; repeat split; reflexivity.
Qed.

Lemma generate_keeps now base t l st :
  ocr_result (generate_shareable_link now base t l st).1 = ocr_result st /\
  ocr_language (generate_shareable_link now base t l st).1 = ocr_language st /\
  ocr_history (generate_shareable_link now base t l st).1 = ocr_history st.
Proof.
  destruct (encode (t ++ l ++ str_of_int now)) as [data|] eqn:He.
  - rewrite (generate_ok _ _ _ _ _ _ He). repeat split; reflexivity.
  - rewrite (generate_raise _ _ _ _ _ He). repeat split; reflexivity.
Qed.

Ltac give_run :=
  match goal with
  | |- exists st' evs r, (?X, ?l ++ ?es, ?R) = _ /\ _ => exists X, es, R
  | |- exists st' evs r, (?X, ?l, ?R) = _ /\ _ =>
      exists X, [], R; rewrite app_nil_r
  end.

(** Keeping a text: the result and its language are set, whatever happens
    afterwards. *)
Lemma keep_result_spec click text st (log : list Ev) :
  exists st' evs r,
    keep_result pil world click text (st, log) = ((st', log ++ evs), r) /\
    posts pil evs = [] /\ resizes pil evs = [] /\
    ocr_result st' = Some text /\
    ocr_language st' = Some (selected_lang click).
Proof.
  unfold keep_result, languages_item, share_link, bind, lift, emit, update.
  cbn [fst snd].
  destruct (dict_lookup languages (selected_lang click)) as [code|];
    cbn [fst snd].
  - match goal with
    | |- context [generate_shareable_link ?n ?b ?t ?l ?x] =>
        pose proof (generate_keeps n b t l x) as (Hr & Hl & _);
        pose proof (add_to_history_keeps (now_local click) text
          (selected_lang click) (uploaded_name click) (elapsed click)
          (set_processing_time (elapsed click)
             (set_ocr_language_code code
                (set_ocr_language (selected_lang click)
                   (set_ocr_result text st))))) as (Hr' & Hl' & _);
        destruct (generate_shareable_link n b t l x) as [st2 [[u i]|e]]
    end; cbn [fst snd] in *; give_run;
      repeat split; try reflexivity;
      cbn [ocr_result ocr_language set_share_id set_share_url
           set_processing_time set_ocr_language_code set_ocr_language
           set_ocr_result] in *; congruence.
  - give_run. repeat split; reflexivity.
Qed.

Lemma strip_nil : strip [] = [].
Proof. reflexivity. Qed.

(** [handle_result] sends nothing and resizes nothing; it leaves the
    session alone unless the answer holds a non-empty trimmed text, which
    then is the result of the session. *)
Lemma handle_result_spec click result st (log : list Ev) :
  exists st' evs r,
    handle_result pil world click result (st, log) = ((st', log ++ evs), r) /\
    posts pil evs = [] /\ resizes pil evs = [] /\
    match extracted_text result with
    | None => st' = st
    | Some text =>
        text <> [] /\ ocr_result st' = Some text /\
        ocr_language st' = Some (selected_lang click)
    end.
Proof.
  unfold handle_result, extracted_text, is_errored, bind, lift, emit.
  destruct result as [| | | | |l|d]; cbn [py_get bind lift emit fst snd];
    try (give_run; repeat split; reflexivity).
  destruct (truthy match dict_lookup d (lit "IsErroredOnProcessing") with
                   | Some v => v
                   | None => JNull
                   end) eqn:Hflag; cbn [bind lift emit fst snd].
  { give_run; repeat split; reflexivity. }
  destruct (dict_lookup d (lit "ParsedResults"))
    as [[| [|] |n |f |[|c s] |[|first rest] |[|kv dd]]|];
    cbn [truthy py_item0 py_get py_strip bind lift emit fst snd falsy negb];
    try (give_run; repeat split; reflexivity).
  - destruct (negb (n =? 0)); cbn [bind lift emit fst snd];
      give_run; repeat split; reflexivity.
  - destruct (float_ne f 0); cbn [bind lift emit fst snd];
      give_run; repeat split; reflexivity.
  - destruct first as [| | | | | |e];
      cbn [py_get py_strip bind lift emit fst snd];
      try (give_run; repeat split; reflexivity).
    destruct (dict_lookup e (lit "ParsedText")) as [[| | | |raw| |]|];
      cbn [py_get py_strip bind lift emit fst snd];
      try (give_run; repeat split; reflexivity).
    + destruct (falsy (strip raw)) eqn:Hblank; cbn [negb].
      * give_run; repeat split; reflexivity.
      * destruct (keep_result_spec click (strip raw) st log)
          as (st' & evs & r & Hrun & Hp & Hr & Hres & Hlang).
        exists st', evs, r. repeat split; try assumption.
        intros Hnil. apply falsy_nil in Hnil. congruence.
    + rewrite strip_nil. cbn [falsy negb]. give_run; repeat split; reflexivity.
Qed.

(** Every way through the budget step. *)
Lemma size_budget_cases image st (log : list Ev) :
  exists pre r,
    size_budget pil image (st, log) = ((st, log ++ pre), r) /\
    posts pil pre = [] /\
    (resizes pil pre = [] \/
     resizes pil pre = [(image, width pil image / 2, height pil image / 2)]).
Proof.
  destruct (save_png pil image) as [bs|e] eqn:Hsave.
  - destruct (len bs >? 1024 * 1024) eqn:Hlen.
    + rewrite (size_budget_large _ _ _ Hsave Hlen). cbn [fst snd].
      destruct (resize pil image _ _) as [im2|e];
        eexists _, _; split; try reflexivity; split; try reflexivity;
        right; reflexivity.
    + rewrite (size_budget_small _ _ _ Hsave Hlen). cbn [fst snd].
      eexists _, _; split; [reflexivity|]. split; [reflexivity|left; reflexivity].
  - rewrite (size_budget_save_raises _ _ _ Hsave). cbn [fst snd].
    eexists _, _; split; [reflexivity|]. split; [reflexivity|left; reflexivity].
Qed.

(** After the budget step: with bytes over the limit the handler reports
    and stops; otherwise it looks the language up, announces it, sends the
    request and hands the answer to [handle_result]. *)
Lemma extract_after_budget image click st pre r :
  size_budget pil image (st, []) = ((st, pre), r) ->
  extract_text pil world image click (st, []) =
  match r with
  | Raise e => ((st, pre ++ [StError pil (failure_message world e)]), Ok tt)
  | Ok bs =>
      if len bs >? 1024 * 1024
      then ((st, pre ++ [StError pil (too_large_message)]), Ok tt)
      else
        match dict_lookup languages (selected_lang click) with
        | None => ((st, pre ++ [StError pil (failure_message world KeyError)]), Ok tt)
        | Some code =>
            match requests_post_json world (ocr_request bs code) with
            | Raise e =>
                ((st, (pre ++ [StInfo pil (info_message click code);
                               Post pil (ocr_request bs code)])
                        ++ [StError pil (failure_message world e)]), Ok tt)
            | Ok result =>
                try_except pil (handle_result pil world click result)
                  (fun e => emit pil (StError pil (failure_message world e)))
                  (st, pre ++ [StInfo pil (info_message click code);
                               Post pil (ocr_request bs code)])
            end
        end
  end.
Proof.
  intros Hbudget.
  unfold extract_text, extract_text_body.
  unfold try_except at 1. unfold bind at 1. rewrite Hbudget.
  destruct r as [bs|e]; [|reflexivity].
  destruct (len bs >? 1024 * 1024); [reflexivity|].
  unfold languages_item, ocr_space_file, bind, lift, emit. cbn [fst snd].
  destruct (dict_lookup languages (selected_lang click)) as [code|];
    [|reflexivity].
  cbn [fst snd]. rewrite <- !app_assoc. cbn [app].
  destruct (requests_post_json world (ocr_request bs code)) as [result|e];
    [|reflexivity].
  unfold try_except. reflexivity.
Qed.

(** The answer of the service, handled inside the [try]. *)
Lemma after_request click result st (log : list Ev) :
  exists st' evs,
    fst (try_except pil (handle_result pil world click result)
           (fun e => emit pil (StError pil (failure_message world e))) (st, log))
    = (st', log ++ evs) /\
    posts pil evs = [] /\ resizes pil evs = [] /\
    match extracted_text result with
    | None => st' = st
    | Some text =>
        text <> [] /\ ocr_result st' = Some text /\
        ocr_language st' = Some (selected_lang click)
    end.
Proof.
  destruct (handle_result_spec click result st log)
    as (st' & evs & r & Hrun & Hp & Hr & Hst).
  unfold try_except. rewrite Hrun. destruct r as [[]|e].
  - exists st', evs. auto.
  - exists st', (evs ++ [StError pil (failure_message world e)]).
    unfold emit. cbn [fst snd]. rewrite app_assoc, posts_app, resizes_app, Hp, Hr.
    auto.
Qed.

Lemma gtb_false_le (x y : Z) : (x >? y) = false -> x <= y.
Proof. rewrite Z.gtb_ltb. intros H. apply Z.ltb_ge in H. exact H. Qed.

Lemma gtb_true_gt (x y : Z) : (x >? y) = true <-> x > y.
Proof. rewrite Z.gtb_ltb, Z.ltb_lt. lia. Qed.

(** The rest of a click, given how the budget step went. *)
Lemma extract_given_budget image click st pre r :
  size_budget pil image (st, []) = ((st, pre), r) ->
  exists st' evs,
    click_extract pil world image click st = (st', pre ++ evs) /\
    resizes pil evs = [] /\
    match r with
    | Raise e => evs = [StError pil (failure_message world e)] /\ st' = st
    | Ok bs =>
        if len bs >? 1024 * 1024
        then evs = [StError pil too_large_message] /\ st' = st
        else
          match dict_lookup languages (selected_lang click) with
          | None => evs = [StError pil (failure_message world KeyError)] /\ st' = st
          | Some code =>
              posts pil evs = [ocr_request bs code] /\
              (st' = st \/
               exists result text,
                 requests_post_json world (ocr_request bs code) = Ok result /\
                 extracted_text result = Some text /\
                 text <> [] /\ ocr_result st' = Some text /\
                 ocr_language st' = Some (selected_lang click))
          end
    end.
Proof.
  intros Hb. unfold click_extract.
  rewrite (extract_after_budget _ click _ _ _ Hb).
  destruct r as [bs|e]; cbn [fst].
  2:{ eexists _, _; repeat split; reflexivity. }
  destruct (len bs >? 1024 * 1024) eqn:Hlen; cbn [fst].
  { eexists _, _; repeat split; reflexivity. }
  destruct (dict_lookup languages (selected_lang click)) as [code|]; cbn [fst].
  2:{ eexists _, _; repeat split; reflexivity. }
  destruct (requests_post_json world (ocr_request bs code)) as [result|e] eqn:Hpost;
    cbn [fst].
  2:{ rewrite <- app_assoc. eexists _, _; split; [reflexivity|].
      split; [reflexivity|]. split; [reflexivity|left; reflexivity]. }
  destruct (after_request click result st
              (pre ++ [StInfo pil (info_message click code);
                       Post pil (ocr_request bs code)]))
    as (st' & evs & Hrun & Hpe & Hre & Hst).
  rewrite Hrun, <- app_assoc. eexists _, _; split; [reflexivity|].
  rewrite resizes_app, posts_app, Hre, Hpe. split; [reflexivity|].
  split; [reflexivity|].
  destruct (extracted_text result) as [text|] eqn:Hex; [right|left; exact Hst].
  exists result, text. tauto.
Qed.

(** Every click, whatever Pillow and the service do: no request carries
    more than 1 MiB, at most one resize is made (the halving of the image),
    and the session changes only when a request was answered with a
    non-empty trimmed text, which is then its result. *)
Lemma click_extract_cases image click st :
  exists st' log,
    click_extract pil world image click st = (st', log) /\
    Forall (fun req => len (file_bytes req) <= 1048576) (posts pil log) /\
    (resizes pil log = [] \/
     resizes pil log = [(image, width pil image / 2, height pil image / 2)]) /\
    (st' = st \/
     exists req result text,
       posts pil log = [req] /\
       requests_post_json world req = Ok result /\
       extracted_text result = Some text /\
       text <> [] /\ ocr_result st' = Some text /\
       ocr_language st' = Some (selected_lang click)).
Proof.
  destruct (size_budget_cases image st []) as (pre & r & Hb & Hp & Hr).
  cbn [app] in Hb.
  destruct (extract_given_budget image click st pre r Hb)
    as (st' & evs & Hrun & Hre & Hcase).
  exists st', (pre ++ evs). split; [exact Hrun|].
  rewrite posts_app, resizes_app, Hp, Hre, app_nil_r. cbn [app].
  split; [|split; [exact Hr|]].
  - destruct r as [bs|e].
    + destruct (len bs >? 1024 * 1024) eqn:Hlen.
      * destruct Hcase as [-> _]. apply List.Forall_nil.
      * apply gtb_false_le in Hlen.
        destruct (dict_lookup languages (selected_lang click)) as [code|].
        -- destruct Hcase as [-> _]. repeat constructor.
           cbn [file_bytes ocr_request]. lia.
        -- destruct Hcase as [-> _]. apply List.Forall_nil.
    + destruct Hcase as [-> _]. apply List.Forall_nil.
  - destruct r as [bs|e]; [|left; tauto].
    destruct (len bs >? 1024 * 1024); [left; tauto|].
    destruct (dict_lookup languages (selected_lang click)) as [code|];
      [|left; tauto].
    destruct Hcase as [Hposts [->|(result & text & H)]]; [left; reflexivity|].
    right. exists (ocr_request bs code), result, text. tauto.
Qed.

(** Over the limit at the first save: one resize, the halving. *)
Lemma resize_attempted_once image click st bs :
  save_png pil image = Ok bs ->
  len bs > 1048576 ->
  resizes pil (click_extract pil world image click st).2
  = [(image, width pil image / 2, height pil image / 2)].
Proof.
  intros Hsave Hlen.
  assert (Hgt : (len bs >? 1024 * 1024) = true) by (apply gtb_true_gt; lia).
  pose proof (size_budget_large image bs (st, []) Hsave Hgt) as Hb.
  cbn [fst snd app] in Hb.
  destruct (resize pil image _ _) as [im2|e];
    destruct (extract_given_budget image click st _ _ Hb)
      as (st' & evs & -> & Hre & _);
    cbn [snd]; rewrite resizes_app, Hre; reflexivity.
Qed.

(** C1. Whatever the image and whatever Pillow and the service answer, no
    request of a click carries more than 1,048,576 bytes. When the first
    serialisation is within the limit nothing is resized; when it is over,
    exactly one resize is attempted, to half the width and half the height
    of the image; when that resize and the second serialisation return, the
    log starts with save, resize, save, and if the second result is still
    over the limit the click ends there with the oversize error, no
    request, and the session as it was; if it is within the limit it is the
    payload of the one request made. *)
Theorem oversize_resized_once_then_abandoned image click st :
  Forall (fun req => len (file_bytes req) <= 1048576)
         (posts pil (click_extract pil world image click st).2) /\
  (forall bs,
      save_png pil image = Ok bs ->
      (len bs <= 1048576 ->
       resizes pil (click_extract pil world image click st).2 = []) /\
      (len bs > 1048576 ->
       resizes pil (click_extract pil world image click st).2
       = [(image, width pil image / 2, height pil image / 2)] /\
       forall image_resized bs2,
         resize pil image (width pil image / 2) (height pil image / 2)
         = Ok image_resized ->
         save_png pil image_resized = Ok bs2 ->
         take 3 (click_extract pil world image click st).2
         = [PngSave pil image;
            Resize pil image (width pil image / 2) (height pil image / 2);
            PngSave pil image_resized] /\
         (len bs2 > 1048576 ->
          click_extract pil world image click st
          = (st, [PngSave pil image;
                  Resize pil image (width pil image / 2) (height pil image / 2);
                  PngSave pil image_resized;
                  StError pil too_large_message])) /\
         (len bs2 <= 1048576 ->
          forall code,
            dict_lookup languages (selected_lang click) = Some code ->
            posts pil (click_extract pil world image click st).2
            = [ocr_request bs2 code]))).
Proof.
  split.
  { destruct (click_extract_cases image click st) as (st' & log & -> & H & _).
    exact H. }
  intros bs Hsave. split.
  - intros Hlen.
    assert (Hgt : (len bs >? 1024 * 1024) = false).
    { destruct (len bs >? 1024 * 1024) eqn:E; [|reflexivity].
      apply gtb_true_gt in E. lia. }
    pose proof (size_budget_small image bs (st, []) Hsave Hgt) as Hb.
    cbn [fst snd app] in Hb.
    destruct (extract_given_budget image click st _ _ Hb)
      as (st' & evs & -> & Hre & _).
    cbn [snd]. rewrite resizes_app, Hre. reflexivity.
  - intros Hlen.
    assert (Hgt : (len bs >? 1024 * 1024) = true) by (apply gtb_true_gt; lia).
    pose proof (size_budget_large image bs (st, []) Hsave Hgt) as Hb.
    cbn [fst snd app] in Hb. split.
    + exact (resize_attempted_once image click st bs Hsave Hlen).
    + intros im2 bs2 Hresize Hsave2. rewrite Hresize, Hsave2 in Hb.
      destruct (extract_given_budget image click st _ _ Hb)
        as (st' & evs & Hrun & Hre & Hcase).
      rewrite Hrun. cbn [snd]. split; [reflexivity|]. split.
      * intros Hlen2.
        assert (Hgt2 : (len bs2 >? 1024 * 1024) = true)
          by (apply gtb_true_gt; lia).
        rewrite Hgt2 in Hcase. destruct Hcase as [-> ->]. reflexivity.
      * intros Hlen2 code Hcode.
        assert (Hgt2 : (len bs2 >? 1024 * 1024) = false).
        { destruct (len bs2 >? 1024 * 1024) eqn:E; [|reflexivity].
          apply gtb_true_gt in E. lia. }
        rewrite Hgt2, Hcode in Hcase. destruct Hcase as [Hposts _].
        rewrite posts_app, Hposts. reflexivity.
Qed.

Lemma handle_result_errored click d (s : SessionState * list Ev) :
  is_errored d = true ->
  handle_result pil world click (JDict d) s =
  ((fst s, snd s ++ [StError pil
      (lit "OCR Error: "
         ++ format_json world
              match dict_lookup d (lit "ErrorMessage") with
              | Some v => v
              | None => JStr (lit "Unknown error")
              end)]), Ok tt).
Proof.
  unfold is_errored. intros Hflag.
  unfold handle_result, bind, lift, emit. cbn [py_get fst snd].
  rewrite Hflag. reflexivity.
Qed.

Lemma handle_result_no_results click d (s : SessionState * list Ev) :
  is_errored d = false ->
  dict_lookup d (lit "ParsedResults") = None \/
  dict_lookup d (lit "ParsedResults") = Some (JList []) ->
  handle_result pil world click (JDict d) s =
  ((fst s, snd s ++ [StWarning pil no_text_message]), Ok tt).
Proof.
  unfold is_errored. intros Hflag Hpr.
  unfold handle_result, bind, lift, emit. cbn [py_get fst snd].
  rewrite Hflag. destruct Hpr as [-> | ->]; reflexivity.
Qed.

Lemma handle_result_first click d e rest raw (s : SessionState * list Ev) :
  is_errored d = false ->
  dict_lookup d (lit "ParsedResults") = Some (JList (JDict e :: rest)) ->
  dict_lookup e (lit "ParsedText") = Some (JStr raw) ->
  handle_result pil world click (JDict d) s =
  if falsy (strip raw)
  then ((fst s, snd s ++ [StWarning pil no_text_message]), Ok tt)
  else keep_result pil world click (strip raw) s.
Proof.
  unfold is_errored. intros Hflag Hpr Hpt.
  unfold handle_result, bind, lift, emit. cbn [py_get fst snd].
  rewrite Hflag, Hpr. cbn [truthy py_item0 py_get]. rewrite Hpt.
  cbn [py_strip]. destruct (falsy (strip raw)); reflexivity.
Qed.

(** What [extracted_text] finds. *)
Lemma extracted_text_Some result text :
  extracted_text result = Some text <->
  exists d e rest raw,
    result = JDict d /\ is_errored d = false /\
    dict_lookup d (lit "ParsedResults") = Some (JList (JDict e :: rest)) /\
    dict_lookup e (lit "ParsedText") = Some (JStr raw) /\
    text = strip raw /\ text <> [].
Proof.
  unfold extracted_text, is_errored. split.
  - destruct result as [| | | | | |d]; try discriminate.
    destruct (truthy _) eqn:Hflag; [discriminate|].
    destruct (dict_lookup d (lit "ParsedResults"))
      as [[| | | | |[|[| | | | | |e] rest]|]|] eqn:Hpr; try discriminate.
    destruct (dict_lookup e (lit "ParsedText")) as [[| | | |raw| |]|] eqn:Hpt;
      try discriminate.
    destruct (falsy (strip raw)) eqn:Hb; [discriminate|].
    intros [= <-]. exists d, e, rest, raw.
    repeat split; try reflexivity; try assumption.
    intros Hnil. apply falsy_nil in Hnil. congruence.
  - intros (d & e & rest & raw & -> & Hflag & Hpr & Hpt & -> & Hne).
    rewrite Hflag, Hpr, Hpt.
    destruct (falsy (strip raw)) eqn:Hb; [|reflexivity].
    apply falsy_nil in Hb. contradiction.
Qed.

(** Keeping a text when the language is in the catalog. *)
Lemma keep_result_known click text code st (log : list Ev) :
  dict_lookup languages (selected_lang click) = Some code ->
  exists st' evs r,
    keep_result pil world click text (st, log) = ((st', log ++ evs), r) /\
    ocr_result st' = Some text /\
    ocr_language st' = Some (selected_lang click) /\
    ocr_language_code st' = Some code /\
    processing_time st' = Some (elapsed click) /\
    history st' =
      take 20 (entry_for {| at_time := now_local click; a_text := text;
                            a_language := selected_lang click;
                            a_filename := uploaded_name click;
                            a_processing_time := elapsed click |}
               :: history st).
Proof.
  intros Hcode.
  unfold keep_result, languages_item, share_link, bind, lift, emit, update.
  cbn [fst snd]. rewrite Hcode. cbn [fst snd].
  set (st1 := set_processing_time (elapsed click)
                (set_ocr_language_code code
                   (set_ocr_language (selected_lang click)
                      (set_ocr_result text st)))).
  set (a := {| at_time := now_local click; a_text := text;
               a_language := selected_lang click;
               a_filename := uploaded_name click;
               a_processing_time := elapsed click |}).
  set (st2 := add_to_history (now_local click) text (selected_lang click)
                 (uploaded_name click) (elapsed click) st1).
  assert (Hh : history st2 = take 20 (entry_for a :: history st))
    by exact (history_append a st1).
  pose proof (add_to_history_keeps (now_local click) text
                (selected_lang click) (uploaded_name click) (elapsed click) st1)
    as (Hr & Hl & Hc & _).
  fold st2 in Hr, Hl, Hc.
  assert (Hp : processing_time st2 = Some (elapsed click)).
  { unfold st2, add_to_history.
    destruct (ocr_history st1);
      cbn [ocr_history set_ocr_history default from_option id];
      match goal with |- context [if ?b then _ else _] => destruct b end;
      reflexivity. }
  clearbody st2.
  destruct (encode (text ++ selected_lang click ++ str_of_int (now_unix click)))
    as [data|] eqn:He.
  - rewrite (generate_ok _ _ _ _ _ _ He). cbn [fst snd].
    give_run. split; [reflexivity|]. unfold history in *.
    cbn [ocr_result ocr_language ocr_language_code processing_time ocr_history
         set_share_id set_share_url set_shared_results].
    rewrite Hr, Hl, Hc, Hp, Hh. repeat split; reflexivity.
  - rewrite (generate_raise _ _ _ _ _ He). cbn [fst snd].
    give_run. split; [reflexivity|].
    rewrite Hr, Hl, Hc, Hp, Hh. repeat split; reflexivity.
Qed.

(** C2. When a click reaches the service and gets an answer: an answer
    whose [IsErroredOnProcessing] is true is shown as an error made of the
    label [OCR Error: ] and the [ErrorMessage], which is copied unaltered
    when it is a string; an answer that is not flagged and whose [ParsedResults]
    is missing or empty, or whose first entry has a [ParsedText] that is
    empty after trimming, gives the warning "No text found in the image."
    with no exception raised and the session exactly as it was; a
    [ParsedText] that is non-empty after trimming becomes the result of the
    session (with its language and code, and an entry at the front of the
    history). And for every click: the session is changed only when an
    answer held such a non-empty trimmed text. *)
Theorem service_answer_error_warning_or_result :
  (forall image click st pre bs code result,
      size_budget pil image (st, []) = ((st, pre), Ok bs) ->
      len bs <= 1048576 ->
      dict_lookup languages (selected_lang click) = Some code ->
      requests_post_json world (ocr_request bs code) = Ok result ->
      (forall d,
          result = JDict d ->
          is_errored d = true ->
          extract_text pil world image click (st, [])
          = ((st, seen_before_answer pil pre click bs code
                    ++ [StError pil
                          (lit "OCR Error: "
                             ++ format_json world
                                  match dict_lookup d (lit "ErrorMessage") with
                                  | Some v => v
                                  | None => JStr (lit "Unknown error")
                                  end)]), Ok tt) /\
          forall msg,
            dict_lookup d (lit "ErrorMessage") = Some (JStr msg) ->
            extract_text pil world image click (st, [])
            = ((st, seen_before_answer pil pre click bs code
                      ++ [StError pil (lit "OCR Error: " ++ msg)]), Ok tt)) /\
      (forall d,
          result = JDict d ->
          is_errored d = false ->
          dict_lookup d (lit "ParsedResults") = None \/
          dict_lookup d (lit "ParsedResults") = Some (JList []) ->
          extract_text_body pil world image click (st, [])
          = ((st, seen_before_answer pil pre click bs code
                    ++ [StWarning pil no_text_message]), Ok tt) /\
          click_extract pil world image click st
          = (st, seen_before_answer pil pre click bs code
                   ++ [StWarning pil no_text_message])) /\
      (forall d e rest raw,
          result = JDict d ->
          is_errored d = false ->
          dict_lookup d (lit "ParsedResults") = Some (JList (JDict e :: rest)) ->
          dict_lookup e (lit "ParsedText") = Some (JStr raw) ->
          (strip raw = [] ->
           extract_text_body pil world image click (st, [])
           = ((st, seen_before_answer pil pre click bs code
                     ++ [StWarning pil no_text_message]), Ok tt) /\
           click_extract pil world image click st
           = (st, seen_before_answer pil pre click bs code
                    ++ [StWarning pil no_text_message])) /\
          (strip raw <> [] ->
           ocr_result (click_extract pil world image click st).1
             = Some (strip raw) /\
           ocr_language (click_extract pil world image click st).1
             = Some (selected_lang click) /\
           ocr_language_code (click_extract pil world image click st).1
             = Some code /\
           history (click_extract pil world image click st).1
             = take 20
                 (entry_for {| at_time := now_local click;
                               a_text := strip raw;
                               a_language := selected_lang click;
                               a_filename := uploaded_name click;
                               a_processing_time := elapsed click |}
                  :: history st)))) /\
  (forall image click st,
      (click_extract pil world image click st).1 = st \/
      exists req result d e rest raw,
        posts pil (click_extract pil world image click st).2 = [req] /\
        requests_post_json world req = Ok result /\
        result = JDict d /\ is_errored d = false /\
        dict_lookup d (lit "ParsedResults") = Some (JList (JDict e :: rest)) /\
        dict_lookup e (lit "ParsedText") = Some (JStr raw) /\
        strip raw <> [] /\
        ocr_result (click_extract pil world image click st).1
          = Some (strip raw)).
Proof.
  split.
  - intros image click st pre bs code result Hb Hlen Hcode Hpost.
    assert (Hgt : (len bs >? 1024 * 1024) = false).
    { destruct (len bs >? 1024 * 1024) eqn:E; [|reflexivity].
      apply gtb_true_gt in E. lia. }
    assert (Hbody : extract_text_body pil world image click (st, [])
                    = handle_result pil world click result
                        (st, seen_before_answer pil pre click bs code)).
    { unfold extract_text_body. unfold bind at 1. rewrite Hb, Hgt.
      unfold languages_item, ocr_space_file, bind, lift, emit. cbn [fst snd].
      rewrite Hcode. cbn [fst snd]. rewrite Hpost.
      unfold seen_before_answer. rewrite <- !app_assoc. reflexivity. }
    assert (Hok : forall log,
               handle_result pil world click result
                 (st, seen_before_answer pil pre click bs code)
               = ((st, log), Ok tt) ->
               extract_text_body pil world image click (st, [])
               = ((st, log), Ok tt) /\
               extract_text pil world image click (st, []) = ((st, log), Ok tt)).
    { intros log Hrun. rewrite Hbody. split; [exact Hrun|].
      unfold extract_text, try_except. rewrite Hbody, Hrun. reflexivity. }
    split; [|split].
    + intros d -> Hflag.
      assert (Hrun : extract_text pil world image click (st, [])
                     = ((st, seen_before_answer pil pre click bs code
                               ++ [StError pil
                                     (lit "OCR Error: "
                                        ++ format_json world
                                             match dict_lookup d (lit "ErrorMessage") with
                                             | Some v => v
                                             | None => JStr (lit "Unknown error")
                                             end)]), Ok tt)).
      { apply Hok. rewrite handle_result_errored by exact Hflag. reflexivity. }
      split; [exact Hrun|].
      intros msg Hmsg. rewrite Hrun, Hmsg. reflexivity.
    + intros d -> Hflag Hpr.
      destruct (Hok (seen_before_answer pil pre click bs code
                       ++ [StWarning pil no_text_message])) as [H1 H2].
      { apply handle_result_no_results; assumption. }
      split; [exact H1|]. unfold click_extract. rewrite H2. reflexivity.
    + intros d e rest raw -> Hflag Hpr Hpt. split.
      * intros Hblank.
        destruct (Hok (seen_before_answer pil pre click bs code
                         ++ [StWarning pil no_text_message])) as [H1 H2].
        { rewrite (handle_result_first _ _ _ _ _ _ Hflag Hpr Hpt), Hblank.
          reflexivity. }
        split; [exact H1|]. unfold click_extract. rewrite H2. reflexivity.
      * intros Hne.
        destruct (keep_result_known click (strip raw) code st
                    (seen_before_answer pil pre click bs code) Hcode)
          as (st' & evs & r & Hrun & Hfacts).
        assert (Hfst : (click_extract pil world image click st).1 = st').
        { unfold click_extract, extract_text, try_except.
          rewrite Hbody, (handle_result_first _ _ _ _ _ _ Hflag Hpr Hpt).
          destruct (falsy (strip raw)) eqn:Hf;
            [apply falsy_nil in Hf; contradiction|].
          rewrite Hrun. destruct r; reflexivity. }
        rewrite Hfst. tauto.
  - intros image click st.
    destruct (click_extract_cases image click st)
      as (st' & log & -> & _ & _ & [->|(req & result & text & H)]);
      [left; reflexivity|right].
    destruct H as (Hposts & Hpost & Hex & Hne & Hres & _).
    apply extracted_text_Some in Hex
      as (d & e & rest & raw & -> & Hflag & Hpr & Hpt & -> & _).
    exists req, (JDict d), d, e, rest, raw. cbn [fst snd]. tauto.
Qed.
End HandlerFacts.

(** ** The handler on sample inputs *)

Lemma len_raster_bytes (im : Z * Z) :
  0 <= fst im * snd im -> len (raster_bytes im) = fst im * snd im.
Proof.
  intros H. unfold len, raster_bytes. rewrite repeat_length. apply Z2Nat.id, H.
Qed.

Lemma raster_4096x2048_over : len (raster_bytes (4096, 2048)) > 1048576.
Proof. rewrite len_raster_bytes; cbn [fst snd]; lia. Qed.

Lemma raster_2048x1024_over : len (raster_bytes (2048, 1024)) > 1048576.
Proof. rewrite len_raster_bytes; cbn [fst snd]; lia. Qed.

Lemma oversize_resized_once_then_abandoned_witness :
  click_extract raster_pillow (canned_world (Ok hello_answer))
                (4096, 2048) sample_click new_session
  = (new_session,
     [PngSave raster_pillow (4096, 2048);
      Resize raster_pillow (4096, 2048) 2048 1024;
      PngSave raster_pillow (2048, 1024);
      StError raster_pillow too_large_message]).
Proof.
  exact (proj1 (proj2
           (proj2 (proj2 (proj2 (oversize_resized_once_then_abandoned
                                   raster_pillow (canned_world (Ok hello_answer))
                                   (4096, 2048) sample_click new_session)
                                (raster_bytes (4096, 2048)) eq_refl)
                         raster_4096x2048_over)
                  (2048, 1024) (raster_bytes (2048, 1024)) eq_refl eq_refl))
           raster_2048x1024_over).
Defined.

Lemma service_answer_error_warning_or_result_witness :
  extract_text raster_pillow (canned_world (Ok bad_image_answer))
               (10, 10) sample_click (new_session, [])
  = ((new_session,
      seen_before_answer raster_pillow [PngSave raster_pillow (10, 10)]
                         sample_click (raster_bytes (10, 10)) (lit "eng")
        ++ [StError raster_pillow (lit "OCR Error: " ++ lit "Bad image")]),
     Ok tt).
Proof.
  refine (proj2 (proj1 (proj1 (service_answer_error_warning_or_result
                                 raster_pillow
                                 (canned_world (Ok bad_image_answer)))
                          (10, 10) sample_click new_session
                          [PngSave raster_pillow (10, 10)]
                          (raster_bytes (10, 10)) (lit "eng") bad_image_answer
                          _ _ _ _)
                   _ eq_refl _)
            (lit "Bad image") _).
  - reflexivity.
  - vm_compute. discriminate.
  - vm_compute. reflexivity.
  - reflexivity.
  - vm_compute. reflexivity.
  - vm_compute. reflexivity.
Defined.

(** A whole click, evaluated: the text comes back trimmed, goes to the
    front of the history and is shared under the identifier MD5 gives. *)
Example click_with_text :
  let st := (click_extract raster_pillow (canned_world (Ok hello_answer))
                           (10, 10) sample_click new_session).1 in
  ocr_result st = Some (lit "Hello") /\
  ocr_language_code st = Some (lit "eng") /\
  map HistoryItem.full_text (history st) = [lit "Hello"] /\
  share_id st = Some (lit "1700000000_41b64267") /\
  get_shared_result (lit "1700000000_41b64267") st
  = Some (share_record 1700000000 (lit "Hello") (lit "English")) /\
  posts raster_pillow
    (click_extract raster_pillow (canned_world (Ok hello_answer))
                   (10, 10) sample_click new_session).2
  = [ocr_request (raster_bytes (10, 10)) (lit "eng")].
Proof. vm_compute. repeat split. Qed.

Example click_without_text :
  click_extract raster_pillow (canned_world (Ok empty_answer))
                (10, 10) sample_click new_session
  = (new_session,
     seen_before_answer raster_pillow [PngSave raster_pillow (10, 10)]
                        sample_click (raster_bytes (10, 10)) (lit "eng")
       ++ [StWarning raster_pillow no_text_message]).
Proof. vm_compute. reflexivity. Qed.

(** A 2048 by 2048 image is halved once and then fits exactly. *)
Example click_resized_fits :
  resizes raster_pillow
    (click_extract raster_pillow (canned_world (Ok empty_answer))
                   (2048, 2048) sample_click new_session).2
  = [((2048, 2048), 1024, 1024)].
Proof.
  apply (resize_attempted_once raster_pillow (canned_world (Ok empty_answer))
           (2048, 2048) sample_click new_session (raster_bytes (2048, 2048))
           eq_refl).
  rewrite len_raster_bytes; cbn [fst snd]; lia.
Qed.

(** * Further properties of the page *)

(** ** The handler, path by path *)

Section HandlerPaths.
Variable pil : Pillow.
Variable world : World.

Abbreviation Evt := (Event pil).

(** The three ways [keep_result] can go. *)
Lemma keep_result_paths click text st (log : list Evt) :
  keep_result pil world click text (st, log) =
  match dict_lookup languages (selected_lang click) with
  | None =>
      ((set_ocr_language (selected_lang click) (set_ocr_result text st), log),
       Raise KeyError)
  | Some code =>
      match encode (text ++ selected_lang click ++ str_of_int (now_unix click)) with
      | None => ((stored click text code st, log), Raise UnicodeEncodeError)
      | Some data =>
          ((shared click text code data st,
            log ++ [StSuccess pil (success_message world click)]), Ok tt)
      end
  end.
Proof.
  unfold keep_result, languages_item, share_link, bind, lift, emit, update.
  cbn [fst snd].
  destruct (dict_lookup languages (selected_lang click)) as [code|];
    [|reflexivity].
  cbn [fst snd]. fold (stored click text code st).
  destruct (encode (text ++ selected_lang click ++ str_of_int (now_unix click)))
    as [data|] eqn:He.
  - rewrite (generate_ok _ _ _ _ _ _ He). reflexivity.
  - rewrite (generate_raise _ _ _ _ _ He). reflexivity.
Qed.

(** What [handle_result] does with each kind of answer. *)
Lemma handle_result_outcome click result st (log : list Evt) :
  match extracted_text result with
  | Some text =>
      text <> [] /\
      handle_result pil world click result (st, log)
      = keep_result pil world click text (st, log)
  | None =>
      (exists m, handle_result pil world click result (st, log)
                 = ((st, log ++ [StError pil m]), Ok tt)) \/
      handle_result pil world click result (st, log)
      = ((st, log ++ [StWarning pil no_text_message]), Ok tt) \/
      (exists e, handle_result pil world click result (st, log)
                 = ((st, log), Raise e))
  end.
Proof.
  unfold handle_result, extracted_text, is_errored, bind, lift, emit.
  destruct result as [| | | | |l|d]; cbn [py_get fst snd]; eauto.
  destruct (truthy match dict_lookup d (lit "IsErroredOnProcessing") with
                   | Some v => v
                   | None => JNull
                   end) eqn:Hflag; cbn [fst snd]; eauto.
  destruct (dict_lookup d (lit "ParsedResults"))
    as [[| [|] |n |f |[|c s] |[|first rest] |[|kv dd]]|];
    cbn [truthy py_item0 py_get py_strip fst snd falsy negb]; eauto.
  - destruct (negb (n =? 0)); cbn [fst snd]; eauto.
  - destruct (float_ne f 0); cbn [fst snd]; eauto.
  - destruct first as [| | | | | |e]; cbn [py_get py_strip fst snd]; eauto.
    destruct (dict_lookup e (lit "ParsedText")) as [[| | | |raw| |]|];
      cbn [py_get py_strip fst snd]; eauto.
    destruct (falsy (strip raw)) eqn:Hblank; cbn [negb]; eauto.
    split; [|reflexivity].
    intros Hnil. apply falsy_nil in Hnil. congruence.
Qed.

Lemma size_budget_quiet image st :
  exists pre r,
    size_budget pil image (st, []) = ((st, pre), r) /\
    forallb (fun e => negb (closing pil e)) pre = true.
Proof.
  destruct (save_png pil image) as [bs|e] eqn:Hsave.
  - destruct (len bs >? 1024 * 1024) eqn:Hlen.
    + rewrite (size_budget_large _ _ _ _ Hsave Hlen). cbn [fst snd app].
      destruct (resize pil image _ _) as [im2|e];
        eexists _, _; split; reflexivity.
    + rewrite (size_budget_small _ _ _ _ Hsave Hlen). cbn [fst snd app].
      eexists _, _; split; reflexivity.
  - rewrite (size_budget_save_raises _ _ _ _ Hsave). cbn [fst snd app].
    eexists _, _; split; reflexivity.
Qed.

(** Every click goes one of four ways: an error or the warning with the
    session as it was; the error after the result and its history entry
    were stored (the share link could not be made); or success. Before the
    closing message the log holds only calls and the notice. *)
Lemma click_outcomes image click st :
  exists pre,
    forallb (fun e => negb (closing pil e)) pre = true /\
    ((exists m,
         click_extract pil world image click st = (st, pre ++ [StError pil m])) \/
     click_extract pil world image click st
     = (st, pre ++ [StWarning pil no_text_message]) \/
     (exists text code,
         text <> [] /\
         dict_lookup languages (selected_lang click) = Some code /\
         encode (text ++ selected_lang click ++ str_of_int (now_unix click))
         = None /\
         click_extract pil world image click st
         = (stored click text code st,
            pre ++ [StError pil (failure_message world UnicodeEncodeError)])) \/
     (exists text code data,
         text <> [] /\
         dict_lookup languages (selected_lang click) = Some code /\
         encode (text ++ selected_lang click ++ str_of_int (now_unix click))
         = Some data /\
         click_extract pil world image click st
         = (shared click text code data st,
            pre ++ [StSuccess pil (success_message world click)]))).
Proof.
  destruct (size_budget_quiet image st) as (pre & r & Hb & Hq).
  unfold click_extract. rewrite (extract_after_budget _ _ _ click _ _ _ Hb).
  destruct r as [bs|e]; cbn [fst]; [|exists pre; eauto].
  destruct (len bs >? 1024 * 1024); cbn [fst]; [exists pre; eauto|].
  destruct (dict_lookup languages (selected_lang click)) as [code|] eqn:Hcode;
    cbn [fst]; [|exists pre; eauto].
  set (seen := pre ++ [StInfo pil (info_message click code);
                       Post pil (ocr_request bs code)]).
  assert (Hseen : forallb (fun e => negb (closing pil e)) seen = true).
  { unfold seen. rewrite forallb_app, Hq. reflexivity. }
  destruct (requests_post_json world (ocr_request bs code)) as [result|e];
    cbn [fst]; [|exists seen; eauto].
  exists seen. split; [exact Hseen|].
  unfold try_except.
  pose proof (handle_result_outcome click result st seen) as Hout.
  destruct (extracted_text result) as [text|].
  - destruct Hout as [Hne ->]. rewrite keep_result_paths, Hcode.
    destruct (encode _) as [data|] eqn:He; cbn [fst snd].
    + right; right; right. exists text, code, data. auto.
    + right; right; left. exists text, code. unfold emit. cbn [fst snd]. auto.
  - destruct Hout as [[m ->]|[->|[e ->]]]; cbn [fst]; eauto.
Qed.
End HandlerPaths.

(** ** What a click sends, shows and stores *)

Section ClickProperties.
Variable pil : Pillow.
Variable world : World.

Abbreviation Evn := (Event pil).

(** Where the bytes the budget step hands on come from. *)
Lemma size_budget_result image st pre bs :
  size_budget pil image (st, []) = ((st, pre), Ok bs) ->
  save_png pil image = Ok bs \/
  exists image_resized,
    resize pil image (width pil image / 2) (height pil image / 2)
    = Ok image_resized /\
    save_png pil image_resized = Ok bs.
Proof.
  intros Hb.
  destruct (save_png pil image) as [bs0|e] eqn:Hsave.
  - destruct (len bs0 >? 1024 * 1024) eqn:Hlen.
    + rewrite (size_budget_large _ _ _ _ Hsave Hlen) in Hb.
      destruct (resize pil image _ _) as [im2|e] eqn:Hres; [|discriminate].
      right. exists im2. split; [reflexivity|]. congruence.
    + rewrite (size_budget_small _ _ _ _ Hsave Hlen) in Hb. left. congruence.
  - rewrite (size_budget_save_raises _ _ _ _ Hsave) in Hb. discriminate.
Qed.

(** X1. A click makes at most one request. The request goes to the fixed
    endpoint with the demo key, overlay off and engine 2, names the file
    [image.png] of type [image/png], carries the code the catalog gives for
    the selected language, and its payload, of at most 1,048,576 bytes, is
    the PNG of the image or of the image resized to half its width and
    height. *)
Theorem click_sends_at_most_one_request image click st :
  posts pil (click_extract pil world image click st).2 = [] \/
  exists req,
    posts pil (click_extract pil world image click st).2 = [req] /\
    url req = lit "https://api.ocr.space/parse/image" /\
    apikey req = lit "helloworld" /\
    isOverlayRequired req = false /\
    OCREngine req = 2 /\
    file_field req = lit "file" /\
    file_name req = lit "image.png" /\
    file_mime req = lit "image/png" /\
    dict_lookup languages (selected_lang click) = Some (language req) /\
    len (file_bytes req) <= 1048576 /\
    (save_png pil image = Ok (file_bytes req) \/
     exists image_resized,
       resize pil image (width pil image / 2) (height pil image / 2)
       = Ok image_resized /\
       save_png pil image_resized = Ok (file_bytes req)).
Proof.
  destruct (size_budget_cases pil image st []) as (pre & r & Hb & Hp & _).
  cbn [app] in Hb.
  destruct (extract_given_budget pil world image click st pre r Hb)
    as (st' & evs & -> & _ & Hcase).
  cbn [snd]. rewrite posts_app, Hp. cbn [app].
  destruct r as [bs|e].
  - destruct (len bs >? 1024 * 1024) eqn:Hlen.
    + destruct Hcase as [-> _]. left. reflexivity.
    + destruct (dict_lookup languages (selected_lang click)) as [code|] eqn:Hc.
      * destruct Hcase as [-> _]. right. exists (ocr_request bs code).
        cbn [url apikey isOverlayRequired OCREngine file_field file_name
             file_mime language file_bytes ocr_request].
        repeat split; try reflexivity.
        -- apply gtb_false_le in Hlen. lia.
        -- exact (size_budget_result image st pre bs Hb).
      * destruct Hcase as [-> _]. left. reflexivity.
  - destruct Hcase as [-> _]. left. reflexivity.
Qed.

Lemma extract_text_returns image click (s : SessionState * list Evn) :
  snd (extract_text pil world image click s) = Ok tt.
Proof.
  unfold extract_text, try_except.
  destruct (extract_text_body pil world image click s) as [s' [[]|e]];
    reflexivity.
Qed.

(** X2. No exception leaves the handler, and every click ends with exactly
    one closing message: the log is made of calls and at most the notice,
    followed by one error, warning or success. *)
Theorem click_ends_with_one_closing_message image click st :
  snd (extract_text pil world image click (st, [])) = Ok tt /\
  exists before last,
    (click_extract pil world image click st).2 = before ++ [last] /\
    closing pil last = true /\
    forallb (fun e => negb (closing pil e)) before = true.
Proof.
  split; [apply extract_text_returns|].
  destruct (click_outcomes pil world image click st)
    as (pre & Hq & [[m ->]|[->|[(t & c & _ & _ & _ & ->)
                                |(t & c & d & _ & _ & _ & ->)]]]);
    cbn [snd]; eexists pre, _; repeat split; try reflexivity; exact Hq.
Qed.

Lemma not_success_in_quiet (pre : list Evn) m :
  forallb (fun e => negb (closing pil e)) pre = true ->
  ~ In (StSuccess pil m) pre.
Proof.
  intros Hq Hin. rewrite forallb_forall in Hq.
  specialize (Hq _ Hin). discriminate.
Qed.

Lemma history_stored click text code st :
  history (stored click text code st) =
  take 20 (entry_for {| at_time := now_local click; a_text := text;
                        a_language := selected_lang click;
                        a_filename := uploaded_name click;
                        a_processing_time := elapsed click |}
           :: history st).
Proof.
  unfold stored.
  exact (history_append {| at_time := now_local click; a_text := text;
                           a_language := selected_lang click;
                           a_filename := uploaded_name click;
                           a_processing_time := elapsed click |} _).
Qed.

Lemma stored_fields click text code st :
  ocr_result (stored click text code st) = Some text /\
  ocr_language (stored click text code st) = Some (selected_lang click) /\
  ocr_language_code (stored click text code st) = Some code /\
  shared_results (stored click text code st) = shared_results st /\
  share_url (stored click text code st) = share_url st /\
  share_id (stored click text code st) = share_id st /\
  previous_language (stored click text code st) = previous_language st.
Proof.
  unfold stored, add_to_history.
  destruct st as [r la c pt [h|] sr su si pl td];
    cbn [ocr_history set_ocr_history default from_option id
         set_processing_time set_ocr_language_code set_ocr_language
         set_ocr_result];
    match goal with
    | |- context [if ?b then _ else _] => destruct b
    end; repeat split; reflexivity.
Qed.

(** X3. When a click shows the success message, the session is consistent:
    its result is a non-empty text, it is the full text of the first
    history entry, and the share identifier and URL stored in the session
    name a record that resolves to that same text and to the selected
    language. *)
Theorem success_leaves_consistent_session image click st m :
  In (StSuccess pil m) (click_extract pil world image click st).2 ->
  exists text sid,
    text <> [] /\
    ocr_result (click_extract pil world image click st).1 = Some text /\
    ocr_language (click_extract pil world image click st).1
      = Some (selected_lang click) /\
    HistoryItem.full_text <$> head (history (click_extract pil world image click st).1)
      = Some text /\
    share_id (click_extract pil world image click st).1 = Some sid /\
    share_url (click_extract pil world image click st).1
      = Some (configured_base_url (base_url_option click)
                ++ lit "?share=" ++ sid) /\
    get_shared_result sid (click_extract pil world image click st).1
      = Some (share_record (now_unix click) text (selected_lang click)).
Proof.
  intros Hin.
  destruct (click_outcomes pil world image click st)
    as (pre & Hq & [[m' H]|[H|[(t & c & _ & _ & _ & H)
                               |(t & c & d & Hne & Hc & He & H)]]]);
    rewrite H in *; cbn [fst snd] in *.
  1-3: exfalso; apply in_app_or in Hin as [Hin|[Hin|[]]];
       [exact (not_success_in_quiet pre m Hq Hin)|discriminate].
  exists t, (share_id_of (now_unix click) d).
  destruct (stored_fields click t c st) as (Hr & Hl & _).
  split; [exact Hne|]. unfold shared.
  assert (Hh : history
                 (set_share_id (share_id_of (now_unix click) d)
                    (set_share_url
                       (configured_base_url (base_url_option click)
                          ++ lit "?share=" ++ share_id_of (now_unix click) d)
                       (set_shared_results
                          (<[share_id_of (now_unix click) d
                             := share_record (now_unix click) t
                                  (selected_lang click)]>
                             (default ∅ (shared_results (stored click t c st))))
                          (stored click t c st))))
               = history (stored click t c st)) by reflexivity.
  rewrite Hh, history_stored.
  cbn [ocr_result ocr_language share_id share_url set_share_id set_share_url
       set_shared_results].
  repeat split; try assumption; try reflexivity.
  rewrite get_shared_result_lookup.
  cbn [shared_results set_share_id set_share_url set_shared_results default
       from_option id].
  apply lookup_insert_eq.
Qed.
End ClickProperties.

Section ClickStores.
Variable pil : Pillow.
Variable world : World.

(** A click that gets an answer from the service. *)
Lemma click_after_answer image click st pre bs code result :
  size_budget pil image (st, []) = ((st, pre), Ok bs) ->
  len bs <= 1048576 ->
  dict_lookup languages (selected_lang click) = Some code ->
  requests_post_json world (ocr_request bs code) = Ok result ->
  click_extract pil world image click st =
  fst (try_except pil (handle_result pil world click result)
         (fun e => emit pil (StError pil (failure_message world e)))
         (st, seen_before_answer pil pre click bs code)).
Proof.
  intros Hb Hlen Hcode Hpost.
  assert (Hgt : (len bs >? 1024 * 1024) = false).
  { destruct (len bs >? 1024 * 1024) eqn:E; [|reflexivity].
    apply gtb_true_gt in E. lia. }
  unfold click_extract.
  rewrite (extract_after_budget _ _ _ click _ _ _ Hb), Hgt, Hcode, Hpost.
  reflexivity.
Qed.

(** X4. When the service answers with a non-empty text that UTF-8 cannot
    encode (a lone surrogate), the click stores the text as the result and
    as a new first history entry, then fails on the share link: the page
    shows the generic error, and the share URL, the share identifier and
    the stored share records stay as they were before the click. *)
Theorem unencodable_text_is_stored_without_share
    image click st pre bs code result text :
  size_budget pil image (st, []) = ((st, pre), Ok bs) ->
  len bs <= 1048576 ->
  dict_lookup languages (selected_lang click) = Some code ->
  requests_post_json world (ocr_request bs code) = Ok result ->
  extracted_text result = Some text ->
  encode (text ++ selected_lang click ++ str_of_int (now_unix click)) = None ->
  (click_extract pil world image click st).2
  = seen_before_answer pil pre click bs code
      ++ [StError pil (lit "Error processing image: "
                         ++ exn_message world UnicodeEncodeError)] /\
  ocr_result (click_extract pil world image click st).1 = Some text /\
  ocr_language (click_extract pil world image click st).1
    = Some (selected_lang click) /\
  HistoryItem.full_text
    <$> head (history (click_extract pil world image click st).1) = Some text /\
  share_url (click_extract pil world image click st).1 = share_url st /\
  share_id (click_extract pil world image click st).1 = share_id st /\
  shared_results (click_extract pil world image click st).1 = shared_results st.
Proof.
  intros Hb Hlen Hcode Hpost Hex He.
  rewrite (click_after_answer image click st pre bs code result Hb Hlen Hcode Hpost).
  unfold try_except.
  pose proof (handle_result_outcome pil world click result st
                (seen_before_answer pil pre click bs code)) as Hout.
  rewrite Hex in Hout. destruct Hout as [_ ->].
  rewrite keep_result_paths, Hcode, He. unfold emit. cbn [fst snd].
  destruct (stored_fields click text code st) as (Hr & Hl & _ & Hs & Hu & Hi & _).
  rewrite history_stored. repeat split; assumption || reflexivity.
Qed.
End ClickStores.

(** ** Invariants of a session *)

Section SessionInvariants.
Variable pil : Pillow.
Variable world : World.

Lemma preview_of_length text : len (preview_of text) <= 203.
Proof.
  unfold preview_of, len.
  destruct (Z.of_nat (length text) >? 200) eqn:E.
  - rewrite length_app, length_take. change (length (lit "...")) with 3%nat. lia.
  - apply gtb_false_le in E. lia.
Qed.

(** The history a click leaves: the one before, or a new entry in front of
    it, cut to 20. *)
Lemma history_after_click image click st :
  history (click_extract pil world image click st).1 = history st \/
  exists text,
    history (click_extract pil world image click st).1
    = take 20 (entry_for {| at_time := now_local click; a_text := text;
                            a_language := selected_lang click;
                            a_filename := uploaded_name click;
                            a_processing_time := elapsed click |}
               :: history st).
Proof.
  destruct (click_outcomes pil world image click st)
    as (pre & _ & [[m ->]|[->|[(t & c & _ & _ & _ & ->)
                               |(t & c & d & _ & _ & _ & ->)]]]);
    cbn [fst]; [left; reflexivity|left; reflexivity|right|right]; exists t.
  - apply history_stored.
  - rewrite <- history_stored with (code := c). reflexivity.
Qed.

Lemma history_ok_act st (a : Action pil) :
  (length (history st) <= 20)%nat /\ Forall preview_ok (history st) ->
  (length (history (act pil world st a)) <= 20)%nat /\
  Forall preview_ok (history (act pil world st a)).
Proof.
  intros [Hlen Hok]. destruct a as [image click| |i|i|name]; cbn [act].
  - destruct (history_after_click image click st) as [->|[text ->]]; [auto|].
    split; [rewrite length_take; lia|].
    apply Forall_take. constructor; [reflexivity|exact Hok].
  - auto.
  - rewrite history_view. auto.
  - rewrite history_delete. split.
    + pose proof (sublist_length _ _ (sublist_delete (history st) i)). lia.
    + apply Forall_delete, Hok.
  - unfold language_panel.
    destruct (previous_language st);
      cbn [previous_language set_previous_language default from_option id];
      match goal with |- context [if ?b then _ else _] => destruct b end;
      cbn [fst]; auto.
Qed.

(** X5. Whatever the user does in a session (extract, clear, view, delete,
    change the language), the history never holds more than 20 entries, and
    the preview of every entry is the one its full text determines: the
    text itself up to 200 characters, its first 200 characters and "..."
    beyond; so no preview is longer than 203 characters. *)
Theorem history_bounded_and_previews_derived (actions : list (Action pil)) :
  (length (history (session_after pil world actions)) <= 20)%nat /\
  forall h,
    In h (history (session_after pil world actions)) ->
    HistoryItem.text h = preview_of (HistoryItem.full_text h) /\
    len (HistoryItem.text h) <= 203.
Proof.
  assert (H : forall acts st,
             (length (history st) <= 20)%nat /\ Forall preview_ok (history st) ->
             (length (history (fold_left (act pil world) acts st)) <= 20)%nat /\
             Forall preview_ok (history (fold_left (act pil world) acts st))).
  { induction acts as [|a acts IH]; intros st Hst; [exact Hst|].
    cbn [fold_left]. apply IH, history_ok_act, Hst. }
  destruct (H actions new_session) as [Hlen Hok].
  { split; [cbn; lia|constructor]. }
  split; [exact Hlen|]. intros h Hin.
  rewrite List.Forall_forall in Hok. specialize (Hok h Hin).
  split; [exact Hok|]. rewrite Hok. apply preview_of_length.
Qed.
End SessionInvariants.

Section SessionInvariantsShare.
Variable pil : Pillow.
Variable world : World.

(** The share records a click leaves: those before, perhaps with one more
    (or one replaced under the same identifier). *)
Lemma shared_results_after_click image click st :
  shared_results (click_extract pil world image click st).1 = shared_results st \/
  exists text data,
    shared_results (click_extract pil world image click st).1
    = Some (<[share_id_of (now_unix click) data
              := share_record (now_unix click) text (selected_lang click)]>
              (default ∅ (shared_results st))).
Proof.
  destruct (click_outcomes pil world image click st)
    as (pre & _ & [[m ->]|[->|[(t & c & _ & _ & _ & ->)
                               |(t & c & d & _ & _ & _ & ->)]]]);
    cbn [fst]; [left; reflexivity|left; reflexivity|left|right].
  - apply stored_fields.
  - exists t, d. unfold shared.
    cbn [shared_results set_share_id set_share_url set_shared_results].
    destruct (stored_fields click t c st) as (_ & _ & _ & -> & _).
    reflexivity.
Qed.

Lemma shared_results_act_other st (a : Action pil) :
  is_extract pil a = false ->
  shared_results (act pil world st a) = shared_results st.
Proof.
  destruct a as [image click| |i|i|name]; cbn [act is_extract];
    try discriminate; intros _.
  - reflexivity.
  - unfold view_history. destruct (ocr_history st) as [h|]; [|reflexivity].
    destruct (h !! i); reflexivity.
  - unfold delete_history. destruct (ocr_history st) as [h|]; [|reflexivity].
    destruct (i <? length h)%nat; reflexivity.
  - unfold language_panel.
    destruct (previous_language st);
      cbn [previous_language set_previous_language default from_option id];
      match goal with |- context [if ?b then _ else _] => destruct b end;
      reflexivity.
Qed.

Lemma resolves_after_act st (a : Action pil) sid :
  is_Some (get_shared_result sid st) ->
  is_Some (get_shared_result sid (act pil world st a)).
Proof.
  intros Hsome.
  destruct (is_extract pil a) eqn:Ha.
  - destruct a as [image click| | | |]; try discriminate. cbn [act].
    rewrite !get_shared_result_lookup in *.
    destruct (shared_results_after_click image click st) as [->|(t & d & ->)];
      [exact Hsome|].
    cbn [default from_option id]. rewrite lookup_insert.
    case_decide; [eauto|exact Hsome].
  - rewrite !get_shared_result_lookup in *.
    rewrite (shared_results_act_other st a Ha). exact Hsome.
Qed.

(** X6. A share record is never removed: once an identifier resolves, it
    resolves after anything the user does, [Clear] included, and the shared
    view of that identifier keeps offering a download named after it. As
    long as no further extraction is made, the view shows exactly the
    recorded text and language. *)
Theorem share_survives_every_action (actions : list (Action pil)) st c sid r :
  get_shared_result (c :: sid) st = Some r ->
  (exists panel,
      shared_view (Some (c :: sid)) (fold_left (act pil world) actions st)
      = Some panel /\
      sp_download_name panel = lit "shared_ocr_" ++ (c :: sid) ++ lit ".txt") /\
  (forallb (fun a => negb (is_extract pil a)) actions = true ->
   shared_view (Some (c :: sid)) (fold_left (act pil world) actions st)
   = Some {| sp_language_line := lit "**Language:** " ++ SharedResult.language r;
             sp_text_block :=
               lit "<div class='ocr-result'>" ++ SharedResult.text r
                 ++ lit "</div>";
             sp_download_data := SharedResult.text r;
             sp_download_name := lit "shared_ocr_" ++ (c :: sid) ++ lit ".txt" |}).
Proof.
  intros Hr. split.
  - assert (Hsome : is_Some (get_shared_result (c :: sid)
                               (fold_left (act pil world) actions st))).
    { assert (H0 : is_Some (get_shared_result (c :: sid) st)) by eauto.
      clear Hr. revert st H0.
      induction actions as [|a actions IH]; intros st H0; [exact H0|].
      cbn [fold_left]. apply IH, resolves_after_act, H0. }
    destruct Hsome as [r' Hr']. unfold shared_view. rewrite Hr'.
    eexists. split; reflexivity.
  - intros Hno.
    assert (Hsame : get_shared_result (c :: sid)
                      (fold_left (act pil world) actions st) = Some r).
    { revert st Hr. induction actions as [|a actions IH]; intros st Hr;
        [exact Hr|].
      cbn [forallb] in Hno. apply andb_true_iff in Hno as [Ha Hno].
      apply negb_true_iff in Ha.
      cbn [fold_left]. apply (IH Hno).
      rewrite get_shared_result_lookup in *.
      rewrite (shared_results_act_other st a Ha). exact Hr. }
    unfold shared_view. rewrite Hsame. reflexivity.
Qed.

Lemma coherent_act st (a : Action pil) :
  coherent st -> coherent (act pil world st a).
Proof.
  intros (Hres & Hid & Hurl).
  destruct a as [image click| |i|i|name]; cbn [act].
  - destruct (click_outcomes pil world image click st)
      as (pre & _ & [[m ->]|[->|[(t & c & _ & _ & _ & ->)
                                 |(t & c & d & _ & _ & _ & ->)]]]);
      cbn [fst]; try (split; [|split]; assumption).
    + destruct (stored_fields click t c st) as (Hr & Hl & _ & Hs & Hu & Hi & _).
      split; [|split].
      * rewrite Hl. discriminate.
      * intros sid Hsid. rewrite Hi in Hsid.
        rewrite get_shared_result_lookup, Hs, <- get_shared_result_lookup.
        auto.
      * intros u Hu'. rewrite Hu in Hu'. rewrite Hi. auto.
    + destruct (stored_fields click t c st) as (Hr & Hl & _).
      unfold shared. split; [|split];
        cbn [ocr_result ocr_language share_id share_url set_share_id
             set_share_url set_shared_results].
      * rewrite Hl. discriminate.
      * intros sid [= <-]. rewrite get_shared_result_lookup.
        cbn [shared_results set_share_id set_share_url set_shared_results
             default from_option id].
        rewrite lookup_insert_eq. eauto.
      * intros u [= <-]. eauto.
  - split; [|split]; cbn [clear_button ocr_result share_id share_url].
    + congruence.
    + intros sid Hsid. specialize (Hid sid Hsid).
      rewrite get_shared_result_lookup in *. exact Hid.
    + discriminate.
  - unfold view_history. destruct (ocr_history st) as [h|];
      [|split; [|split]; assumption].
    destruct (h !! i) as [item|]; [|split; [|split]; assumption].
    split; [|split]; cbn [set_viewed ocr_result ocr_language share_id share_url].
    + discriminate.
    + intros sid Hsid. specialize (Hid sid Hsid).
      rewrite get_shared_result_lookup in *. exact Hid.
    + exact Hurl.
  - unfold delete_history. destruct (ocr_history st) as [h|];
      [|split; [|split]; assumption].
    destruct (i <? length h)%nat; [|split; [|split]; assumption].
    split; [|split]; cbn [set_ocr_history ocr_result ocr_language share_id
                          share_url].
    + exact Hres.
    + intros sid Hsid. specialize (Hid sid Hsid).
      rewrite get_shared_result_lookup in *. exact Hid.
    + exact Hurl.
  - unfold language_panel.
    destruct (previous_language st);
      cbn [previous_language set_previous_language default from_option id];
      match goal with |- context [if ?b then _ else _] => destruct b end;
      cbn [fst]; split; try split; try assumption;
      cbn [set_previous_language ocr_result ocr_language share_id share_url];
      try assumption;
      intros sid Hsid; specialize (Hid sid Hsid);
      rewrite get_shared_result_lookup in *; exact Hid.
Qed.

(** X7. In every session the user can reach: a result never stands without
    its language (so the [Unknown] fallback of the exports is not used), a
    stored share identifier always resolves, and a stored share URL always
    ends in [?share=] and the stored identifier. *)
Theorem reachable_session_is_coherent (actions : list (Action pil)) :
  (ocr_result (session_after pil world actions) <> None ->
   ocr_language (session_after pil world actions) <> None) /\
  (forall sid,
      share_id (session_after pil world actions) = Some sid ->
      is_Some (get_shared_result sid (session_after pil world actions))) /\
  (forall u,
      share_url (session_after pil world actions) = Some u ->
      exists base sid,
        share_id (session_after pil world actions) = Some sid /\
        u = base ++ lit "?share=" ++ sid).
Proof.
  assert (H : forall acts st,
             coherent st -> coherent (fold_left (act pil world) acts st)).
  { induction acts as [|a acts IH]; intros st Hst; [exact Hst|].
    cbn [fold_left]. apply IH, coherent_act, Hst. }
  apply (H actions new_session).
  split; [|split]; cbn; congruence.
Qed.
End SessionInvariantsShare.

(** ** The history tab and the language panel *)

Lemma lookup_map {A B} (f : A -> B) (l : list A) : forall i,
  map f l !! i = f <$> l !! i.
Proof. induction l as [|x l IH]; intros [|i]; cbn; auto. Qed.

Lemma view_history_found st i h :
  history st !! i = Some h ->
  view_history i st
  = set_viewed (HistoryItem.full_text h) (HistoryItem.language h) st.
Proof.
  unfold history, view_history.
  destruct (ocr_history st) as [l|]; cbn [default from_option id].
  - intros ->. reflexivity.
  - rewrite lookup_nil. discriminate.
Qed.

Lemma append_keeps_code a st :
  ocr_language_code (append a st) = ocr_language_code st.
Proof. unfold append. apply add_to_history_keeps. Qed.

(** X8. [View Full Text] on an entry makes the entry's full text (not its
    200-character preview) and its language the current result, and touches
    nothing else: the history, the language code, the processing time and
    the share link stay those of the last extraction. After any appends to
    a new session, viewing position [i] (below 20) gives the text of the
    append made [i] calls before the last. *)
Theorem view_restores_full_text_only :
  (forall st i h,
      history st !! i = Some h ->
      ocr_result (view_history i st) = Some (HistoryItem.full_text h) /\
      ocr_language (view_history i st) = Some (HistoryItem.language h) /\
      history (view_history i st) = history st /\
      ocr_language_code (view_history i st) = ocr_language_code st /\
      processing_time (view_history i st) = processing_time st /\
      share_url (view_history i st) = share_url st /\
      share_id (view_history i st) = share_id st /\
      shared_results (view_history i st) = shared_results st) /\
  (forall xs i x,
      (i < 20)%nat ->
      rev xs !! i = Some x ->
      ocr_result (view_history i (appends xs new_session)) = Some (a_text x) /\
      ocr_language (view_history i (appends xs new_session))
        = Some (a_language x) /\
      ocr_language_code (view_history i (appends xs new_session)) = None).
Proof.
  split.
  - intros st i h Hh. rewrite (view_history_found st i h Hh).
    repeat split; reflexivity.
  - intros xs i x Hi Hx.
    assert (Hh : history (appends xs new_session) !! i = Some (entry_for x)).
    { rewrite history_appends by (cbn; lia).
      cbn [history new_session ocr_history default from_option].
      rewrite app_nil_r, lookup_take_lt by exact Hi.
      rewrite <- map_rev, lookup_map, Hx. reflexivity. }
    rewrite (view_history_found _ i _ Hh).
    cbn [ocr_result ocr_language ocr_language_code set_viewed].
    repeat split.
    clear Hh Hx. induction xs as [|a xs IH] using rev_ind; [reflexivity|].
    unfold appends in *. rewrite fold_left_app. cbn [fold_left].
    rewrite append_keeps_code. exact IH.
Qed.

(** X9. [Delete] on position [i] of the history removes that entry alone:
    the list is one shorter, the entries before [i] keep their positions and
    every later entry moves up by one, so that viewing position [j]
    afterwards gives what position [j] (before [i]) or [j + 1] (from [i] on)
    gave before; the current result and the share records are not
    touched. *)
Theorem delete_removes_one_entry st i :
  (i < length (history st))%nat ->
  length (history (delete_history i st)) = (length (history st) - 1)%nat /\
  (forall j,
      history (delete_history i st) !! j
      = history st !! (if (j <? i)%nat then j else S j)) /\
  (forall j,
      (j < length (history st) - 1)%nat ->
      ocr_result (view_history j (delete_history i st))
      = ocr_result (view_history (if (j <? i)%nat then j else S j) st)) /\
  ocr_result (delete_history i st) = ocr_result st /\
  shared_results (delete_history i st) = shared_results st.
Proof.
  intros Hi.
  assert (Hlook : forall j,
             history (delete_history i st) !! j
             = history st !! (if (j <? i)%nat then j else S j)).
  { intros j. rewrite history_delete.
    destruct (j <? i)%nat eqn:E.
    - apply Nat.ltb_lt in E. apply list_lookup_delete_lt, E.
    - apply Nat.ltb_ge in E. apply list_lookup_delete_ge, E. }
  split; [|split; [exact Hlook|split]].
  - rewrite history_delete. apply length_delete, lookup_lt_is_Some_2, Hi.
  - intros j Hj.
    assert (Hsome : is_Some (history (delete_history i st) !! j)).
    { apply lookup_lt_is_Some_2. rewrite history_delete.
      rewrite length_delete by (apply lookup_lt_is_Some_2, Hi). exact Hj. }
    destruct Hsome as [h Hh].
    rewrite (view_history_found _ j h Hh).
    rewrite Hlook in Hh. rewrite (view_history_found _ _ h Hh). reflexivity.
  - unfold delete_history, history in *.
    destruct (ocr_history st) as [l|]; cbn [default from_option id] in *;
      [|split; reflexivity].
    destruct (i <? length l)%nat; split; reflexivity.
Qed.

(** X10. The language panel shows its notice exactly when the selection
    differs from the remembered one (which is English in a new session),
    remembers the selection, and is silent when the page is run again with
    the same selection: one notice per change. *)
Theorem language_notice_once_per_change st name :
  previous_language (language_panel name st).1 = Some name /\
  ((language_panel name st).2 = None <->
   name = default (lit "English") (previous_language st)) /\
  ((language_panel name st).2 <> None ->
   (language_panel name st).2
   = Some ([9989%N] ++ lit " Language changed to: " ++ name)) /\
  language_panel name (language_panel name st).1
  = ((language_panel name st).1, None).
Proof.
  assert (Hne : forall a b, str_ne a b = false <-> a = b).
  { intros a b. unfold str_ne. rewrite negb_false_iff.
    apply bool_decide_eq_true. }
  assert (Hself : str_ne name name = false) by (apply Hne; reflexivity).
  assert (Hrun : forall st0 pl,
             previous_language st0 = Some pl ->
             language_panel name st0
             = if str_ne name pl
               then (set_previous_language name st0,
                     Some ([9989%N] ++ lit " Language changed to: " ++ name))
               else (st0, None)).
  { intros st0 pl Hpl. unfold language_panel. rewrite Hpl.
    cbn beta iota zeta. rewrite Hpl. reflexivity. }
  assert (Hmain : forall st0 pl,
             previous_language st0 = Some pl ->
             previous_language (language_panel name st0).1 = Some name /\
             ((language_panel name st0).2 = None <-> name = pl) /\
             ((language_panel name st0).2 <> None ->
              (language_panel name st0).2
              = Some ([9989%N] ++ lit " Language changed to: " ++ name)) /\
             language_panel name (language_panel name st0).1
             = ((language_panel name st0).1, None)).
  { intros st0 pl Hpl. rewrite (Hrun st0 pl Hpl).
    destruct (str_ne name pl) eqn:E; cbn [fst snd].
    - split; [reflexivity|]. split; [|split].
      + split; [discriminate|]. intros ->. congruence.
      + reflexivity.
      + rewrite (Hrun (set_previous_language name st0) name eq_refl), Hself.
        reflexivity.
    - apply Hne in E. subst pl. split; [exact Hpl|]. split; [|split].
      + split; reflexivity.
      + congruence.
      + rewrite (Hrun st0 name Hpl), Hself. reflexivity. }
  destruct (previous_language st) as [pl|] eqn:Hpl.
  - cbn [default from_option id]. apply (Hmain st pl Hpl).
  - cbn [default from_option id].
    assert (Hinit : language_panel name st
                    = language_panel name
                        (set_previous_language (lit "English") st)).
    { unfold language_panel. rewrite Hpl. reflexivity. }
    rewrite Hinit.
    apply (Hmain (set_previous_language (lit "English") st) (lit "English")).
    reflexivity.
Qed.

(** ** Escaping *)

Lemma flat_map_fuse {A B C} (f : A -> list B) (g : B -> list C) (l : list A) :
  flat_map g (flat_map f l) = flat_map (fun a => flat_map g (f a)) l.
Proof.
  induction l as [|a l IH]; [reflexivity|].
  cbn [flat_map]. rewrite flat_map_app, IH. reflexivity.
Qed.

Lemma replace_char_flat_map old new (f : codepoint -> str) (s : str) :
  replace_char old new (flat_map f s)
  = flat_map (fun c => replace_char old new (f c)) s.
Proof. unfold replace_char. apply flat_map_fuse. Qed.

Lemma replace_char_as_flat_map old new s :
  replace_char old new s
  = flat_map (fun c => replace_char old new [c]) s.
Proof.
  unfold replace_char. apply flat_map_ext. intros c. cbn [flat_map].
  rewrite app_nil_r. reflexivity.
Qed.

Ltac split_char c n :=
  let E := fresh "E" in
  destruct (N.eqb_spec c n) as [E|E];
  [subst c; vm_compute; reflexivity|].

Lemma html_escape_char c : html_escape [c] = html_entity c.
Proof.
  unfold html_entity.
  split_char c 38%N. split_char c 60%N. split_char c 62%N.
  split_char c 34%N. split_char c 39%N.
  unfold html_escape, replace_char. cbn [flat_map app].
  repeat match goal with
         | H : c <> _ |- _ => apply N.eqb_neq in H
         end.
  repeat (cbn [flat_map app orb];
          match goal with
          | H : (c =? _)%N = false |- _ => rewrite H
          end).
  reflexivity.
Qed.

(** The five replacements in a row are one pass over the text: nothing a
    replacement inserts is touched by a later one. *)
Lemma html_escape_one_pass s : html_escape s = flat_map html_entity s.
Proof.
  transitivity (flat_map (fun c => html_escape [c]) s).
  - unfold html_escape.
    rewrite (replace_char_as_flat_map 38%N _ s).
    rewrite !replace_char_flat_map. reflexivity.
  - apply flat_map_ext. intros c. apply html_escape_char.
Qed.

Definition markup_free (c : codepoint) : Prop :=
  c <> 60%N /\ c <> 62%N /\ c <> 34%N /\ c <> 39%N.

Lemma html_entity_markup_free c : Forall markup_free (html_entity c).
Proof.
  unfold html_entity.
  destruct (N.eqb_spec c 38); [repeat constructor; discriminate|].
  destruct (N.eqb_spec c 60); [repeat constructor; discriminate|].
  destruct (N.eqb_spec c 62); [repeat constructor; discriminate|].
  destruct (N.eqb_spec c 34); [repeat constructor; discriminate|].
  destruct (N.eqb_spec c 39); [repeat constructor; discriminate|].
  repeat constructor; assumption.
Qed.

(** X11. The text shown in the first tab is escaped in one pass, each of
    the five characters ampersand, angle brackets and the two quotes replaced by its
    entity and every other character kept; so whatever the OCR text holds,
    between the opening tag and the closing tag of the block there is no
    angle bracket and no quote, and a text without those five characters is
    shown as it is. *)
Theorem extracted_text_block_has_no_markup st text :
  ocr_result st = Some text ->
  extracted_text_block st
  = Some (lit "<div class='ocr-result' role='textbox' aria-label='Extracted text result'>"
            ++ flat_map html_entity text ++ lit "</div>") /\
  Forall markup_free (flat_map html_entity text) /\
  (Forall (fun c => markup_free c /\ c <> 38%N) text ->
   flat_map html_entity text = text).
Proof.
  intros Hres. unfold extracted_text_block. rewrite Hres, html_escape_one_pass.
  split; [reflexivity|]. split.
  - clear Hres. induction text as [|c text IH]; [constructor|].
    cbn [flat_map]. apply Forall_app. split; [apply html_entity_markup_free|].
    apply IH.
  - clear Hres. induction 1 as [|c text [(H1 & H2 & H3 & H4) H5] _ IH];
      [reflexivity|].
    cbn [flat_map]. rewrite IH. unfold html_entity.
    apply N.eqb_neq in H1, H2, H3, H4, H5.
    rewrite H1, H2, H3, H4, H5. reflexivity.
Qed.

Lemma ocr_text_js_char c : ocr_text_js [c] = js_char c.
Proof.
  unfold js_char, js_special.
  split_char c 39%N. split_char c 34%N. split_char c 123%N. split_char c 125%N.
  unfold ocr_text_js, replace_char. cbn [flat_map app].
  repeat match goal with
         | H : c <> _ |- _ => apply N.eqb_neq in H
         end.
  repeat (cbn [flat_map app orb];
          match goal with
          | H : (c =? _)%N = false |- _ => rewrite H
          end).
  reflexivity.
Qed.

Lemma ocr_text_js_one_pass s : ocr_text_js s = flat_map js_char s.
Proof.
  transitivity (flat_map (fun c => ocr_text_js [c]) s).
  - unfold ocr_text_js.
    rewrite (replace_char_as_flat_map 39%N _ s).
    rewrite !replace_char_flat_map. reflexivity.
  - apply flat_map_ext. intros c. apply ocr_text_js_char.
Qed.

Lemma js_escaped_head_not_special s c t :
  flat_map js_char s = c :: t -> js_special c = false.
Proof.
  destruct s as [|d s]; [discriminate|].
  cbn [flat_map]. unfold js_char at 1.
  destruct (js_special d) eqn:Hd; cbn [app]; intros [= <- _];
    [reflexivity|exact Hd].
Qed.

Lemma js_unescape_escape s : js_unescape (flat_map js_char s) = s.
Proof.
  induction s as [|c s IH]; [reflexivity|].
  cbn [flat_map]. unfold js_char at 1.
  destruct (js_special c) eqn:Hc; cbn [app].
  - cbn [js_unescape]. rewrite Hc, N.eqb_refl. cbn [andb]. rewrite IH.
    reflexivity.
  - destruct (flat_map js_char s) as [|d t] eqn:Hs.
    + cbn [js_unescape] in *. rewrite <- IH. reflexivity.
    + cbn [js_unescape]. rewrite (js_escaped_head_not_special s d t Hs).
      rewrite andb_false_r. cbn [js_unescape] in IH. rewrite IH. reflexivity.
Qed.

(** X12. The text handed to the clipboard script is the result with a
    backslash put before every quote, double quote and brace, in one pass
    (no replacement touches what another inserted) and with every other
    character, backslashes and backticks included, left as it is; dropping those
    backslashes gives the result back, so two different results never
    give the same script text. *)
Theorem clipboard_text_escaping_is_lossless :
  (forall s, ocr_text_js s = flat_map js_char s) /\
  (forall s, js_unescape (ocr_text_js s) = s) /\
  (forall s1 s2, ocr_text_js s1 = ocr_text_js s2 -> s1 = s2) /\
  (forall s, Forall (fun c => js_special c = false) s -> ocr_text_js s = s).
Proof.
  assert (Hrt : forall s, js_unescape (ocr_text_js s) = s).
  { intros s. rewrite ocr_text_js_one_pass. apply js_unescape_escape. }
  split; [exact ocr_text_js_one_pass|]. split; [exact Hrt|]. split.
  - intros s1 s2 H. rewrite <- (Hrt s1), <- (Hrt s2), H. reflexivity.
  - intros s Hs. rewrite ocr_text_js_one_pass.
    induction Hs as [|c s Hc _ IH]; [reflexivity|].
    cbn [flat_map]. unfold js_char at 1. rewrite Hc, IH. reflexivity.
Qed.

(** ** The shape of share identifiers *)

Lemma lit_inj s1 s2 : lit s1 = lit s2 -> s1 = s2.
Proof.
  unfold lit. intros H.
  apply (f_equal (map ascii_of_N)) in H. rewrite !map_map in H.
  rewrite !(map_ext _ (fun a => a) ascii_N_embedding), !map_id in H.
  rewrite <- (string_of_list_ascii_of_string s1),
          <- (string_of_list_ascii_of_string s2), H.
  reflexivity.
Qed.

Lemma to_int_proper z :
  Z.to_int z <> Decimal.Pos Decimal.Nil /\ Z.to_int z <> Decimal.Neg Decimal.Nil.
Proof.
  destruct z as [|p|p]; cbn [Z.to_int]; split; try discriminate;
    intros [= H]; exact (DecimalPos.Unsigned.to_uint_nonnil p H).
Qed.

Lemma str_of_int_inj a b : str_of_int a = str_of_int b -> a = b.
Proof.
  unfold str_of_int. intros H. apply lit_inj in H.
  apply (f_equal NilZero.int_of_string) in H.
  destruct (to_int_proper a) as [Ha1 Ha2], (to_int_proper b) as [Hb1 Hb2].
  rewrite !NilZero.isi in H by assumption.
  injection H as H. apply DecimalZ.to_int_inj, H.
Qed.

Lemma lit_String a s : lit (String a s) = N_of_ascii a :: lit s.
Proof. reflexivity. Qed.

Lemma uint_chars d :
  Forall (fun c => is_decimal_char c = true) (lit (NilEmpty.string_of_uint d)).
Proof.
  induction d; cbn [NilEmpty.string_of_uint];
    [constructor|rewrite lit_String; constructor; [reflexivity|assumption]..].
Qed.

Lemma str_of_int_chars z :
  str_of_int z <> [] /\
  Forall (fun c => is_decimal_char c = true) (str_of_int z).
Proof.
  unfold str_of_int.
  assert (Hu : forall d,
             lit (NilZero.string_of_uint d) <> [] /\
             Forall (fun c => is_decimal_char c = true)
                    (lit (NilZero.string_of_uint d))).
  { intros d. destruct d; cbn [NilZero.string_of_uint];
      try (split; [cbn [NilEmpty.string_of_uint]; rewrite lit_String;
                   discriminate|apply uint_chars]).
    split; [discriminate|repeat constructor]. }
  destruct (Z.to_int z) as [d|d]; cbn [NilZero.string_of_int].
  - apply Hu.
  - rewrite lit_String. split; [discriminate|].
    constructor; [reflexivity|apply Hu].
Qed.

Lemma length_le_bytes n x : length (le_bytes n x) = n.
Proof. unfold le_bytes. rewrite length_map, length_seq. reflexivity. Qed.

Lemma le_bytes_range n x : Forall (fun b => 0 <= b < 256) (le_bytes n x).
Proof.
  unfold le_bytes. rewrite List.Forall_map. apply List.Forall_forall.
  intros k _. change 0xFF with (Z.ones 8). rewrite Z.land_ones by lia.
  apply Z.mod_pos_bound. reflexivity.
Qed.

Lemma md5_digest_shape msg :
  length (md5_digest msg) = 16%nat /\
  Forall (fun b => 0 <= b < 256) (md5_digest msg).
Proof.
  unfold md5_digest.
  destruct (md5_blocks _ _ _) as [[[a b] c] d].
  split.
  - rewrite !length_app, !length_le_bytes. reflexivity.
  - repeat (apply Forall_app; split); apply le_bytes_range.
Qed.

Lemma hex_digit_range n :
  0 <= n < 16 -> is_hex_digit (hex_digit n) = true.
Proof.
  intros Hn.
  assert (H : exists k, (k < 16)%nat /\ n = Z.of_nat k)
    by (exists (Z.to_nat n); lia).
  destruct H as (k & Hk & ->).
  do 16 (destruct k as [|k]; [reflexivity|]). lia.
Qed.

Lemma hex_pairs_shape (l : list Z) :
  Forall (fun b => 0 <= b < 256) l ->
  length (flat_map (fun b => [hex_digit (Z.shiftr b 4); hex_digit (Z.land b 15)]) l)
  = (2 * length l)%nat /\
  Forall (fun c => is_hex_digit c = true)
    (flat_map (fun b => [hex_digit (Z.shiftr b 4); hex_digit (Z.land b 15)]) l).
Proof.
  induction 1 as [|b l Hb _ [IH1 IH2]]; cbn [flat_map app length].
  - split; [reflexivity|constructor].
  - split; [rewrite IH1; lia|].
    constructor; [|constructor; [|exact IH2]]; apply hex_digit_range.
    + rewrite Z.shiftr_div_pow2 by lia. change (2 ^ 4) with 16.
      split; [apply Z.div_pos; lia|apply Z.div_lt_upper_bound; lia].
    + change 15 with (Z.ones 4). rewrite Z.land_ones by lia.
      apply Z.mod_pos_bound. reflexivity.
Qed.

Lemma md5_hexdigest_shape msg :
  length (md5_hexdigest msg) = 32%nat /\
  Forall (fun c => is_hex_digit c = true) (md5_hexdigest msg).
Proof.
  unfold md5_hexdigest.
  destruct (md5_digest_shape msg) as [Hlen Hall].
  destruct (hex_pairs_shape _ Hall) as [H1 H2].
  split; [rewrite H1, Hlen; reflexivity|exact H2].
Qed.

Lemma share_hash_shape data :
  length (take 8 (md5_hexdigest data)) = 8%nat /\
  Forall (fun c => is_hex_digit c = true) (take 8 (md5_hexdigest data)).
Proof.
  destruct (md5_hexdigest_shape data) as [Hlen Hall]. split.
  - rewrite length_take, Hlen. reflexivity.
  - apply Forall_take, Hall.
Qed.

Lemma share_id_of_inj_time now1 now2 data1 data2 :
  share_id_of now1 data1 = share_id_of now2 data2 -> now1 = now2.
Proof.
  unfold share_id_of. intros H. apply str_of_int_inj.
  apply (app_inj_2 _ _ _ _) in H as [H _]; [exact H|].
  rewrite !length_app, !(proj1 (share_hash_shape _)). reflexivity.
Qed.

Lemma generate_ok_inv now base text language st st' url sid :
  generate_shareable_link now base text language st = (st', Ok (url, sid)) ->
  exists data,
    encode (text ++ language ++ str_of_int now) = Some data /\
    sid = share_id_of now data /\
    url = configured_base_url base ++ lit "?share=" ++ sid /\
    st' = set_shared_results
            (<[sid := share_record now text language]>
               (default ∅ (shared_results st))) st.
Proof.
  intros H.
  destruct (encode (text ++ language ++ str_of_int now)) as [data|] eqn:He.
  - rewrite (generate_ok _ base _ _ st _ He) in H.
    injection H as <- <- <-. exists data. repeat split; reflexivity.
  - rewrite (generate_raise _ base _ _ st He) in H. discriminate.
Qed.

(** X13. Whenever a share is created, its identifier is the time stamp in
    decimal (never empty, digits and possibly a minus sign), one
    underscore, and exactly eight lower-case hexadecimal digits. The
    identifier is therefore made only of characters that stand for
    themselves after [?share=] in the link, and the link returned is the
    base URL, [?share=] and that identifier. *)
Theorem share_identifier_is_url_safe now base text language st st' url sid :
  generate_shareable_link now base text language st = (st', Ok (url, sid)) ->
  (exists hash,
      sid = str_of_int now ++ lit "_" ++ hash /\
      str_of_int now <> [] /\
      Forall (fun c => is_decimal_char c = true) (str_of_int now) /\
      length hash = 8%nat /\
      Forall (fun c => is_hex_digit c = true) hash) /\
  Forall (fun c => is_share_id_char c = true) sid /\
  url = configured_base_url base ++ lit "?share=" ++ sid.
Proof.
  intros H. apply generate_ok_inv in H as (data & _ & -> & -> & _).
  destruct (share_hash_shape data) as [Hlen Hhex].
  destruct (str_of_int_chars now) as [Hne Hdec].
  split; [|split; [|reflexivity]].
  - exists (take 8 (md5_hexdigest data)). repeat split; assumption.
  - unfold share_id_of. repeat (apply Forall_app; split).
    + eapply Forall_impl; [exact Hdec|]. intros c Hc. unfold is_share_id_char.
      rewrite Hc. reflexivity.
    + repeat constructor.
    + eapply Forall_impl; [exact Hhex|]. intros c Hc. unfold is_share_id_char.
      rewrite Hc. apply orb_true_r.
Qed.

(** X14. Shares made at different times never collide: the identifier of
    a share made at one second differs from that of any share made at another
    second, whatever the two texts are, so creating the later share leaves
    the earlier link resolving to what it resolved to, and the new link
    resolves to the new text and language. *)
Theorem share_at_another_time_keeps_earlier_link
    now1 base1 text1 language1 st0 st1 url1 id1 r
    now2 base2 text2 language2 st st2 url2 id2 :
  generate_shareable_link now1 base1 text1 language1 st0 = (st1, Ok (url1, id1)) ->
  get_shared_result id1 st = Some r ->
  generate_shareable_link now2 base2 text2 language2 st = (st2, Ok (url2, id2)) ->
  now1 <> now2 ->
  id1 <> id2 /\
  get_shared_result id1 st2 = Some r /\
  get_shared_result id2 st2
  = Some {| SharedResult.text := text2;
            SharedResult.language := language2;
            SharedResult.timestamp := str_of_int now2 |}.
Proof.
  intros H1 Hr H2 Hne.
  apply generate_ok_inv in H1 as (data1 & _ & -> & _ & _).
  apply generate_ok_inv in H2 as (data2 & _ & -> & _ & ->).
  assert (Hid : share_id_of now1 data1 <> share_id_of now2 data2).
  { intros E. apply Hne, (share_id_of_inj_time _ _ _ _ E). }
  split; [exact Hid|]. rewrite !get_after_set. split.
  - rewrite lookup_insert_ne by congruence.
    rewrite <- get_shared_result_lookup. exact Hr.
  - rewrite lookup_insert_eq. reflexivity.
Qed.

(** ** The analyzer works line by line *)

Lemma lstrip_spec s :
  exists p, s = p ++ lstrip s /\ forallb isspace p = true /\
            forall c, head (lstrip s) = Some c -> isspace c = false.
Proof.
  induction s as [|c s (p & Hs & Hp & Hh)]; cbn [lstrip].
  - exists []. repeat split. discriminate.
  - destruct (isspace c) eqn:Hc.
    + exists (c :: p). cbn [app forallb]. rewrite Hc, Hp, <- Hs.
      repeat split. exact Hh.
    + exists []. repeat split. cbn. intros ? [= <-]. exact Hc.
Qed.

Lemma last_rev {A} (l : list A) : last (rev l) = head l.
Proof. destruct l as [|x l]; [reflexivity|]. cbn [rev]. apply last_snoc. Qed.

Lemma forallb_rev {A} (f : A -> bool) (l : list A) :
  forallb f (rev l) = forallb f l.
Proof.
  induction l as [|x l IH]; [reflexivity|].
  cbn [rev forallb]. rewrite forallb_app, IH. cbn [forallb].
  rewrite andb_true_r. apply andb_comm.
Qed.

Lemma rstrip_spec s :
  exists q, s = rstrip s ++ q /\ forallb isspace q = true /\
            forall c, last (rstrip s) = Some c -> isspace c = false.
Proof.
  unfold rstrip. destruct (lstrip_spec (rev s)) as (p & Hs & Hp & Hh).
  exists (rev p). split; [|split].
  - rewrite <- rev_app_distr, <- Hs, rev_involutive. reflexivity.
  - rewrite forallb_rev. exact Hp.
  - intros c. rewrite last_rev. apply Hh.
Qed.

(** [strip] removes a run of white space at each end and nothing else; what
    is left begins and ends with a character that is not white space. *)
Lemma strip_spec s :
  exists p q, s = p ++ strip s ++ q /\
              forallb isspace p = true /\ forallb isspace q = true /\
              trimmed (strip s).
Proof.
  unfold strip.
  destruct (lstrip_spec s) as (p & Hs & Hp & Hh).
  destruct (rstrip_spec (lstrip s)) as (q & Ht & Hq & Hl).
  exists p, q. split; [rewrite <- Ht; exact Hs|].
  split; [exact Hp|]. split; [exact Hq|]. split; [|exact Hl].
  intros c Hc. apply Hh.
  destruct (rstrip (lstrip s)) as [|d r]; [discriminate|].
  rewrite Ht. exact Hc.
Qed.

Lemma split_nonempty s sep : split s sep <> [].
Proof.
  destruct s as [|c s]; cbn [split]; [discriminate|].
  destruct (c =? sep)%N; [discriminate|].
  destruct (split s sep); discriminate.
Qed.

Lemma split_app a b sep :
  split (a ++ sep :: b) sep = split a sep ++ split b sep.
Proof.
  induction a as [|c a IH]; cbn [app split].
  - rewrite N.eqb_refl. reflexivity.
  - destruct (c =? sep)%N; rewrite IH; [reflexivity|].
    pose proof (split_nonempty a sep).
    destruct (split a sep); [contradiction|reflexivity].
Qed.

Lemma split_pieces s sep : Forall (fun w => sep ∉ w) (split s sep).
Proof.
  induction s as [|c s IH]; cbn [split].
  - repeat constructor. apply not_elem_of_nil.
  - destruct (N.eqb_spec c sep) as [->|Hne].
    + constructor; [apply not_elem_of_nil|exact IH].
    + destruct (split s sep) as [|w ws].
      { constructor; [|constructor]. rewrite list_elem_of_singleton.
        congruence. }
      apply Forall_cons in IH as [Hw Hws]. constructor; [|exact Hws].
      rewrite elem_of_cons. intros [E|E]; [congruence|contradiction].
Qed.

Lemma enumerate_from_app {A} (l1 l2 : list A) : forall k,
  enumerate_from k (l1 ++ l2)
  = enumerate_from k l1 ++ enumerate_from (k + len l1) l2.
Proof.
  unfold len. induction l1 as [|x l1 IH]; intros k; cbn [app enumerate_from length].
  - f_equal. lia.
  - rewrite IH. do 3 f_equal. lia.
Qed.

Lemma entry_of_shift k n raw :
  entry_of (k + n, raw) = shift_lines n <$> entry_of (k, raw).
Proof.
  unfold entry_of. cbn [fst snd].
  destruct (falsy (strip raw)); [reflexivity|].
  cbn. unfold shift_lines. cbn [line text]. do 2 f_equal. lia.
Qed.

Lemma entry_of_line k raw e : entry_of (k, raw) = Some e -> line e = k + 1.
Proof.
  unfold entry_of. cbn [fst snd].
  destruct (falsy (strip raw)); [discriminate|]. intros [= <-]. reflexivity.
Qed.

Lemma entries_shift (l : list str) n : forall k,
  omap entry_of (enumerate_from (k + n) l)
  = map (shift_lines n) (omap entry_of (enumerate_from k l)).
Proof.
  induction l as [|raw l IH]; intros k; [reflexivity|].
  cbn [enumerate_from omap list_omap]. rewrite entry_of_shift.
  replace (k + n + 1) with ((k + 1) + n) by lia. rewrite IH.
  destruct (entry_of (k, raw)); reflexivity.
Qed.

Lemma entries_app a b :
  entries (a ++ 10%N :: b)
  = entries a ++ map (shift_lines (len (split a 10%N))) (entries b).
Proof.
  unfold entries, enumerate.
  rewrite split_app, enumerate_from_app, omap_app.
  rewrite (entries_shift _ _ 0). reflexivity.
Qed.

Lemma filter_map_shift (P : Entry -> Prop) `{!forall e, Decision (P e)} n
    (l : list Entry) :
  (forall e, P (shift_lines n e) <-> P e) ->
  filter P (map (shift_lines n) l) = map (shift_lines n) (filter P l).
Proof.
  intros HP. induction l as [|e l IH]; [reflexivity|].
  cbn [map]. rewrite !filter_cons, IH.
  destruct (decide (P (shift_lines n e))) as [Hs|Hs],
           (decide (P e)) as [He|He]; try reflexivity;
    exfalso; specialize (HP e); tauto.
Qed.

Lemma sorted_lines_from (l : list str) : forall k,
  StronglySorted Z.lt (map line (omap entry_of (enumerate_from k l))) /\
  Forall (fun e => k < line e) (omap entry_of (enumerate_from k l)).
Proof.
  induction l as [|raw l IH]; intros k; cbn [enumerate_from omap list_omap].
  - split; constructor.
  - destruct (IH (k + 1)) as [Hs Hf].
    assert (Hf' : Forall (fun e => k < line e)
                    (omap entry_of (enumerate_from (k + 1) l))).
    { eapply Forall_impl; [exact Hf|]. cbn beta. intros e He. lia. }
    destruct (entry_of (k, raw)) as [e|] eqn:He; [|split; assumption].
    apply entry_of_line in He. cbn [map]. split.
    + constructor; [exact Hs|].
      rewrite List.Forall_map. eapply Forall_impl; [exact Hf|].
      cbn beta. intros e' He'. lia.
    + constructor; [lia|exact Hf'].
Qed.

Lemma sorted_lines_filter (P : Entry -> Prop) `{!forall e, Decision (P e)}
    (l : list Entry) :
  StronglySorted Z.lt (map line l) ->
  StronglySorted Z.lt (map line (filter P l)).
Proof.
  induction l as [|e l IH]; [intros _; constructor|].
  cbn [map]. intros Hs. apply StronglySorted_inv in Hs as [Hs Hf].
  rewrite filter_cons. destruct (decide (P e)); [|apply IH, Hs].
  cbn [map]. constructor; [apply IH, Hs|].
  rewrite List.Forall_map in *. apply List.Forall_forall.
  intros x Hx. rewrite List.Forall_forall in Hf. apply Hf.
  apply list_elem_of_In. apply list_elem_of_In in Hx.
  apply list_elem_of_filter in Hx. tauto.
Qed.

Section AnalyzerLines.
Variable ucd : UnicodeData.

(** X15. The analysis goes line by line: the analysis of two texts joined
    by a newline is, bucket by bucket, the entries of the first text
    followed by those of the second with their line numbers moved down by
    the number of lines of the first. So a line is filed under the same
    bucket wherever it stands and whatever the other lines are. *)
Theorem analysis_of_joined_texts a b bk :
  bucket bk (analyze_text_structure ucd (a ++ 10%N :: b))
  = bucket bk (analyze_text_structure ucd a)
      ++ map (shift_lines (len (split a 10%N)))
             (bucket bk (analyze_text_structure ucd b)).
Proof.
  rewrite !bucket_analyze, entries_app, filter_app.
  rewrite (filter_map_shift (fun e => classify ucd (text e) = bk));
    [reflexivity|].
  intros e. reflexivity.
Qed.

(** X16. In every bucket of every analysis the entries stand in the order
    of the text, with strictly increasing line numbers between 1 and the
    number of lines; each recorded text is not empty, has no white space at
    either end, holds no newline, and is the line it came from with only
    white space removed at its two ends. *)
Theorem bucket_entries_ordered_and_trimmed t bk :
  StronglySorted Z.lt (map line (bucket bk (analyze_text_structure ucd t))) /\
  Forall (fun e =>
            1 <= line e <= len (split t 10%N) /\
            text e <> [] /\ trimmed (text e) /\ (10%N ∉ text e) /\
            exists raw p q,
              split t 10%N !! Z.to_nat (line e - 1) = Some raw /\
              raw = p ++ text e ++ q /\
              forallb isspace p = true /\ forallb isspace q = true)
         (bucket bk (analyze_text_structure ucd t)).
Proof.
  rewrite bucket_analyze. split.
  - apply sorted_lines_filter. apply sorted_lines_from.
  - apply Forall_forall. intros e He.
    apply list_elem_of_filter in He as [_ He].
    apply elem_of_entries in He as (i & raw & Hi & Hne & ->).
    cbn [line text].
    destruct (strip_spec raw) as (p & q & Hraw & Hp & Hq & Htrim).
    pose proof (lookup_lt_Some _ _ _ Hi) as Hlt.
    split; [unfold len; lia|]. split; [exact Hne|]. split; [exact Htrim|].
    split.
    + pose proof (split_pieces t 10%N) as Hall.
      rewrite Forall_forall in Hall.
      specialize (Hall raw (list_elem_of_lookup_2 _ _ _ Hi)).
      intros Hin. apply Hall. rewrite Hraw.
      rewrite !elem_of_app. tauto.
    + exists raw, p, q.
      replace (Z.to_nat (Z.of_nat i + 1 - 1)) with i by lia.
      repeat split; assumption.
Qed.
End AnalyzerLines.

(** ** The further properties on sample runs *)

Lemma success_leaves_consistent_session_witness :
  exists text sid,
    text <> [] /\
    ocr_result (click_extract raster_pillow (canned_world (Ok hello_answer))
                              (10, 10) sample_click new_session).1 = Some text /\
    ocr_language (click_extract raster_pillow (canned_world (Ok hello_answer))
                                (10, 10) sample_click new_session).1
      = Some (selected_lang sample_click) /\
    HistoryItem.full_text
      <$> head (history (click_extract raster_pillow
                           (canned_world (Ok hello_answer))
                           (10, 10) sample_click new_session).1)
      = Some text /\
    share_id (click_extract raster_pillow (canned_world (Ok hello_answer))
                            (10, 10) sample_click new_session).1 = Some sid /\
    share_url (click_extract raster_pillow (canned_world (Ok hello_answer))
                             (10, 10) sample_click new_session).1
      = Some (configured_base_url (base_url_option sample_click)
                ++ lit "?share=" ++ sid) /\
    get_shared_result sid
      (click_extract raster_pillow (canned_world (Ok hello_answer))
                     (10, 10) sample_click new_session).1
      = Some (share_record (now_unix sample_click) text
                (selected_lang sample_click)).
Proof.
  apply (success_leaves_consistent_session raster_pillow
           (canned_world (Ok hello_answer)) (10, 10) sample_click new_session
           (success_message (canned_world (Ok hello_answer)) sample_click)).
  vm_compute. repeat (first [left; reflexivity | right]).
Defined.

Lemma unencodable_text_is_stored_without_share_witness :
  (click_extract raster_pillow (canned_world (Ok surrogate_answer))
                 (10, 10) sample_click new_session).2
  = seen_before_answer raster_pillow [PngSave raster_pillow (10, 10)]
      sample_click (raster_bytes (10, 10)) (lit "eng")
      ++ [StError raster_pillow
            (lit "Error processing image: "
               ++ exn_message (canned_world (Ok surrogate_answer))
                    UnicodeEncodeError)] /\
  ocr_result (click_extract raster_pillow (canned_world (Ok surrogate_answer))
                            (10, 10) sample_click new_session).1
  = Some [0xD83D%N] /\
  ocr_language (click_extract raster_pillow (canned_world (Ok surrogate_answer))
                              (10, 10) sample_click new_session).1
  = Some (selected_lang sample_click) /\
  HistoryItem.full_text
    <$> head (history (click_extract raster_pillow
                         (canned_world (Ok surrogate_answer))
                         (10, 10) sample_click new_session).1)
  = Some [0xD83D%N] /\
  share_url (click_extract raster_pillow (canned_world (Ok surrogate_answer))
                           (10, 10) sample_click new_session).1
  = share_url new_session /\
  share_id (click_extract raster_pillow (canned_world (Ok surrogate_answer))
                          (10, 10) sample_click new_session).1
  = share_id new_session /\
  shared_results (click_extract raster_pillow
                    (canned_world (Ok surrogate_answer))
                    (10, 10) sample_click new_session).1
  = shared_results new_session.
Proof.
  apply (unencodable_text_is_stored_without_share raster_pillow
           (canned_world (Ok surrogate_answer)) (10, 10) sample_click
           new_session [PngSave raster_pillow (10, 10)]
           (raster_bytes (10, 10)) (lit "eng") surrogate_answer [0xD83D%N]).
  - reflexivity.
  - vm_compute. discriminate.
  - vm_compute. reflexivity.
  - reflexivity.
  - vm_compute. reflexivity.
  - vm_compute. reflexivity.
Defined.

Lemma share_survives_every_action_witness :
  (exists panel,
      shared_view (Some (49%N :: lit "700000000_e577d56d"))
        (fold_left (act raster_pillow (canned_world (Ok empty_answer)))
           [DoClear raster_pillow; DoView raster_pillow 0;
            DoDelete raster_pillow 0;
            DoSelectLanguage raster_pillow (lit "French")]
           (set_shared_results
              (<[49%N :: lit "700000000_e577d56d"
                 := share_record 1700000000 (lit "hello") (lit "English")]> ∅)
              new_session))
      = Some panel /\
      sp_download_name panel
      = lit "shared_ocr_" ++ (49%N :: lit "700000000_e577d56d") ++ lit ".txt") /\
  (forallb (fun a => negb (is_extract raster_pillow a))
     [DoClear raster_pillow; DoView raster_pillow 0; DoDelete raster_pillow 0;
      DoSelectLanguage raster_pillow (lit "French")] = true ->
   shared_view (Some (49%N :: lit "700000000_e577d56d"))
     (fold_left (act raster_pillow (canned_world (Ok empty_answer)))
        [DoClear raster_pillow; DoView raster_pillow 0;
         DoDelete raster_pillow 0;
         DoSelectLanguage raster_pillow (lit "French")]
        (set_shared_results
           (<[49%N :: lit "700000000_e577d56d"
              := share_record 1700000000 (lit "hello") (lit "English")]> ∅)
           new_session))
   = Some {| sp_language_line :=
               lit "**Language:** "
                 ++ SharedResult.language
                      (share_record 1700000000 (lit "hello") (lit "English"));
             sp_text_block :=
               lit "<div class='ocr-result'>"
                 ++ SharedResult.text
                      (share_record 1700000000 (lit "hello") (lit "English"))
                 ++ lit "</div>";
             sp_download_data :=
               SharedResult.text
                 (share_record 1700000000 (lit "hello") (lit "English"));
             sp_download_name :=
               lit "shared_ocr_" ++ (49%N :: lit "700000000_e577d56d")
                 ++ lit ".txt" |}).
Proof.
  apply (share_survives_every_action raster_pillow
           (canned_world (Ok empty_answer))).
  rewrite get_after_set. apply lookup_insert_eq.
Defined.

Lemma delete_removes_one_entry_witness :
  length (history (delete_history 0
                     (appends [sample_append 1; sample_append 2] new_session)))
  = (length (history (appends [sample_append 1; sample_append 2] new_session))
     - 1)%nat /\
  (forall j,
      history (delete_history 0
                 (appends [sample_append 1; sample_append 2] new_session)) !! j
      = history (appends [sample_append 1; sample_append 2] new_session)
          !! (if (j <? 0)%nat then j else S j)) /\
  (forall j,
      (j < length (history (appends [sample_append 1; sample_append 2]
                              new_session)) - 1)%nat ->
      ocr_result (view_history j
                    (delete_history 0
                       (appends [sample_append 1; sample_append 2] new_session)))
      = ocr_result (view_history (if (j <? 0)%nat then j else S j)
                      (appends [sample_append 1; sample_append 2] new_session))) /\
  ocr_result (delete_history 0
                (appends [sample_append 1; sample_append 2] new_session))
  = ocr_result (appends [sample_append 1; sample_append 2] new_session) /\
  shared_results (delete_history 0
                    (appends [sample_append 1; sample_append 2] new_session))
  = shared_results (appends [sample_append 1; sample_append 2] new_session).
Proof.
  apply (delete_removes_one_entry
           (appends [sample_append 1; sample_append 2] new_session) 0).
  vm_compute. lia.
Defined.

Lemma extracted_text_block_has_no_markup_witness :
  extracted_text_block (set_ocr_result (lit "<b>Tom & Jerry</b>") new_session)
  = Some (lit "<div class='ocr-result' role='textbox' aria-label='Extracted text result'>"
            ++ flat_map html_entity (lit "<b>Tom & Jerry</b>") ++ lit "</div>") /\
  Forall markup_free (flat_map html_entity (lit "<b>Tom & Jerry</b>")) /\
  (Forall (fun c => markup_free c /\ c <> 38%N) (lit "<b>Tom & Jerry</b>") ->
   flat_map html_entity (lit "<b>Tom & Jerry</b>") = lit "<b>Tom & Jerry</b>").
Proof.
  apply (extracted_text_block_has_no_markup
           (set_ocr_result (lit "<b>Tom & Jerry</b>") new_session)
           (lit "<b>Tom & Jerry</b>")).
  reflexivity.
Defined.

Lemma share_identifier_is_url_safe_witness :
  (exists hash,
      share_id_of 1700000000 (ascii_bytes "helloEnglish1700000000")
      = str_of_int 1700000000 ++ lit "_" ++ hash /\
      str_of_int 1700000000 <> [] /\
      Forall (fun c => is_decimal_char c = true) (str_of_int 1700000000) /\
      length hash = 8%nat /\
      Forall (fun c => is_hex_digit c = true) hash) /\
  Forall (fun c => is_share_id_char c = true)
    (share_id_of 1700000000 (ascii_bytes "helloEnglish1700000000")) /\
  configured_base_url None ++ lit "?share="
    ++ share_id_of 1700000000 (ascii_bytes "helloEnglish1700000000")
  = configured_base_url None ++ lit "?share="
      ++ share_id_of 1700000000 (ascii_bytes "helloEnglish1700000000").
Proof.
  apply (share_identifier_is_url_safe 1700000000 None (lit "hello")
           (lit "English") new_session _ _ _
           (generate_ok 1700000000 None (lit "hello") (lit "English")
              new_session (ascii_bytes "helloEnglish1700000000") eq_refl)).
Defined.

Lemma share_at_another_time_keeps_earlier_link_witness :
  share_id_of 1700000000 (ascii_bytes "helloEnglish1700000000")
  <> share_id_of 1700000001 (ascii_bytes "worldEnglish1700000001") /\
  get_shared_result
    (share_id_of 1700000000 (ascii_bytes "helloEnglish1700000000"))
    (set_shared_results
       (<[share_id_of 1700000001 (ascii_bytes "worldEnglish1700000001")
          := share_record 1700000001 (lit "world") (lit "English")]>
          (default ∅
             (shared_results
                (generate_shareable_link 1700000000 None (lit "hello")
                   (lit "English") new_session).1)))
       (generate_shareable_link 1700000000 None (lit "hello")
          (lit "English") new_session).1)
  = Some (share_record 1700000000 (lit "hello") (lit "English")) /\
  get_shared_result
    (share_id_of 1700000001 (ascii_bytes "worldEnglish1700000001"))
    (set_shared_results
       (<[share_id_of 1700000001 (ascii_bytes "worldEnglish1700000001")
          := share_record 1700000001 (lit "world") (lit "English")]>
          (default ∅
             (shared_results
                (generate_shareable_link 1700000000 None (lit "hello")
                   (lit "English") new_session).1)))
       (generate_shareable_link 1700000000 None (lit "hello")
          (lit "English") new_session).1)
  = Some {| SharedResult.text := lit "world";
            SharedResult.language := lit "English";
            SharedResult.timestamp := str_of_int 1700000001 |}.
Proof.
  eapply (share_at_another_time_keeps_earlier_link
            1700000000 None (lit "hello") (lit "English") new_session
           _ _ _ (share_record 1700000000 (lit "hello") (lit "English"))
           1700000001 None (lit "world") (lit "English")
           (generate_shareable_link 1700000000 None (lit "hello")
              (lit "English") new_session).1
           _ (configured_base_url None ++ lit "?share="
                ++ share_id_of 1700000001
                     (ascii_bytes "worldEnglish1700000001"))).
  - exact (generate_ok 1700000000 None (lit "hello") (lit "English")
             new_session (ascii_bytes "helloEnglish1700000000") eq_refl).
  - rewrite (generate_ok 1700000000 None (lit "hello") (lit "English")
               new_session (ascii_bytes "helloEnglish1700000000") eq_refl).
    cbn [fst]. rewrite get_after_set. apply lookup_insert_eq.
  - exact (generate_ok 1700000001 None (lit "world") (lit "English")
             _ (ascii_bytes "worldEnglish1700000001") eq_refl).
  - discriminate.
Defined.
